(** * ITI-Django-Labs: the marketplace catalogue (lab2, lab3)

    A shallow embedding of the views, forms and models of the two labs,
    together with the parts of Python and Django they call: [int] and
    [float] on strings, [uuid.uuid4], [django.core.paginator.Paginator],
    query sets with [filter], [|] and the [icontains] and [iexact] lookups,
    and the constraints the model fields put on the tables.

    Conventions.
    - A Python [str] is a list of characters ([list ascii]).  Text is
      taken to be ASCII: the letters, digits and white space are those
      of ASCII, and letter case is folded on the ASCII letters, as
      SQLite's [LIKE] does.
    - Python integers are [Z].
    - A table is the list of its rows in creation order.  Timestamps are
      not kept: [created_at] is increasing along the creation order, and
      that is all [ordering = ['-created_at']] needs.
    - The database is taken to be the one a Django project starts with
      (SQLite): [unique=True] and [PositiveIntegerField] are enforced by
      the table ([UNIQUE], [CHECK (instock >= 0)]), [max_length] is not.
    - Sources of randomness are explicit: [os.urandom] is a function from
      the number of the draw to the 128-bit integer drawn. *)

From Stdlib Require Import Ascii String ZArith List Bool Lia Sorted Permutation.
Import ListNotations.

Local Open Scope Z_scope.

(** ** Python built-ins *)

Module py.

(** [str] *)
Definition str := list ascii.

Definition s (lit : string) : str := list_ascii_of_string lit.

Definition ord (c : ascii) : Z := Z.of_N (N_of_ascii c).
Definition chr (n : Z) : ascii := ascii_of_N (Z.to_N n).

Definition in_range (lo hi : Z) (c : ascii) : bool :=
  (lo <=? ord c) && (ord c <=? hi).

Definition isupper (c : ascii) : bool := in_range 65 90 c.
Definition islower (c : ascii) : bool := in_range 97 122 c.
Definition isdigit (c : ascii) : bool := in_range 48 57 c.

(** [str.isspace] on one character: tab, line feed, vertical tab, form
    feed, carriage return, the four separators 0x1c-0x1f and space.
    This is the white space [str.strip] removes. *)
Definition isspace (c : ascii) : bool :=
  in_range 9 13 c || in_range 28 31 c || (ord c =? 32).

(** The white space [int] and [float] skip around a number: the six
    characters of C's [isspace]. *)
Definition c_isspace (c : ascii) : bool :=
  in_range 9 13 c || (ord c =? 32).

Definition to_lower (c : ascii) : ascii :=
  if isupper c then chr (ord c + 32) else c.
Definition to_upper (c : ascii) : ascii :=
  if islower c then chr (ord c - 32) else c.

(** [s.lower()], [s.upper()] *)
Definition lower (x : str) : str := map to_lower x.
Definition upper (x : str) : str := map to_upper x.

(** [a == b] on strings *)
Fixpoint str_eqb (a b : str) : bool :=
  match a, b with
  | [], [] => true
  | x :: a', y :: b' => Ascii.eqb x y && str_eqb a' b'
  | _, _ => false
  end.

(** [x.startswith(p)] *)
Fixpoint startswith (p x : str) : bool :=
  match p, x with
  | [], _ => true
  | _ :: _, [] => false
  | a :: p', b :: x' => Ascii.eqb a b && startswith p' x'
  end.

(** [q in x]: [q] occurs in [x] as a substring *)
Fixpoint contains (q x : str) : bool :=
  startswith q x ||
  match x with
  | [] => false
  | _ :: x' => contains q x'
  end.

(** [x] without the characters of the class [space] at its left end, at
    its right end, at both ends. *)
Fixpoint lstrip_by (space : ascii -> bool) (x : str) : str :=
  match x with
  | c :: x' => if space c then lstrip_by space x' else x
  | [] => []
  end.
Definition rstrip_by (space : ascii -> bool) (x : str) : str :=
  rev (lstrip_by space (rev x)).
Definition strip_by (space : ascii -> bool) (x : str) : str :=
  rstrip_by space (lstrip_by space x).

(** [x.strip()] *)
Definition strip (x : str) : str := strip_by isspace x.

(** Truth value of an optional string: [None] and [''] are false. *)
Definition truthy (v : option str) : bool :=
  match v with
  | None => false
  | Some [] => false
  | Some (_ :: _) => true
  end.

(** [l[lo:hi]] for [0 <= lo], [0 <= hi] *)
Definition slice {A} (l : list A) (lo hi : Z) : list A :=
  firstn (Z.to_nat (hi - lo)) (skipn (Z.to_nat lo) l).

(** A value that reaches [int(...)]: a request parameter is [None] or a
    string, a page number computed by the paginator is an integer. *)
Inductive value :=
| VNone
| VStr (x : str)
| VInt (n : Z).

Definition of_param (v : option str) : value :=
  match v with
  | None => VNone
  | Some x => VStr x
  end.

(** What [int] and [float] raise. *)
Inductive exn :=
| TypeError
| ValueError.

Definition digit_value (c : ascii) : Z := ord c - 48.

(** The longest prefix of [x] that is a run of digits in which single
    underscores may separate two digits: its value read in base ten
    (continuing [acc]), the number of digits read (continuing [n]) and
    what follows.  An underscore is read only after a digit and before
    one. *)
Fixpoint scan_digits (x : str) (acc : Z) (n : nat) : Z * nat * str :=
  match x with
  | c :: x' =>
      if isdigit c then scan_digits x' (10 * acc + digit_value c) (S n)
      else if Ascii.eqb c "_" && negb (Nat.eqb n 0) then
        match x' with
        | d :: _ => if isdigit d then scan_digits x' acc n else (acc, n, x)
        | [] => (acc, n, x)
        end
      else (acc, n, x)
  | [] => (acc, n, x)
  end.

(** An optional sign: [true] for a minus. *)
Definition scan_sign (x : str) : bool * str :=
  match x with
  | c :: x' =>
      if Ascii.eqb c "-" then (true, x')
      else if Ascii.eqb c "+" then (false, x')
      else (false, x)
  | [] => (false, x)
  end.

Definition signed (neg : bool) (n : Z) : Z := if neg then - n else n.

(** [sys.get_int_max_str_digits()], as Python sets it. *)
Definition int_max_str_digits : nat := 4300.

(** [int(x)] for a string, base ten: surrounding white space, a sign,
    digits, no more of them than [int_max_str_digits].  [None] stands
    for [ValueError]. *)
Definition int_of_str (x : str) : option Z :=
  let '(neg, body) := scan_sign (strip_by c_isspace x) in
  match scan_digits body 0 0 with
  | (n, S k, []) =>
      if Nat.ltb int_max_str_digits (S k) then None else Some (signed neg n)
  | _ => None
  end.

(** [int(v)] *)
Definition int (v : value) : exn + Z :=
  match v with
  | VNone => inl TypeError
  | VInt n => inr n
  | VStr x =>
      match int_of_str x with
      | Some n => inr n
      | None => inl ValueError
      end
  end.

(** A Python [float] read from a decimal string.  A finite value is
    kept as the decimal that was written, [mantissa * 10 ^ exponent]
    with its sign apart; the rounding of that decimal to a binary
    double is not modelled.  What is modelled is which strings
    [float] accepts, the sign, and the overflow to infinity. *)
Inductive pyfloat :=
| Finite (neg : bool) (mantissa : Z) (exponent : Z)
| Inf (neg : bool)
| NaN.

(** A decimal at or above [2^1024 - 2^970] rounds to infinity. *)
Definition overflows (m e : Z) : bool :=
  let bound := 2 ^ 1024 - 2 ^ 970 in
  if 0 <=? e then bound <=? m * 10 ^ e
  else bound * 10 ^ (- e) <=? m.

Definition mk_finite (neg : bool) (m e : Z) : pyfloat :=
  if overflows m e then Inf neg else Finite neg m e.

(** An optional exponent: [e] or [E], a sign, digits. *)
Definition scan_exponent (x : str) : option (Z * str) :=
  match x with
  | c :: x' =>
      if Ascii.eqb (to_lower c) "e" then
        let '(neg, body) := scan_sign x' in
        match scan_digits body 0 0 with
        | (n, S _, rest) => Some (signed neg n, rest)
        | _ => None
        end
      else Some (0, x)
  | [] => Some (0, x)
  end.

(** [float(x)] for a string.  [None] stands for [ValueError]. *)
Definition float_of_str (x : str) : option pyfloat :=
  let '(neg, body) := scan_sign (strip_by c_isspace x) in
  let word := lower body in
  if str_eqb word (s "inf") || str_eqb word (s "infinity") then Some (Inf neg)
  else if str_eqb word (s "nan") then Some NaN
  else
    let '(ip, ni, after_int) := scan_digits body 0 0 in
    let '(m, nf, after_frac) :=
      match after_int with
      | c :: x' => if Ascii.eqb c "." then scan_digits x' ip 0
                   else (ip, O, after_int)
      | [] => (ip, O, after_int)
      end in
    match ni, nf with
    | O, O => None
    | _, _ =>
        match scan_exponent after_frac with
        | Some (e, []) => Some (mk_finite neg m (e - Z.of_nat nf))
        | _ => None
        end
    end.

Definition float_is_finite (f : pyfloat) : bool :=
  match f with
  | Finite _ _ _ => true
  | _ => false
  end.

End py.

(** ** [uuid] *)

Module uuid.

Record UUID := { int : Z }.

(** [UUID(bytes=..., version=4)]: the variant and version bits are set
    over the 128-bit integer [n] read from the bytes. *)
Definition with_version (n version : Z) : Z :=
  let n := Z.land n (Z.lnot (Z.shiftl 0xc000 48)) in
  let n := Z.lor n (Z.shiftl 0x8000 48) in
  let n := Z.land n (Z.lnot (Z.shiftl 0xf000 64)) in
  Z.lor n (Z.shiftl version 76).

(** [uuid4()], from the integer [rnd] that [os.urandom(16)] gave,
    [0 <= rnd < 2^128]. *)
Definition uuid4 (rnd : Z) : UUID := {| int := with_version rnd 4 |}.

Definition hexdigits : py.str := py.s "0123456789abcdef".

Definition hexdigit (d : Z) : ascii := nth (Z.to_nat d) hexdigits "0"%char.

(** ['%032x' % n] for [0 <= n < 2^128]: thirty-two digits, the most
    significant first. *)
Definition format_032x (n : Z) : py.str :=
  map (fun i => hexdigit (Z.shiftr n (4 * (31 - Z.of_nat i)) mod 16)) (seq 0 32).

(** [str(u)]: the digits in groups of 8, 4, 4, 4 and 12. *)
Definition str (u : UUID) : py.str :=
  let hex := format_032x (int u) in
  py.slice hex 0 8 ++ py.s "-" ++ py.slice hex 8 12 ++ py.s "-" ++
  py.slice hex 12 16 ++ py.s "-" ++ py.slice hex 16 20 ++ py.s "-" ++
  py.slice hex 20 32.

End uuid.

(** ** [django.core.paginator] *)

Module paginator.

Inductive InvalidPage :=
| PageNotAnInteger
| EmptyPage.

Section Paginator.
Context {A : Type}.

Record Paginator := {
  object_list : list A;
  per_page : Z;
  orphans : Z;
  allow_empty_first_page : bool
}.

(** [Paginator(object_list, per_page)] *)
Definition make (l : list A) (size : Z) : Paginator :=
  {| object_list := l; per_page := size; orphans := 0;
     allow_empty_first_page := true |}.

Record Page := {
  page_object_list : list A;
  number : Z;
  page_paginator : Paginator
}.

Definition count (p : Paginator) : Z := Z.of_nat (length (object_list p)).

(** [ceil(a / b)] for [0 < b] *)
Definition ceil_div (a b : Z) : Z := - ((- a) / b).

Definition num_pages (p : Paginator) : Z :=
  if (count p =? 0) && negb (allow_empty_first_page p) then 0
  else
    let hits := Z.max 1 (count p - orphans p) in
    ceil_div hits (per_page p).

Definition validate_number (p : Paginator) (v : py.value) : InvalidPage + Z :=
  match py.int v with
  | inl _ => inl PageNotAnInteger
  | inr n =>
      if n <? 1 then inl EmptyPage
      else if num_pages p <? n then inl EmptyPage
      else inr n
  end.

Definition page (p : Paginator) (v : py.value) : InvalidPage + Page :=
  match validate_number p v with
  | inl e => inl e
  | inr n =>
      let bottom := (n - 1) * per_page p in
      let top := bottom + per_page p in
      let top := if count p <=? top + orphans p then count p else top in
      inr {| page_object_list := py.slice (object_list p) bottom top;
             number := n;
             page_paginator := p |}
  end.

Definition get_page (p : Paginator) (v : py.value) : InvalidPage + Page :=
  let n :=
    match validate_number p v with
    | inr n => n
    | inl PageNotAnInteger => 1
    | inl EmptyPage => num_pages p
    end in
  page p (py.VInt n).

Definition has_next (pg : Page) : bool :=
  number pg <? num_pages (page_paginator pg).

Definition has_previous (pg : Page) : bool := 1 <? number pg.

End Paginator.

Arguments Paginator : clear implicits.
Arguments Page : clear implicits.

End paginator.

(** ** Query sets *)

Module db.

(** A query set is lazy: the rows it ranges over, in the model's
    ordering, and the condition of its [WHERE] clause. *)
Record QuerySet (A : Type) := {
  rows : list A;
  where_ : A -> bool
}.
Arguments rows {A}.
Arguments where_ {A}.

(** [Model.objects.all()] over the rows [l] *)
Definition all {A} (l : list A) : QuerySet A :=
  {| rows := l; where_ := fun _ => true |}.

(** [qs.filter(cond)] *)
Definition filter {A} (qs : QuerySet A) (cond : A -> bool) : QuerySet A :=
  {| rows := rows qs; where_ := fun r => where_ qs r && cond r |}.

(** [qs.exclude(cond)] *)
Definition exclude {A} (qs : QuerySet A) (cond : A -> bool) : QuerySet A :=
  {| rows := rows qs; where_ := fun r => where_ qs r && negb (cond r) |}.

(** [a | b], two query sets over the same rows: the conditions are
    joined with [OR] in one query. *)
Definition or {A} (a b : QuerySet A) : QuerySet A :=
  {| rows := rows a; where_ := fun r => where_ a r || where_ b r |}.

(** [Q(c1) | Q(c2)] *)
Definition Q_or {A} (c1 c2 : A -> bool) : A -> bool :=
  fun r => c1 r || c2 r.

(** The rows a query set evaluates to. *)
Definition fetch {A} (qs : QuerySet A) : list A :=
  List.filter (where_ qs) (rows qs).

(** [qs.count()], [qs.exists()] *)
Definition count {A} (qs : QuerySet A) : Z := Z.of_nat (length (fetch qs)).
Definition exists_ {A} (qs : QuerySet A) : bool :=
  match fetch qs with
  | [] => false
  | _ :: _ => true
  end.

(** The lookups [field__icontains=q] and [field__iexact=q]. *)
Definition icontains {A} (field : A -> py.str) (q : py.str) : A -> bool :=
  fun r => py.contains (py.lower q) (py.lower (field r)).
Definition iexact {A} (field : A -> py.str) (q : py.str) : A -> bool :=
  fun r => py.str_eqb (py.lower q) (py.lower (field r)).
Definition exact {A} (field : A -> py.str) (q : py.str) : A -> bool :=
  fun r => py.str_eqb q (field r).

(** What a write to a table can raise. *)
Inductive constraint :=
| UniqueCode
| UniqueName
| CheckInstock
| ForeignKeyCategory.

Inductive error :=
| IntegrityError (c : constraint)
| ValidationError
| OverflowError.

End db.

(** ** The models: category/models.py, products/models.py (lab3) *)

(** A row of a table, or an instance not saved yet ([pk = None]). *)
Module Category.

Record t := {
  pk : option Z;
  name : py.str;
  description : py.str;
  image : option py.str
}.

Definition has_pk (k : Z) (c : t) : bool :=
  match pk c with
  | Some j => j =? k
  | None => false
  end.

Definition with_pk (k : Z) (c : t) : t :=
  {| pk := Some k; name := name c; description := description c;
     image := image c |}.

End Category.

Module Product.

Record t := {
  pk : option Z;
  name : py.str;
  price : py.pyfloat;
  image : option py.str;
  instock : Z;
  code : py.str;
  description : py.str;
  category_id : Z
}.

Definition has_pk (k : Z) (p : t) : bool :=
  match pk p with
  | Some j => j =? k
  | None => false
  end.

Definition with_pk (k : Z) (p : t) : t :=
  {| pk := Some k; name := name p; price := price p; image := image p;
     instock := instock p; code := code p; description := description p;
     category_id := category_id p |}.

Definition with_code (c : py.str) (p : t) : t :=
  {| pk := pk p; name := name p; price := price p; image := image p;
     instock := instock p; code := c; description := description p;
     category_id := category_id p |}.

End Product.

(** The two tables, each with the last key its sequence gave out. *)
Record Database := {
  category_table : list Category.t;
  category_seq : Z;
  product_table : list Product.t;
  product_seq : Z
}.

(** The site between two requests: the tables, and how many times
    [os.urandom] has been read. *)
Record Site := {
  database : Database;
  draws : nat
}.

Definition empty_database : Database :=
  {| category_table := []; category_seq := 0;
     product_table := []; product_seq := 0 |}.

Definition initial_site : Site := {| database := empty_database; draws := O |}.

(** What the code in a [try] block of these views can raise. *)
Inductive exception :=
| DoesNotExist
| PyError (e : py.exn)
| DbError (e : db.error).

(** [a < b] on strings, character by character (the [BINARY] collation). *)
Fixpoint str_ltb (a b : py.str) : bool :=
  match a, b with
  | _, [] => false
  | [], _ :: _ => true
  | x :: a', y :: b' =>
      (py.ord x <? py.ord y) || ((py.ord x =? py.ord y) && str_ltb a' b')
  end.

Fixpoint insert_by_name (c : Category.t) (l : list Category.t) : list Category.t :=
  match l with
  | [] => [c]
  | d :: l' =>
      if str_ltb (Category.name c) (Category.name d) then c :: l
      else d :: insert_by_name c l'
  end.

(** [Category.objects.all()]: [ordering = ['name']]. *)
Definition Category_objects_all (d : Database) : db.QuerySet Category.t :=
  db.all (fold_right insert_by_name [] (category_table d)).

(** [Product.objects.all()]: [ordering = ['-created_at']], newest first. *)
Definition Product_objects_all (d : Database) : db.QuerySet Product.t :=
  db.all (rev (product_table d)).

(** [Category.objects.get(id=...)] with the value of a request parameter:
    the lookup converts it with [int]. *)
Definition Category_objects_get (d : Database) (id : py.str)
  : exception + Category.t :=
  match py.int_of_str id with
  | None => inl (PyError py.ValueError)
  | Some k =>
      match find (Category.has_pk k) (category_table d) with
      | Some c => inr c
      | None => inl DoesNotExist
      end
  end.

(** [get_object_or_404(Product, pk=pk)]; [None] stands for [Http404]. *)
Definition get_product (d : Database) (k : Z) : option Product.t :=
  find (Product.has_pk k) (product_table d).

Definition get_category (d : Database) (k : Z) : option Category.t :=
  find (Category.has_pk k) (category_table d).

Definition int64_ok (n : Z) : bool :=
  (- 2 ^ 63 <=? n) && (n <? 2 ^ 63).

(** [INSERT] into the products table.  In turn: the price is made a
    decimal, which a value that is not finite refuses; the integer must
    fit the column; [CHECK (instock >= 0)]; [UNIQUE (code)]; the foreign
    key.  The row gets the next key. *)
Definition insert_product (d : Database) (p : Product.t)
  : db.error + (Database * Product.t) :=
  if negb (py.float_is_finite (Product.price p)) then inl db.ValidationError
  else if negb (int64_ok (Product.instock p)) then inl db.OverflowError
  else if Product.instock p <? 0 then inl (db.IntegrityError db.CheckInstock)
  else if existsb (fun r => py.str_eqb (Product.code p) (Product.code r))
                  (product_table d)
       then inl (db.IntegrityError db.UniqueCode)
  else if negb (existsb (Category.has_pk (Product.category_id p))
                        (category_table d))
       then inl (db.IntegrityError db.ForeignKeyCategory)
  else
    let k := product_seq d + 1 in
    let row := Product.with_pk k p in
    inr ({| category_table := category_table d;
            category_seq := category_seq d;
            product_table := product_table d ++ [row];
            product_seq := k |}, row).

(** [INSERT] into the categories table: [UNIQUE (name)]. *)
Definition insert_category (d : Database) (c : Category.t)
  : db.error + (Database * Category.t) :=
  if existsb (fun r => py.str_eqb (Category.name c) (Category.name r))
             (category_table d)
  then inl (db.IntegrityError db.UniqueName)
  else
    let k := category_seq d + 1 in
    let row := Category.with_pk k c in
    inr ({| category_table := category_table d ++ [row];
            category_seq := k;
            product_table := product_table d;
            product_seq := product_seq d |}, row).

(** [str(uuid.uuid4())[:8].upper()], from the integer drawn. *)
Definition new_code (rnd : Z) : py.str :=
  py.upper (py.slice (uuid.str (uuid.uuid4 rnd)) 0 8).

Section Random.

(** [os.urandom(16)] as an integer, draw by draw. *)
Variable urandom : nat -> Z.

(** [Product.save] (products/models.py), for an instance that is being
    inserted: a code is generated when the instance has none. *)
Definition Product_save (st : Site) (p : Product.t)
  : Site * (db.error + Product.t) :=
  let '(n, p) :=
    if negb (py.truthy (Some (Product.code p)))
    then (S (draws st), Product.with_code (new_code (urandom (draws st))) p)
    else (draws st, p) in
  match insert_product (database st) p with
  | inl e => ({| database := database st; draws := n |}, inl e)
  | inr (d, row) => ({| database := d; draws := n |}, inr row)
  end.

(** [Product.objects.create(...)]: the instance is built and saved. *)
Definition Product_objects_create (st : Site) (p : Product.t)
  : Site * (db.error + Product.t) :=
  Product_save st p.

End Random.

(** [product.delete()], for a saved instance: [DELETE ... WHERE id = pk].
    No other table refers to a product. *)
Definition Product_delete (d : Database) (p : Product.t) : Database :=
  match Product.pk p with
  | None => d
  | Some k =>
      {| category_table := category_table d;
         category_seq := category_seq d;
         product_table :=
           List.filter (fun r => negb (Product.has_pk k r)) (product_table d);
         product_seq := product_seq d |}
  end.

(** [category.delete()], for a saved instance.  The collector gathers the
    category and, through [on_delete=models.CASCADE] on
    [Product.category], the products that refer to it, and deletes them
    in one transaction: the products, then the category. *)
Definition Category_delete (d : Database) (c : Category.t) : Database :=
  match Category.pk c with
  | None => d
  | Some k =>
      {| category_table :=
           List.filter (fun r => negb (Category.has_pk k r)) (category_table d);
         category_seq := category_seq d;
         product_table :=
           List.filter (fun r => negb (Product.category_id r =? k))
                       (product_table d);
         product_seq := product_seq d |}
  end.

(** [category.get_products_count()]: [self.products.count()] *)
Definition get_products_count (d : Database) (c : Category.t) : Z :=
  match Category.pk c with
  | None => 0
  | Some k =>
      db.count (db.filter (Product_objects_all d)
                          (fun r => Product.category_id r =? k))
  end.

(** ** Requests and responses *)

Inductive method := GET | POST.

(** The messages the views leave for the next page. *)
Inductive message :=
| AllFieldsRequired
| InvalidCategorySelected
| InvalidPriceOrStock
| ErrorCreatingProduct (e : exception)
| ProductCreated (name : py.str)
| ProductDeleted (name : py.str)
| CategoryCreated (name : py.str)
| CategoryDeleted (name : py.str)
| CorrectTheErrorsBelow.

Inductive url :=
| products_list_url
| products_detail_url (pk : option Z)
| category_list_url.

Inductive template :=
| products_create_html
| products_delete_html
| products_detail_html
| category_create_html
| category_delete_html.

Inductive response :=
| render (t : template) (msg : option message)
| redirect (to : url) (msg : option message)
| Http404
| ServerError (e : db.error).

(** The value of a request parameter that is known to be present. *)
Definition text (v : option py.str) : py.str :=
  match v with
  | Some x => x
  | None => []
  end.

(** [all([...])] over request parameters *)
Definition all (l : list (option py.str)) : bool := forallb py.truthy l.

(** The query string of the list pages. *)
Record query := {
  search : option py.str;
  page : option py.str
}.

(** An uploaded file: its name, and whether the image field of a form
    takes it for an image. *)
Record upload := {
  upload_name : py.str;
  upload_is_image : bool
}.

(** ** category/forms.py *)

Module CategoryForm.

(** The posted data. *)
Record data := {
  name : option py.str;
  description : option py.str;
  image : option upload
}.

Inductive field := name_field | description_field | image_field.

Inductive error :=
| Required
| MaxLength
| NullCharacter
| DuplicateName   (* 'A category with this name already exists.' *)
| NotUnique       (* the model's own check of [unique=True] *)
| InvalidImage.

Definition over (max_length : option Z) (x : py.str) : bool :=
  match max_length with
  | Some n => n <? Z.of_nat (length x)
  | None => false
  end.

(** [forms.CharField.clean]: the value is stripped; an empty value is
    refused, the field being required; then the validators run, all of
    them. *)
Definition clean_char (max_length : option Z) (v : option py.str)
  : list error + py.str :=
  let value := py.strip (text v) in
  match value with
  | [] => inl [Required]
  | _ :: _ =>
      match (if over max_length value then [MaxLength] else []) ++
            (if existsb (fun c => py.ord c =? 0) value then [NullCharacter] else [])
      with
      | [] => inr value
      | errs => inl errs
      end
  end.

(** [clean_name], on the cleaned value of the field; [instance_pk] is
    [self.instance.pk]. *)
Definition clean_name (d : Database) (instance_pk : option Z) (name : py.str)
  : error + py.str :=
  if py.truthy (Some name) then
    let qs := db.filter (db.all (category_table d)) (db.iexact Category.name name) in
    let qs :=
      match instance_pk with
      | Some k => if k =? 0 then qs else db.exclude qs (Category.has_pk k)
      | None => qs
      end in
    if db.exists_ qs then inl DuplicateName else inr name
  else inr name.

(** The model's [validate_unique] for [name]. *)
Definition validate_unique (d : Database) (instance_pk : option Z) (name : py.str)
  : list error :=
  let qs := db.filter (db.all (category_table d)) (db.exact Category.name name) in
  let qs :=
    match instance_pk with
    | Some k => db.exclude qs (Category.has_pk k)
    | None => qs
    end in
  if db.exists_ qs then [NotUnique] else [].

(** The errors of the name field: the field's own cleaning, then
    [clean_name], then the model's uniqueness check. *)
Definition name_errors (d : Database) (instance_pk : option Z) (f : data)
  : list error :=
  match clean_char (Some 100) (name f) with
  | inl errs => errs
  | inr value =>
      match clean_name d instance_pk value with
      | inl e => [e]
      | inr value' => validate_unique d instance_pk value'
      end
  end.

Definition description_errors (f : data) : list error :=
  match clean_char None (description f) with
  | inl errs => errs
  | inr _ => []
  end.

(** The image is optional; a file that is not an image is refused. *)
Definition image_errors (f : data) : list error :=
  match image f with
  | Some file => if upload_is_image file then [] else [InvalidImage]
  | None => []
  end.

(** [form.errors] *)
Definition errors (d : Database) (instance_pk : option Z) (f : data)
  : list (field * error) :=
  map (pair name_field) (name_errors d instance_pk f) ++
  map (pair description_field) (description_errors f) ++
  map (pair image_field) (image_errors f).

Definition is_valid (d : Database) (instance_pk : option Z) (f : data) : bool :=
  match errors d instance_pk f with
  | [] => true
  | _ :: _ => false
  end.

(** [form.instance] after cleaning, for a new category. *)
Definition instance (f : data) : Category.t :=
  {| Category.pk := None;
     Category.name := py.strip (text (name f));
     Category.description := py.strip (text (description f));
     Category.image := option_map upload_name (image f) |}.

End CategoryForm.

(** ** products/views.py (lab3) *)

Module products_views.

(** The context [product_list] renders. *)
Record list_context := {
  page_obj : paginator.Page Product.t;
  search_query : option py.str;
  total_products : Z
}.

(** The query set of [product_list] after the search (lines 12-23). *)
Definition product_list_queryset (d : Database) (search_query : option py.str)
  : db.QuerySet Product.t :=
  let products := Product_objects_all d in
  if py.truthy search_query then
    let q := text search_query in
    db.or (db.or (db.filter products (db.icontains Product.name q))
                 (db.filter products (db.icontains Product.description q)))
          (db.filter products (db.icontains Product.code q))
  else products.

(** The paginator slices and counts the query set; here it is given
    the rows the query set stands for. *)
Definition product_list (d : Database) (get : query)
  : paginator.InvalidPage + list_context :=
  let search_query := search get in
  let products := product_list_queryset d search_query in
  let pgn := paginator.make (db.fetch products) 6 in
  let page_number := page get in
  match paginator.get_page pgn (py.of_param page_number) with
  | inl e => inl e
  | inr page_obj =>
      inr {| page_obj := page_obj;
             search_query := search_query;
             total_products := db.count products |}
  end.

(** [product_detail]: the product shown, or [None] for [Http404]. *)
Definition product_detail (d : Database) (pk : Z) : option Product.t :=
  get_product d pk.

(** The posted data of the creation form. *)
Record form := {
  name : option py.str;
  price : option py.str;
  description : option py.str;
  instock : option py.str;
  category : option py.str;
  image : option py.str
}.

Section Random.
Variable urandom : nat -> Z.

(** The body of the [try] (lines 65-75): the category is looked up,
    then the arguments of [create] are evaluated in the order they
    are written, then the product is created. *)
Definition product_create_try (st : Site) (f : form)
  : Site * (exception + Product.t) :=
  match Category_objects_get (database st) (text (category f)) with
  | inl e => (st, inl e)
  | inr category =>
      match py.float_of_str (text (price f)) with
      | None => (st, inl (PyError py.ValueError))
      | Some price_value =>
          match py.int_of_str (text (instock f)) with
          | None => (st, inl (PyError py.ValueError))
          | Some instock_value =>
              let code := new_code (urandom (draws st)) in
              let st1 := {| database := database st; draws := S (draws st) |} in
              match
                Product_objects_create urandom st1
                  {| Product.pk := None;
                     Product.name := text (name f);
                     Product.price := price_value;
                     Product.description := text (description f);
                     Product.instock := instock_value;
                     Product.category_id :=
                       match Category.pk category with Some k => k | None => 0 end;
                     Product.image := image f;
                     Product.code := code |}
              with
              | (st2, inl e) => (st2, inl (DbError e))
              | (st2, inr product) => (st2, inr product)
              end
          end
      end
  end.

Definition product_create (st : Site) (m : method) (f : form) : Site * response :=
  match m with
  | POST =>
      if negb (all [name f; price f; description f; instock f; category f])
      then (st, render products_create_html (Some AllFieldsRequired))
      else
        match product_create_try st f with
        | (st', inr product) =>
            (st', redirect (products_detail_url (Product.pk product))
                           (Some (ProductCreated (Product.name product))))
        | (st', inl DoesNotExist) =>
            (st', render products_create_html (Some InvalidCategorySelected))
        | (st', inl (PyError py.ValueError)) =>
            (st', render products_create_html (Some InvalidPriceOrStock))
        | (st', inl e) =>
            (st', render products_create_html (Some (ErrorCreatingProduct e)))
        end
  | GET => (st, render products_create_html None)
  end.

End Random.

Definition product_delete (st : Site) (m : method) (pk : Z) : Site * response :=
  match get_product (database st) pk with
  | None => (st, Http404)
  | Some product =>
      match m with
      | POST =>
          let product_name := Product.name product in
          ({| database := Product_delete (database st) product;
              draws := draws st |},
           redirect products_list_url (Some (ProductDeleted product_name)))
      | GET => (st, render products_delete_html None)
      end
  end.

End products_views.

(** ** category/views.py *)

Module category_views.

(** [CategoryListView.get_queryset] *)
Definition get_queryset (d : Database) (get : query) : db.QuerySet Category.t :=
  let queryset := Category_objects_all d in
  let search_query := search get in
  if py.truthy search_query then
    db.filter queryset
      (db.Q_or (db.icontains Category.name (text search_query))
               (db.icontains Category.description (text search_query)))
  else queryset.

Definition paginate_by : Z := 8.

(** [MultipleObjectMixin.paginate_queryset]: the page is the request
    parameter, or 1 when it is absent or empty; a parameter that is
    not an integer must be ['last']; a page out of range is a 404. *)
Definition paginate_queryset {A} (queryset : list A) (page_size : Z) (get : query)
  : option (paginator.Paginator A * paginator.Page A) :=
  let pgn := paginator.make queryset page_size in
  let requested :=
    if py.truthy (page get) then py.VStr (text (page get)) else py.VInt 1 in
  let page_number :=
    match py.int requested with
    | inr n => Some n
    | inl _ =>
        if py.str_eqb (text (page get)) (py.s "last")
        then Some (paginator.num_pages pgn)
        else None
    end in
  match page_number with
  | None => None
  | Some n =>
      match paginator.page pgn (py.VInt n) with
      | inr pg => Some (pgn, pg)
      | inl _ => None
      end
  end.

(** The context [CategoryListView] renders. *)
Record list_context := {
  categories : list Category.t;
  page_obj : paginator.Page Category.t;
  list_paginator : paginator.Paginator Category.t;
  search_query : py.str;
  total_categories : Z
}.

(** [CategoryListView] on a GET: [None] stands for [Http404]. *)
Definition CategoryListView (d : Database) (get : query) : option list_context :=
  match paginate_queryset (db.fetch (get_queryset d get)) paginate_by get with
  | None => None
  | Some (pgn, pg) =>
      Some {| categories := paginator.page_object_list pg;
              page_obj := pg;
              list_paginator := pgn;
              search_query := text (search get);
              total_categories := db.count (get_queryset d get) |}
  end.

(** The context [CategoryDetailView] adds: the products of the
    category, six to a page. *)
Record detail_context := {
  category : Category.t;
  products_page : paginator.Page Product.t;
  products_count : Z
}.

Definition CategoryDetailView (d : Database) (pk : Z) (get : query)
  : option detail_context :=
  match get_category d pk with
  | None => None
  | Some object =>
      let products :=
        db.filter (Product_objects_all d) (fun r => Product.category_id r =? pk) in
      let pgn := paginator.make (db.fetch products) 6 in
      match paginator.get_page pgn (py.of_param (page get)) with
      | inl _ => None
      | inr pg =>
          Some {| category := object;
                  products_page := pg;
                  products_count := db.count products |}
      end
  end.

(** [CategoryCreateView] on a POST: [form_valid] saves the form's
    instance and redirects to the list, [form_invalid] shows the form
    again. *)
Definition CategoryCreateView (st : Site) (f : CategoryForm.data) : Site * response :=
  if CategoryForm.is_valid (database st) None f then
    let instance := CategoryForm.instance f in
    match insert_category (database st) instance with
    | inr (d, _) =>
        ({| database := d; draws := draws st |},
         redirect category_list_url (Some (CategoryCreated (Category.name instance))))
    | inl e => (st, ServerError e)
    end
  else (st, render category_create_html (Some CorrectTheErrorsBelow)).

(** [CategoryDeleteView]: a GET asks for confirmation, a POST deletes
    the category and what depends on it. *)
Definition CategoryDeleteView (st : Site) (m : method) (pk : Z) : Site * response :=
  match get_category (database st) pk with
  | None => (st, Http404)
  | Some object =>
      match m with
      | POST =>
          let category_name := Category.name object in
          ({| database := Category_delete (database st) object;
              draws := draws st |},
           redirect category_list_url (Some (CategoryDeleted category_name)))
      | GET => (st, render category_delete_html None)
      end
  end.

End category_views.

(** ** products/views.py (lab2)

    lab2's product has no category.  Its model (lab2's
    products/models.py) is not among the sources, so the view is given
    over any model: the type of the stored products, how the name and
    the key of one are read, and [Product.objects.create] are
    parameters. *)

Module lab2_products_views.

Record form := {
  name : option py.str;
  price : option py.str;
  description : option py.str;
  instock : option py.str;
  image : option py.str
}.

(** The keyword arguments of [Product.objects.create]. *)
Record kwargs := {
  kw_name : py.str;
  kw_price : py.pyfloat;
  kw_description : py.str;
  kw_instock : Z;
  kw_image : option py.str;
  kw_code : py.str
}.

Section Model.
Variables Tables Product : Type.
Variable product_name : Product -> py.str.
Variable product_pk : Product -> option Z.
Variable Product_objects_create : Tables -> kwargs -> Tables * (exception + Product).
Variable urandom : nat -> Z.

Definition product_create_try (st : Tables * nat) (f : form)
  : (Tables * nat) * (exception + Product) :=
  let '(d, n) := st in
  match py.float_of_str (text (price f)) with
  | None => (st, inl (PyError py.ValueError))
  | Some price_value =>
      match py.int_of_str (text (instock f)) with
      | None => (st, inl (PyError py.ValueError))
      | Some instock_value =>
          let code := new_code (urandom n) in
          let '(d', r) :=
            Product_objects_create d
              {| kw_name := text (name f);
                 kw_price := price_value;
                 kw_description := text (description f);
                 kw_instock := instock_value;
                 kw_image := image f;
                 kw_code := code |} in
          ((d', S n), r)
      end
  end.

Definition product_create (st : Tables * nat) (m : method) (f : form)
  : (Tables * nat) * response :=
  match m with
  | POST =>
      if negb (all [name f; price f; description f; instock f])
      then (st, render products_create_html (Some AllFieldsRequired))
      else
        match product_create_try st f with
        | (st', inr product) =>
            (st', redirect (products_detail_url (product_pk product))
                           (Some (ProductCreated (product_name product))))
        | (st', inl (PyError py.ValueError)) =>
            (st', render products_create_html (Some InvalidPriceOrStock))
        | (st', inl e) =>
            (st', render products_create_html (Some (ErrorCreatingProduct e)))
        end
  | GET => (st, render products_create_html None)
  end.

End Model.

End lab2_products_views.

(** ** The site as a transition system *)

Inductive request :=
| ProductCreate (f : products_views.form)
| ProductDelete (pk : Z)
| CategoryCreate (f : CategoryForm.data)
| CategoryDelete (pk : Z).

Definition handle (urandom : nat -> Z) (st : Site) (r : request) : Site * response :=
  match r with
  | ProductCreate f => products_views.product_create urandom st POST f
  | ProductDelete pk => products_views.product_delete st POST pk
  | CategoryCreate f => category_views.CategoryCreateView st f
  | CategoryDelete pk => category_views.CategoryDeleteView st POST pk
  end.

(** The states the site goes through from the empty database. *)
Inductive reachable (urandom : nat -> Z) : Site -> Prop :=
| reachable_initial : reachable urandom initial_site
| reachable_step st r :
    reachable urandom st -> reachable urandom (fst (handle urandom st r)).

(** ** Vocabulary of the properties *)



(** [a] and [b] are the same name when the case of letters is ignored. *)
Definition same_ignoring_case (a b : py.str) : Prop :=
  py.lower a = py.lower b.

(** [l1] is [l2] with some rows left out: the order is kept. *)
Inductive subsequence {A} : list A -> list A -> Prop :=
| subsequence_nil : subsequence [] []
| subsequence_keep x l1 l2 : subsequence l1 l2 -> subsequence (x :: l1) (x :: l2)
| subsequence_drop x l1 l2 : subsequence l1 l2 -> subsequence l1 (x :: l2).

(** An upper-case letter or a digit. *)
Definition is_upper_alnum (c : ascii) : bool := py.isupper c || py.isdigit c.

(** One of [0-9], [A-F]. *)
Definition is_upper_hex (c : ascii) : bool := py.isdigit c || py.in_range 65 70 c.

(** Some product of the table has the code [c]. *)
Definition code_taken (d : Database) (c : py.str) : Prop :=
  exists r, In r (product_table d) /\ Product.code r = c.

(** Every product refers to a category of the table. *)
Definition references_ok (d : Database) : Prop :=
  forall p, In p (product_table d) ->
    exists c, In c (category_table d) /\ Category.pk c = Some (Product.category_id p).

(** What the tables keep true: keys come from the sequences and are not
    given twice, products refer to categories, no code is used twice
    and no two categories have the same name, whatever the case. *)
Record well_formed (d : Database) : Prop := {
  sequences : 0 <= product_seq d /\ 0 <= category_seq d;
  product_keys :
    forall p, In p (product_table d) ->
      exists k, Product.pk p = Some k /\ 0 < k <= product_seq d;
  product_keys_distinct : NoDup (map Product.pk (product_table d));
  category_keys :
    forall c, In c (category_table d) ->
      exists k, Category.pk c = Some k /\ 0 < k <= category_seq d;
  category_keys_distinct : NoDup (map Category.pk (category_table d));
  product_references : references_ok d;
  codes_distinct : NoDup (map Product.code (product_table d));
  names_distinct :
    NoDup (map (fun c => py.lower (Category.name c)) (category_table d))
}.

(** The products of the category [k]. *)
Definition dependents (d : Database) (k : Z) : list Product.t :=
  List.filter (fun r => Product.category_id r =? k) (product_table d).

(** The instance [product_create] hands to [Product.objects.create]. *)
Definition instance_of (urandom : nat -> Z) (st : Site) (f : products_views.form)
           (category : Category.t) (price_value : py.pyfloat) (instock_value : Z)
  : Product.t :=
  {| Product.pk := None;
     Product.name := text (products_views.name f);
     Product.price := price_value;
     Product.description := text (products_views.description f);
     Product.instock := instock_value;
     Product.category_id := match Category.pk category with Some k => k | None => 0 end;
     Product.image := products_views.image f;
     Product.code := new_code (urandom (draws st)) |}.

(** The parameters [product_create] requires. *)
Definition required (f : products_views.form) : list (option py.str) :=
  [products_views.name f; products_views.price f; products_views.description f;
   products_views.instock f; products_views.category f].

(** ** Sample data *)

Module sample.

Definition tools : Category.t :=
  {| Category.pk := Some 1; Category.name := py.s "Tools";
     Category.description := py.s "Hand tools"; Category.image := None |}.

Definition shoes : Category.t :=
  {| Category.pk := Some 2; Category.name := py.s "Shoes";
     Category.description := py.s "Footwear"; Category.image := None |}.

Definition product (k : Z) (name code : string) (cat : Z) : Product.t :=
  {| Product.pk := Some k; Product.name := py.s name;
     Product.price := py.Finite false 1999 (-2); Product.image := None;
     Product.instock := 3; Product.code := py.s code;
     Product.description := py.s "In stock"; Product.category_id := cat |}.

(** Seven products, two pages of the product list. *)
Definition db7 : Database :=
  {| category_table := [tools; shoes];
     category_seq := 2;
     product_table :=
       [ product 1 "Hammer" "0A1B2C3D" 1;
         product 2 "Red Shoe" "11111111" 2;
         product 3 "Blue Shoe" "22222222" 2;
         product 4 "Red Hat" "33333333" 2;
         product 5 "Saw" "44444444" 1;
         product 6 "Wrench" "55555555" 1;
         product 7 "Pliers" "66666666" 1 ];
     product_seq := 7 |}.

Definition site7 : Site := {| database := db7; draws := 0 |}.

Definition product_form (name price instock category : string) : products_views.form :=
  {| products_views.name := Some (py.s name);
     products_views.price := Some (py.s price);
     products_views.description := Some (py.s "New");
     products_views.instock := Some (py.s instock);
     products_views.category := Some (py.s category);
     products_views.image := None |}.

Definition category_form (name : string) : CategoryForm.data :=
  {| CategoryForm.name := Some (py.s name);
     CategoryForm.description := Some (py.s "Things");
     CategoryForm.image := None |}.

(** A random source whose first draw gives the code [11111111], which
    product 2 has, and whose later draws give [22222223]. *)
Definition urandom (i : nat) : Z :=
  match i with
  | O => Z.shiftl 0x11111111 96
  | S _ => Z.shiftl 0x22222223 96
  end.

End sample.

(** ** category/views.py: [CategoryUpdateView] *)

(** [category.save()] for an instance that has the key [k]: [UPDATE] of
    the row with that key, [UNIQUE (name)] holding against the other
    rows; when no row has the key the instance is inserted with it. *)
Definition update_category (d : Database) (k : Z) (c : Category.t)
  : db.error + Database :=
  if existsb (fun r => negb (Category.has_pk k r) &&
                       py.str_eqb (Category.name c) (Category.name r))
             (category_table d)
  then inl (db.IntegrityError db.UniqueName)
  else if existsb (Category.has_pk k) (category_table d) then
    inr {| category_table :=
             map (fun r => if Category.has_pk k r then Category.with_pk k c else r)
                 (category_table d);
           category_seq := category_seq d;
           product_table := product_table d;
           product_seq := product_seq d |}
  else
    inr {| category_table := category_table d ++ [Category.with_pk k c];
           category_seq := Z.max (category_seq d) k;
           product_table := product_table d;
           product_seq := product_seq d |}.

Module category_update.

(** What the update page answers: the form (a GET), the form again
    with its errors and 'Please correct the errors below.', the
    redirection to the list with 'Category "..." updated
    successfully!', a 404, or the error of the table. *)
Inductive outcome :=
| form_shown
| form_invalid (errors : list (CategoryForm.field * CategoryForm.error))
| updated (name : py.str)
| not_found
| server_error (e : db.error).

(** [form.instance] after cleaning, for the category [object] that is
    edited: the name and the description are the cleaned ones, the
    image is the file uploaded, or the one the category had. *)
Definition instance (object : Category.t) (f : CategoryForm.data) : Category.t :=
  {| Category.pk := Category.pk object;
     Category.name := py.strip (text (CategoryForm.name f));
     Category.description := py.strip (text (CategoryForm.description f));
     Category.image :=
       match CategoryForm.image f with
       | Some file => Some (upload_name file)
       | None => Category.image object
       end |}.

Definition CategoryUpdateView (st : Site) (m : method) (pk : Z) (f : CategoryForm.data)
  : Site * outcome :=
  match get_category (database st) pk with
  | None => (st, not_found)
  | Some object =>
      match m with
      | GET => (st, form_shown)
      | POST =>
          match CategoryForm.errors (database st) (Category.pk object) f with
          | [] =>
              let edited := instance object f in
              match update_category (database st) pk edited with
              | inr d =>
                  ({| database := d; draws := draws st |},
                   updated (Category.name edited))
              | inl e => (st, server_error e)
              end
          | errs => (st, form_invalid errs)
          end
      end
  end.

End category_update.

(** ** Every page of the site *)

Inductive visit :=
| visit_product_list (get : query)
| visit_product_detail (pk : Z)
| visit_product_create (m : method) (f : products_views.form)
| visit_product_delete (m : method) (pk : Z)
| visit_category_list (get : query)
| visit_category_detail (pk : Z) (get : query)
| visit_category_create (m : method) (f : CategoryForm.data)
| visit_category_update (m : method) (pk : Z) (f : CategoryForm.data)
| visit_category_delete (m : method) (pk : Z).

(** The site after a request.  The list and detail pages only read. *)
Definition serve (urandom : nat -> Z) (st : Site) (v : visit) : Site :=
  match v with
  | visit_product_list _ => st
  | visit_product_detail _ => st
  | visit_product_create m f => fst (products_views.product_create urandom st m f)
  | visit_product_delete m pk => fst (products_views.product_delete st m pk)
  | visit_category_list _ => st
  | visit_category_detail _ _ => st
  | visit_category_create GET _ => st
  | visit_category_create POST f => fst (category_views.CategoryCreateView st f)
  | visit_category_update m pk f => fst (category_update.CategoryUpdateView st m pk f)
  | visit_category_delete m pk => fst (category_views.CategoryDeleteView st m pk)
  end.

(** The method of a request; the list and detail pages are asked for with
    [GET]. *)
Definition visit_method (v : visit) : method :=
  match v with
  | visit_product_list _ | visit_product_detail _
  | visit_category_list _ | visit_category_detail _ _ => GET
  | visit_product_create m _ | visit_product_delete m _
  | visit_category_create m _ | visit_category_update m _ _
  | visit_category_delete m _ => m
  end.

(** The site after a sequence of requests. *)
Definition serve_all (urandom : nat -> Z) (st : Site) (vs : list visit) : Site :=
  fold_left (serve urandom) vs st.

(** ** More vocabulary *)

(** The name of [a] does not come after the name of [b]. *)
Definition name_le (a b : Category.t) : Prop :=
  str_ltb (Category.name b) (Category.name a) = false.

(** The rows [product_list] shows for the page parameters [xs], page
    after page. *)
Definition product_pages (d : Database) (q : option py.str) (xs : list py.str)
  : list Product.t :=
  flat_map
    (fun x =>
       match products_views.product_list d {| search := q; page := Some x |} with
       | inr ctx => paginator.page_object_list (products_views.page_obj ctx)
       | inl _ => []
       end)
    xs.

(** The page numbers [1, ..., n]. *)
Definition page_numbers (n : Z) : list Z :=
  map (fun i => Z.of_nat (S i)) (seq 0 (Z.to_nat n)).

(** The value of a hexadecimal digit, in either case. *)
Definition hex_digit_value (c : ascii) : option Z :=
  if py.isdigit c then Some (py.ord c - 48)
  else if py.in_range 65 70 c then Some (py.ord c - 55)
  else if py.in_range 97 102 c then Some (py.ord c - 87)
  else None.

(** [int(x, 16)] for a string of hexadecimal digits, continuing [acc];
    [None] when a character is not one. *)
Fixpoint int16_from (acc : Z) (x : py.str) : option Z :=
  match x with
  | [] => Some acc
  | c :: x' =>
      match hex_digit_value c with
      | Some v => int16_from (16 * acc + v) x'
      | None => None
      end
  end.

(** The name field of the category form accepts [x]: something is left
    once the white space around it is removed, of at most 100
    characters, none of them NUL. *)
Definition acceptable_name (x : option py.str) : Prop :=
  py.strip (text x) <> [] /\
  Z.of_nat (length (py.strip (text x))) <= 100 /\
  (forall c, In c (py.strip (text x)) -> py.ord c <> 0).

(** The description field accepts [x]. *)
Definition acceptable_description (x : option py.str) : Prop :=
  py.strip (text x) <> [] /\
  (forall c, In c (py.strip (text x)) -> py.ord c <> 0).

(** The image field accepts [x]. *)
Definition acceptable_image (x : option upload) : Prop :=
  forall file, x = Some file -> upload_is_image file = true.

(** * Properties *)

(** ** Strings *)

Lemma str_eqb_eq (a b : py.str) : py.str_eqb a b = true <-> a = b.
Proof.
  revert b; induction a as [|x a IH]; intros [|y b]; simpl;
    try (split; [discriminate | discriminate]); try tauto.
  rewrite andb_true_iff, Ascii.eqb_eq, IH.
  split; [intros [-> ->]; reflexivity | intros [= -> ->]; auto].
Qed.

Lemma str_eqb_refl (a : py.str) : py.str_eqb a a = true.
Proof. apply str_eqb_eq; reflexivity. Qed.

Lemma str_eqb_neq (a b : py.str) : py.str_eqb a b = false <-> a <> b.
Proof.
  rewrite <- str_eqb_eq. destruct (py.str_eqb a b); split; congruence.
Qed.




Lemma iexact_spec {A} (field : A -> py.str) (q : py.str) (r : A) :
  db.iexact field q r = true <-> same_ignoring_case q (field r).
Proof. apply str_eqb_eq. Qed.

Lemma truthy_false (v : option py.str) :
  py.truthy v = false <-> v = None \/ v = Some [].
Proof.
  destruct v as [[|c x]|]; simpl; split; auto; try discriminate;
    intros [H|H]; discriminate.
Qed.

Lemma truthy_true (v : option py.str) :
  py.truthy v = true <-> exists x, v = Some x /\ x <> [].
Proof.
  destruct v as [[|c x]|]; simpl; split; try discriminate.
  - intros [x [[= <-] H]]. congruence.
  - intros _. exists (c :: x). split; [reflexivity | discriminate].
  - reflexivity.
  - intros [x [H _]]. discriminate.
Qed.

(** ** Query sets *)


Lemma subsequence_refl {A} (l : list A) : subsequence l l.
Proof. induction l; constructor; assumption. Qed.

Lemma filter_true {A} (l : list A) : List.filter (fun _ => true) l = l.
Proof. induction l as [|x l IH]; simpl; [|rewrite IH]; reflexivity. Qed.

Lemma fetch_all {A} (l : list A) : db.fetch (db.all l) = l.
Proof. apply filter_true. Qed.


Lemma fetch_In {A} (qs : db.QuerySet A) (r : A) :
  In r (db.fetch qs) <-> In r (db.rows qs) /\ db.where_ qs r = true.
Proof. apply filter_In. Qed.



Lemma product_search_rows (d : Database) (v : option py.str) :
  db.rows (products_views.product_list_queryset d v) = db.rows (Product_objects_all d).
Proof.
  unfold products_views.product_list_queryset.
  destruct (py.truthy v); reflexivity.
Qed.


Lemma category_search_rows (d : Database) (get : query) :
  db.rows (category_views.get_queryset d get) = db.rows (Category_objects_all d).
Proof.
  unfold category_views.get_queryset.
  destruct (py.truthy (search get)); reflexivity.
Qed.

(** ** The paginator *)

Section PaginatorFacts.
Context {A : Type}.
Implicit Types (l : list A) (pgn : paginator.Paginator A).

Lemma ceil_div_spec (a b : Z) :
  0 < b ->
  (paginator.ceil_div a b - 1) * b < a <= paginator.ceil_div a b * b.
Proof.
  intros Hb. unfold paginator.ceil_div.
  pose proof (Z.div_mod (- a) b ltac:(lia)) as E.
  pose proof (Z.mod_pos_bound (- a) b Hb) as B.
  nia.
Qed.

Lemma num_pages_make l (size : Z) :
  paginator.num_pages (paginator.make l size)
    = paginator.ceil_div (Z.max 1 (Z.of_nat (length l))) size.
Proof.
  unfold paginator.num_pages, paginator.make, paginator.count. simpl.
  rewrite andb_false_r, Z.sub_0_r. reflexivity.
Qed.

Lemma num_pages_positive l (size : Z) :
  0 < size -> 1 <= paginator.num_pages (paginator.make l size).
Proof.
  intros Hs. rewrite num_pages_make.
  pose proof (ceil_div_spec (Z.max 1 (Z.of_nat (length l))) size Hs). nia.
Qed.

Lemma num_pages_empty (size : Z) :
  0 < size -> paginator.num_pages (paginator.make (@nil A) size) = 1.
Proof.
  intros Hs. rewrite num_pages_make. simpl length.
  pose proof (ceil_div_spec (Z.max 1 (Z.of_nat 0)) size Hs). nia.
Qed.

Lemma num_pages_bounds l (size : Z) :
  0 < size -> l <> [] ->
  let n := paginator.num_pages (paginator.make l size) in
  (n - 1) * size < Z.of_nat (length l) <= n * size.
Proof.
  intros Hs Hl. cbv zeta. rewrite num_pages_make.
  assert (0 < Z.of_nat (length l)) by (destruct l; [congruence | simpl; lia]).
  rewrite Z.max_r by lia. apply ceil_div_spec. exact Hs.
Qed.

(** A page number in range gives that page. *)
Lemma page_in_range pgn (n : Z) :
  1 <= n <= paginator.num_pages pgn ->
  paginator.page pgn (py.VInt n) =
  inr {| paginator.page_object_list :=
           py.slice (paginator.object_list pgn)
             ((n - 1) * paginator.per_page pgn)
             (if paginator.count pgn <=?
                 (n - 1) * paginator.per_page pgn + paginator.per_page pgn
                   + paginator.orphans pgn
              then paginator.count pgn
              else (n - 1) * paginator.per_page pgn + paginator.per_page pgn);
         paginator.number := n;
         paginator.page_paginator := pgn |}.
Proof.
  intros [H1 H2]. unfold paginator.page, paginator.validate_number. cbn [py.int].
  rewrite (proj2 (Z.ltb_ge n 1)), (proj2 (Z.ltb_ge (paginator.num_pages pgn) n)) by lia.
  reflexivity.
Qed.

(** [get_page] never fails when the paginator has a page at all: what
    is not an integer gives page 1, an integer out of range the last
    page, an integer in range its page. *)
Lemma get_page_not_an_integer pgn (v : py.value) (e : py.exn) :
  py.int v = inl e ->
  paginator.get_page pgn v = paginator.page pgn (py.VInt 1).
Proof.
  intros H. unfold paginator.get_page, paginator.validate_number. rewrite H.
  reflexivity.
Qed.

Lemma get_page_out_of_range pgn (v : py.value) (n : Z) :
  py.int v = inr n ->
  n < 1 \/ paginator.num_pages pgn < n ->
  paginator.get_page pgn v = paginator.page pgn (py.VInt (paginator.num_pages pgn)).
Proof.
  intros H Hn. unfold paginator.get_page, paginator.validate_number. rewrite H.
  destruct (n <? 1) eqn:E1; [reflexivity|].
  destruct (paginator.num_pages pgn <? n) eqn:E2; [reflexivity|].
  apply Z.ltb_ge in E1, E2. lia.
Qed.

Lemma get_page_in_range pgn (v : py.value) (n : Z) :
  py.int v = inr n ->
  1 <= n <= paginator.num_pages pgn ->
  paginator.get_page pgn v = paginator.page pgn (py.VInt n).
Proof.
  intros H Hn. unfold paginator.get_page, paginator.validate_number. rewrite H.
  rewrite (proj2 (Z.ltb_ge n 1)), (proj2 (Z.ltb_ge (paginator.num_pages pgn) n)) by lia.
  reflexivity.
Qed.

(** The number [get_page] settles on. *)
Lemma get_page_total l (size : Z) (v : py.value) :
  0 < size ->
  exists pg, paginator.get_page (paginator.make l size) v = inr pg /\
             paginator.page_paginator pg = paginator.make l size /\
             1 <= paginator.number pg <= paginator.num_pages (paginator.make l size).
Proof.
  intros Hs. pose proof (num_pages_positive l size Hs) as Hp.
  destruct (py.int v) as [e|n] eqn:E.
  - rewrite (get_page_not_an_integer _ _ _ E), page_in_range by lia.
    eexists; split; [reflexivity|]. simpl. split; [reflexivity | lia].
  - destruct (Z.ltb_spec n 1) as [Hn|Hn];
      [|destruct (Z.ltb_spec (paginator.num_pages (paginator.make l size)) n) as [Hm|Hm]].
    + rewrite (get_page_out_of_range _ _ _ E), page_in_range by lia.
      eexists; split; [reflexivity|]. simpl. split; [reflexivity | lia].
    + rewrite (get_page_out_of_range _ _ _ E), page_in_range by lia.
      eexists; split; [reflexivity|]. simpl. split; [reflexivity | lia].
    + rewrite (get_page_in_range _ _ _ E), page_in_range by lia.
      eexists; split; [reflexivity|]. simpl. split; [reflexivity | lia].
Qed.

(** The rows of a page: [size] rows from row [(n - 1) * size] on. *)
Lemma page_rows l (size n : Z) (pg : paginator.Page A) :
  0 < size ->
  paginator.page (paginator.make l size) (py.VInt n) = inr pg ->
  1 <= n <= paginator.num_pages (paginator.make l size) /\
  paginator.number pg = n /\
  paginator.page_paginator pg = paginator.make l size /\
  paginator.page_object_list pg
    = firstn (Z.to_nat size) (skipn (Z.to_nat ((n - 1) * size)) l).
Proof.
  intros Hs H.
  assert (Hn : 1 <= n <= paginator.num_pages (paginator.make l size)).
  { unfold paginator.page, paginator.validate_number in H. cbn [py.int] in H.
    destruct (n <? 1) eqn:E1; [discriminate|].
    destruct (paginator.num_pages (paginator.make l size) <? n) eqn:E2;
      [discriminate|].
    apply Z.ltb_ge in E1, E2. lia. }
  rewrite page_in_range in H by exact Hn. injection H as <-.
  split; [exact Hn|]. split; [reflexivity|]. split; [reflexivity|].
  cbn [paginator.page_object_list paginator.object_list paginator.per_page
       paginator.orphans paginator.make]. unfold paginator.count, py.slice.
  cbn [paginator.object_list paginator.make].
  destruct (Z.leb_spec (Z.of_nat (length l)) ((n - 1) * size + size + 0)) as [Hc|Hc].
  - rewrite !firstn_all2; [reflexivity | |]; rewrite length_skipn; lia.
  - f_equal. lia.
Qed.

End PaginatorFacts.

(** ** The list pages *)

Lemma of_param_int (v : option py.str) :
  (v = None \/ exists x, v = Some x /\ py.int_of_str x = None) ->
  exists e, py.int (py.of_param v) = inl e.
Proof.
  intros [-> | [x [-> H]]]; simpl.
  - exists py.TypeError; reflexivity.
  - rewrite H. exists py.ValueError; reflexivity.
Qed.

Lemma of_param_int_some (x : py.str) (n : Z) :
  py.int_of_str x = Some n -> py.int (py.of_param (Some x)) = inr n.
Proof. intros H; simpl; rewrite H; reflexivity. Qed.

(** [product_list] always renders a page: the one [get_page] gives for
    the rows found, six to a page. *)
Lemma product_list_total (d : Database) (get : query) :
  let records := db.fetch (products_views.product_list_queryset d (search get)) in
  let pgn := paginator.make records 6 in
  exists ctx,
    products_views.product_list d get = inr ctx /\
    paginator.get_page pgn (py.of_param (page get)) = inr (products_views.page_obj ctx) /\
    paginator.page_paginator (products_views.page_obj ctx) = pgn /\
    1 <= paginator.number (products_views.page_obj ctx) <= paginator.num_pages pgn /\
    products_views.search_query ctx = search get /\
    products_views.total_products ctx = paginator.count pgn.
Proof.
  cbv zeta. unfold products_views.product_list.
  destruct (get_page_total
              (db.fetch (products_views.product_list_queryset d (search get))) 6
              (py.of_param (page get)) ltac:(lia)) as [pg [E [P N]]].
  rewrite E. eexists; split; [reflexivity|].
  cbn [products_views.page_obj products_views.search_query products_views.total_products].
  split; [reflexivity|]. split; [exact P|]. split; [exact N|]. split; reflexivity.
Qed.

(** C2, as the code has it.  On the product list, a page number that is
    absent or that [int] refuses gives page 1; one above the last page
    gives the last page; one below 1 gives the last page too (not page
    1).  Page [n] holds six rows from row [6 (n - 1)] on. *)
Theorem page_number_is_clamped (d : Database) (get : query) :
  let records := db.fetch (products_views.product_list_queryset d (search get)) in
  let pgn := paginator.make records 6 in
  let last := paginator.num_pages pgn in
  exists ctx,
    products_views.product_list d get = inr ctx /\
    1 <= last /\
    ((page get = None \/ exists x, page get = Some x /\ py.int_of_str x = None) ->
       paginator.page pgn (py.VInt 1) = inr (products_views.page_obj ctx) /\
       paginator.number (products_views.page_obj ctx) = 1 /\
       paginator.page_object_list (products_views.page_obj ctx) = firstn 6 records) /\
    (forall x n, page get = Some x -> py.int_of_str x = Some n ->
       n < 1 \/ last < n ->
       paginator.page pgn (py.VInt last) = inr (products_views.page_obj ctx) /\
       paginator.number (products_views.page_obj ctx) = last /\
       paginator.page_object_list (products_views.page_obj ctx)
         = firstn 6 (skipn (Z.to_nat ((last - 1) * 6)) records)) /\
    (forall x n, page get = Some x -> py.int_of_str x = Some n ->
       1 <= n <= last ->
       paginator.page pgn (py.VInt n) = inr (products_views.page_obj ctx) /\
       paginator.number (products_views.page_obj ctx) = n /\
       paginator.page_object_list (products_views.page_obj ctx)
         = firstn 6 (skipn (Z.to_nat ((n - 1) * 6)) records)).
Proof.
  cbv zeta.
  destruct (product_list_total d get) as [ctx [E [G [P [N _]]]]].
  exists ctx. split; [exact E|]. split; [lia|]. split; [|split].
  - intros H. destruct (of_param_int _ H) as [e He].
    rewrite (get_page_not_an_integer _ _ _ He) in G.
    split; [exact G|].
    destruct (page_rows _ 6 _ _ eq_refl G) as [_ [Hn [_ Hr]]].
    split; [exact Hn|]. rewrite Hr. reflexivity.
  - intros x n Hp Hi Hn. rewrite Hp in G.
    rewrite (get_page_out_of_range _ _ _ (of_param_int_some _ _ Hi) Hn) in G.
    split; [exact G|].
    destruct (page_rows _ 6 _ _ eq_refl G) as [_ [Hk [_ Hr]]].
    split; [exact Hk|]. rewrite Hr. reflexivity.
  - intros x n Hp Hi Hn. rewrite Hp in G.
    rewrite (get_page_in_range _ _ _ (of_param_int_some _ _ Hi) Hn) in G.
    split; [exact G|].
    destruct (page_rows _ 6 _ _ eq_refl G) as [_ [Hk [_ Hr]]].
    split; [exact Hk|]. rewrite Hr. reflexivity.
Qed.

(** Seven products, [?page=0]: the page shown is page 2, the last one. *)
Lemma page_number_is_clamped_witness :
  exists ctx,
    products_views.product_list sample.db7 {| search := None; page := Some (py.s "0") |} = inr ctx /\
    paginator.number (products_views.page_obj ctx) = 2 /\
    map Product.pk (paginator.page_object_list (products_views.page_obj ctx)) = [Some 1].
Proof.
  destruct (page_number_is_clamped sample.db7 {| search := None; page := Some (py.s "0") |})
    as [ctx [E [_ [_ [H _]]]]].
  exists ctx. split; [exact E|].
  destruct (H (py.s "0") 0 eq_refl eq_refl (or_introl eq_refl)) as [_ [Hn Hr]].
  split.
  - rewrite Hn. reflexivity.
  - rewrite Hr. reflexivity.
Defined.

(** C2 as it was stated fails below 1: with seven products, page 0 is
    not page 1 (the six newest products) but page 2 (the oldest one). *)
Lemma page_zero_is_not_page_one :
  exists ctx,
    products_views.product_list sample.db7 {| search := None; page := Some (py.s "0") |} = inr ctx /\
    py.int_of_str (py.s "0") = Some 0 /\
    paginator.number (products_views.page_obj ctx) = 2 /\
    map Product.pk (paginator.page_object_list (products_views.page_obj ctx)) = [Some 1] /\
    (exists first,
       paginator.page (paginator.page_paginator (products_views.page_obj ctx)) (py.VInt 1)
         = inr first /\
       map Product.pk (paginator.page_object_list first)
         = [Some 7; Some 6; Some 5; Some 4; Some 3; Some 2]) /\
    paginator.page (paginator.page_paginator (products_views.page_obj ctx)) (py.VInt 1)
      <> inr (products_views.page_obj ctx).
Proof.
  eexists. split; [vm_compute; reflexivity|].
  split; [reflexivity|]. split; [reflexivity|]. split; [reflexivity|]. split.
  - eexists. split; [vm_compute; reflexivity | reflexivity].
  - vm_compute. intros H. discriminate H.
Qed.

(** When the list of categories shows a page, it is a page of the rows
    found, eight to a page. *)
Lemma CategoryListView_page (d : Database) (get : query)
      (ctx : category_views.list_context) :
  category_views.CategoryListView d get = Some ctx ->
  let records := db.fetch (category_views.get_queryset d get) in
  category_views.list_paginator ctx = paginator.make records 8 /\
  paginator.page_paginator (category_views.page_obj ctx) = paginator.make records 8 /\
  paginator.page (paginator.make records 8)
                 (py.VInt (paginator.number (category_views.page_obj ctx)))
    = inr (category_views.page_obj ctx) /\
  category_views.categories ctx
    = paginator.page_object_list (category_views.page_obj ctx) /\
  category_views.total_categories ctx = paginator.count (paginator.make records 8).
Proof.
  cbv zeta. unfold category_views.CategoryListView, category_views.paginate_queryset.
  unfold category_views.paginate_by.
  set (records := db.fetch (category_views.get_queryset d get)).
  destruct (match py.int _ with inl _ => _ | inr n => Some n end) as [n|]; [|discriminate].
  destruct (paginator.page (paginator.make records 8) (py.VInt n)) as [e|pg] eqn:E;
    [discriminate|].
  intros [= <-]. cbn [category_views.list_paginator category_views.page_obj
                      category_views.categories category_views.total_categories].
  destruct (page_rows _ 8 _ _ eq_refl E) as [_ [Hn [Hp _]]].
  rewrite Hn. repeat split; auto.
Qed.

(** With no page asked for, the list of categories shows page 1. *)
Lemma CategoryListView_first_page (d : Database) (get : query) :
  page get = None ->
  exists ctx, category_views.CategoryListView d get = Some ctx /\
              paginator.number (category_views.page_obj ctx) = 1.
Proof.
  intros Hp. unfold category_views.CategoryListView, category_views.paginate_queryset.
  rewrite Hp. cbn [py.truthy py.int].
  rewrite page_in_range
    by (split; [lia | apply num_pages_positive; reflexivity]).
  eexists; split; reflexivity.
Qed.

(** C3, as the code has it.  The number of pages of a listing is never
    0: an empty listing has one page, which is empty; a listing that is
    not empty has [ceil(total_count / page_size)] pages, the least
    number of pages of that size that hold all the rows.  The page size
    is 6 for products and 8 for categories. *)
Theorem total_pages_is_the_ceiling (d : Database) (get : query) :
  (exists ctx,
     products_views.product_list d get = inr ctx /\
     let pgn := paginator.page_paginator (products_views.page_obj ctx) in
     let total_count := products_views.total_products ctx in
     let total_pages := paginator.num_pages pgn in
     paginator.per_page pgn = 6 /\
     paginator.count pgn = total_count /\
     1 <= total_pages /\
     (total_count = 0 ->
        total_pages = 1 /\
        paginator.number (products_views.page_obj ctx) = 1 /\
        paginator.page_object_list (products_views.page_obj ctx) = []) /\
     (0 < total_count ->
        (total_pages - 1) * 6 < total_count <= total_pages * 6)) /\
  (forall ctx,
     category_views.CategoryListView d get = Some ctx ->
     let pgn := category_views.list_paginator ctx in
     let total_count := category_views.total_categories ctx in
     let total_pages := paginator.num_pages pgn in
     paginator.per_page pgn = 8 /\
     paginator.count pgn = total_count /\
     1 <= total_pages /\
     (total_count = 0 ->
        total_pages = 1 /\
        paginator.number (category_views.page_obj ctx) = 1 /\
        category_views.categories ctx = []) /\
     (0 < total_count ->
        (total_pages - 1) * 8 < total_count <= total_pages * 8)) /\
  (page get = None ->
   exists ctx, category_views.CategoryListView d get = Some ctx).
Proof.
  split; [|split].
  - destruct (product_list_total d get) as [ctx [E [G [P [N [_ T]]]]]].
    exists ctx. split; [exact E|]. cbv zeta. rewrite P, T.
    set (records := db.fetch (products_views.product_list_queryset d (search get))) in *.
    split; [reflexivity|]. split; [reflexivity|].
    split; [apply num_pages_positive; reflexivity|].
    unfold paginator.count. cbn [paginator.object_list paginator.make]. split.
    + intros H0. assert (records = []) as R by (destruct records; [reflexivity | simpl in H0; lia]).
      rewrite R in *. rewrite num_pages_empty in * by reflexivity.
      split; [reflexivity|]. split; [lia|].
      unfold paginator.get_page in G.
      destruct (page_rows _ 6 _ _ eq_refl G) as [_ [_ [_ Hr]]].
      rewrite Hr, skipn_nil. apply firstn_nil.
    + intros Hpos. apply (num_pages_bounds records 6 eq_refl).
      intros R; rewrite R in Hpos; simpl in Hpos; lia.
  - intros ctx E. destruct (CategoryListView_page d get ctx E) as [L [P [G [C T]]]].
    cbv zeta. rewrite L, T.
    set (records := db.fetch (category_views.get_queryset d get)) in *.
    split; [reflexivity|]. split; [reflexivity|].
    split; [apply num_pages_positive; reflexivity|].
    destruct (page_rows _ 8 _ _ eq_refl G) as [Hn [_ [_ Hr]]].
    unfold paginator.count. cbn [paginator.object_list paginator.make]. split.
    + intros H0. assert (records = []) as R by (destruct records; [reflexivity | simpl in H0; lia]).
      rewrite R in *. rewrite num_pages_empty in * by reflexivity.
      split; [reflexivity|]. split; [lia|].
      rewrite C, Hr, skipn_nil. apply firstn_nil.
    + intros Hpos. apply (num_pages_bounds records 8 eq_refl).
      intros R; rewrite R in Hpos; simpl in Hpos; lia.
  - intros Hp. destruct (CategoryListView_first_page d get Hp) as [ctx [E _]].
    exists ctx; exact E.
Qed.

(** Seven products and no query: two pages. *)
Lemma total_pages_is_the_ceiling_witness :
  exists ctx,
    products_views.product_list sample.db7 {| search := None; page := None |} = inr ctx /\
    products_views.total_products ctx = 7 /\
    paginator.num_pages (paginator.page_paginator (products_views.page_obj ctx)) = 2.
Proof.
  destruct (total_pages_is_the_ceiling sample.db7 {| search := None; page := None |})
    as [[ctx [E [_ [C [_ [_ H]]]]]] _].
  exists ctx. split; [exact E|].
  assert (products_views.total_products ctx = 7) as T.
  { revert E. vm_compute. intros [= <-]. reflexivity. }
  split; [exact T|]. rewrite T in H. specialize (H eq_refl). lia.
Defined.

(** C3 as it was stated fails on an empty listing: no row, one page. *)
Lemma empty_listing_has_one_page :
  exists ctx,
    products_views.product_list empty_database {| search := None; page := None |} = inr ctx /\
    products_views.total_products ctx = 0 /\
    paginator.num_pages (paginator.page_paginator (products_views.page_obj ctx)) = 1 /\
    paginator.num_pages (paginator.page_paginator (products_views.page_obj ctx)) <> 0.
Proof.
  eexists. split; [vm_compute; reflexivity|].
  split; [reflexivity|]. split; [reflexivity|]. discriminate.
Qed.

(** ** Searching *)



(** C9. With no query, or an empty one, the listing is the rows of the
    store, unchanged and in the same order. *)
Theorem empty_query_lists_everything (d : Database) (get : query) :
  search get = None \/ search get = Some [] ->
  db.fetch (products_views.product_list_queryset d (search get))
    = db.rows (Product_objects_all d) /\
  db.fetch (category_views.get_queryset d get)
    = db.rows (Category_objects_all d).
Proof.
  intros H. apply truthy_false in H.
  unfold products_views.product_list_queryset, category_views.get_queryset.
  rewrite H. split; apply fetch_all.
Qed.

(** No query, and the empty query, over the sample: the seven products. *)
Lemma empty_query_lists_everything_witness :
  db.fetch (products_views.product_list_queryset sample.db7 None)
    = rev (product_table sample.db7) /\
  db.fetch (products_views.product_list_queryset sample.db7 (Some []))
    = rev (product_table sample.db7).
Proof.
  split.
  - exact (proj1 (empty_query_lists_everything sample.db7
                    {| search := None; page := None |} (or_introl eq_refl))).
  - exact (proj1 (empty_query_lists_everything sample.db7
                    {| search := Some []; page := None |} (or_intror eq_refl))).
Defined.

(** ** Generated codes *)

(** The first group of the string of a UUID, in upper case, digit by
    digit. *)
Lemma first_group_upper (f : nat -> ascii) (rest : py.str) :
  py.upper (py.slice (py.slice (map f (seq 0 32)) 0 8 ++ rest) 0 8)
  = map (fun i => py.to_upper (f i)) (seq 0 8).
Proof. reflexivity. Qed.

(** The code is the first eight hexadecimal digits of the UUID, in upper
    case. *)
Lemma new_code_digits (rnd : Z) :
  new_code rnd =
  map (fun i => py.to_upper
                  (uuid.hexdigit
                     (Z.shiftr (uuid.with_version rnd 4) (4 * (31 - Z.of_nat i)) mod 16)))
      (seq 0 8).
Proof.
  unfold new_code, uuid.str, uuid.uuid4, uuid.format_032x. cbn [uuid.int].
  apply first_group_upper.
Qed.

Lemma new_code_prefix (rnd : Z) :
  new_code rnd = py.upper (firstn 8 (uuid.str (uuid.uuid4 rnd))).
Proof. reflexivity. Qed.

Lemma new_code_length (rnd : Z) : length (new_code rnd) = 8%nat.
Proof. rewrite new_code_digits, length_map. reflexivity. Qed.

Lemma new_code_truthy (rnd : Z) : py.truthy (Some (new_code rnd)) = true.
Proof.
  pose proof (new_code_length rnd) as H.
  destruct (new_code rnd); [discriminate H | reflexivity].
Qed.

Lemma hexdigit_upper (d : Z) :
  0 <= d < 16 -> is_upper_hex (py.to_upper (uuid.hexdigit d)) = true.
Proof.
  intros H.
  assert (d = 0 \/ d = 1 \/ d = 2 \/ d = 3 \/ d = 4 \/ d = 5 \/ d = 6 \/ d = 7 \/
          d = 8 \/ d = 9 \/ d = 10 \/ d = 11 \/ d = 12 \/ d = 13 \/ d = 14 \/ d = 15)
    as E by lia.
  repeat (destruct E as [-> | E]; [reflexivity|]). subst d. reflexivity.
Qed.

Lemma new_code_upper_hex (rnd : Z) :
  Forall (fun c => is_upper_hex c = true) (new_code rnd).
Proof.
  rewrite new_code_digits. apply Forall_map, Forall_forall. intros i _.
  apply hexdigit_upper. apply Z.mod_pos_bound. lia.
Qed.

Lemma upper_hex_is_upper_alnum (c : ascii) :
  is_upper_hex c = true -> is_upper_alnum c = true.
Proof.
  unfold is_upper_hex, is_upper_alnum, py.isupper, py.in_range.
  intros H. apply orb_true_iff in H. apply orb_true_iff.
  destruct H as [H|H]; [right; exact H | left].
  apply andb_true_iff in H. destruct H as [H1 H2].
  apply andb_true_iff. split; [exact H1|].
  apply Z.leb_le in H2. apply Z.leb_le. lia.
Qed.

Lemma upper_hex_not_G_to_Z (c : ascii) :
  is_upper_hex c = true -> py.in_range 71 90 c = false.
Proof.
  unfold is_upper_hex, py.isdigit, py.in_range.
  intros H. apply orb_true_iff in H. apply andb_false_iff.
  destruct H as [H|H]; apply andb_true_iff in H; destruct H as [H1 H2];
    apply Z.leb_le in H1, H2; left; apply Z.leb_gt; lia.
Qed.

(** C10. A generated code is the first eight characters of the string
    of a random UUID, in upper case: eight characters among [0-9] and
    [A-F].  No letter from G to Z occurs in it, so that not every
    upper-case letter or digit can occur: G cannot. *)
Theorem generated_code_is_hexadecimal (rnd : Z) :
  new_code rnd = py.upper (firstn 8 (uuid.str (uuid.uuid4 rnd))) /\
  length (new_code rnd) = 8%nat /\
  Forall (fun c => In c (py.s "0123456789ABCDEF")) (new_code rnd) /\
  Forall (fun c => py.in_range 71 90 c = false) (new_code rnd) /\
  is_upper_alnum "G" = true /\ ~ In "G"%char (new_code rnd).
Proof.
  split; [apply new_code_prefix|]. split; [apply new_code_length|].
  pose proof (new_code_upper_hex rnd) as H. split; [|split; [|split]].
  - rewrite new_code_digits. apply Forall_map, Forall_forall. intros i _.
    set (d := _ mod 16).
    assert (0 <= d < 16) as Hd by (apply Z.mod_pos_bound; lia).
    assert (d = 0 \/ d = 1 \/ d = 2 \/ d = 3 \/ d = 4 \/ d = 5 \/ d = 6 \/ d = 7 \/
            d = 8 \/ d = 9 \/ d = 10 \/ d = 11 \/ d = 12 \/ d = 13 \/ d = 14 \/ d = 15)
      as E by lia.
    clearbody d.
    repeat (destruct E as [-> | E]; [vm_compute; tauto|]). subst d. vm_compute; tauto.
  - eapply Forall_impl; [|exact H]. intros c. apply upper_hex_not_G_to_Z.
  - reflexivity.
  - intros HG. rewrite Forall_forall in H. specialize (H _ HG). discriminate H.
Qed.

(** ** Creating a product *)

Lemma existsb_code_taken (d : Database) (c : py.str) :
  existsb (fun r => py.str_eqb c (Product.code r)) (product_table d) = true
  <-> code_taken d c.
Proof.
  rewrite existsb_exists. unfold code_taken.
  split; intros [r [Hr E]]; exists r; (split; [exact Hr|]).
  - apply str_eqb_eq in E. symmetry; exact E.
  - apply str_eqb_eq. symmetry; exact E.
Qed.

(** What an [INSERT] of a product checked, when it went through, and
    what it changed. *)
Lemma insert_product_inr (d d' : Database) (p row : Product.t) :
  insert_product d p = inr (d', row) ->
  py.float_is_finite (Product.price p) = true /\
  0 <= Product.instock p < 2 ^ 63 /\
  ~ code_taken d (Product.code p) /\
  (exists c, In c (category_table d) /\ Category.pk c = Some (Product.category_id p)) /\
  row = Product.with_pk (product_seq d + 1) p /\
  product_table d' = product_table d ++ [row] /\
  product_seq d' = product_seq d + 1 /\
  category_table d' = category_table d /\
  category_seq d' = category_seq d.
Proof.
  unfold insert_product.
  destruct (py.float_is_finite (Product.price p)); [|discriminate]. cbn [negb].
  destruct (int64_ok (Product.instock p)) eqn:I; [|discriminate]. cbn [negb].
  destruct (Product.instock p <? 0) eqn:N; [discriminate|].
  destruct (existsb _ (product_table d)) eqn:U; [discriminate|].
  destruct (existsb _ (category_table d)) eqn:F; [|discriminate]. cbn [negb].
  intros [= <- <-]. cbn.
  split; [reflexivity|]. split.
  { unfold int64_ok in I. apply andb_true_iff in I. destruct I as [_ I].
    apply Z.ltb_lt in I. apply Z.ltb_ge in N. lia. }
  split.
  { intros T. apply existsb_code_taken in T. congruence. }
  split.
  { apply existsb_exists in F. destruct F as [c [Hc K]]. exists c. split; [exact Hc|].
    unfold Category.has_pk in K. destruct (Category.pk c); [|discriminate].
    apply Z.eqb_eq in K. congruence. }
  repeat split; reflexivity.
Qed.

(** A code that is taken is refused, by [UNIQUE (code)] if nothing else
    is wrong with the row. *)
Lemma insert_product_code_taken (d : Database) (p : Product.t) :
  code_taken d (Product.code p) ->
  exists e, insert_product d p = inl e /\
    (py.float_is_finite (Product.price p) = true ->
     0 <= Product.instock p < 2 ^ 63 ->
     e = db.IntegrityError db.UniqueCode).
Proof.
  intros T. apply existsb_code_taken in T. unfold insert_product.
  destruct (py.float_is_finite (Product.price p)); cbn [negb];
    [|eexists; split; [reflexivity | discriminate]].
  destruct (int64_ok (Product.instock p)) eqn:I; cbn [negb].
  - destruct (Product.instock p <? 0) eqn:N.
    + eexists; split; [reflexivity|]. intros _ H. apply Z.ltb_lt in N. lia.
    + rewrite T. eexists; split; reflexivity.
  - eexists; split; [reflexivity|]. intros _ H.
    unfold int64_ok in I. apply andb_false_iff in I.
    destruct I as [I|I]; [apply Z.leb_gt in I | apply Z.ltb_ge in I]; lia.
Qed.

Section Creation.
Variable urandom : nat -> Z.

(** [Product.save] of an instance that has its code: no draw. *)
Lemma Product_save_with_code (st : Site) (p : Product.t) :
  py.truthy (Some (Product.code p)) = true ->
  Product_save urandom st p =
  match insert_product (database st) p with
  | inl e => (st, inl e)
  | inr (d, row) => ({| database := d; draws := draws st |}, inr row)
  end.
Proof.
  intros H. unfold Product_save. rewrite H. cbn [negb].
  destruct (insert_product (database st) p) as [e|[d row]]; [|reflexivity].
  destruct st; reflexivity.
Qed.

(** [product_create] on a POST, step by step. *)
Lemma product_create_POST (st : Site) (f : products_views.form) :
  products_views.product_create urandom st POST f =
  if negb (all (required f))
  then (st, render products_create_html (Some AllFieldsRequired))
  else
    match Category_objects_get (database st) (text (products_views.category f)) with
    | inl DoesNotExist => (st, render products_create_html (Some InvalidCategorySelected))
    | inl (PyError py.ValueError) =>
        (st, render products_create_html (Some InvalidPriceOrStock))
    | inl e => (st, render products_create_html (Some (ErrorCreatingProduct e)))
    | inr category =>
        match py.float_of_str (text (products_views.price f)) with
        | None => (st, render products_create_html (Some InvalidPriceOrStock))
        | Some price_value =>
            match py.int_of_str (text (products_views.instock f)) with
            | None => (st, render products_create_html (Some InvalidPriceOrStock))
            | Some instock_value =>
                match insert_product (database st)
                        (instance_of urandom st f category price_value instock_value) with
                | inl e =>
                    ({| database := database st; draws := S (draws st) |},
                     render products_create_html
                            (Some (ErrorCreatingProduct (DbError e))))
                | inr (d, row) =>
                    ({| database := d; draws := S (draws st) |},
                     redirect (products_detail_url (Product.pk row))
                              (Some (ProductCreated (Product.name row))))
                end
            end
        end
    end.
Proof.
  unfold products_views.product_create, required.
  destruct (negb (all _)); [reflexivity|].
  unfold products_views.product_create_try.
  destruct (Category_objects_get _ _) as [[| [|] |e]|category]; try reflexivity.
  destruct (py.float_of_str _) as [price_value|]; [|reflexivity].
  destruct (py.int_of_str _) as [instock_value|]; [|reflexivity].
  unfold Product_objects_create.
  rewrite Product_save_with_code by apply new_code_truthy.
  cbn [database draws]. fold (instance_of urandom st f category price_value instock_value).
  destruct (insert_product _ _) as [e|[d row]]; reflexivity.
Qed.

End Creation.

(** A request reads the random source at most once, and the tables
    change only when the product is created. *)
Lemma product_create_draws (urandom : nat -> Z) (st : Site) (m : method)
      (f : products_views.form) :
  let st' := fst (products_views.product_create urandom st m f) in
  draws st' = draws st \/ draws st' = S (draws st).
Proof.
  destruct m; [left; reflexivity|]. rewrite product_create_POST.
  destruct (negb (all (required f))); [left; reflexivity|].
  destruct (Category_objects_get _ _) as [[| [|] |e]|category]; try (left; reflexivity).
  destruct (py.float_of_str _) as [price_value|]; [|left; reflexivity].
  destruct (py.int_of_str _) as [instock_value|]; [|left; reflexivity].
  destruct (insert_product _ _) as [e|[d row]]; right; reflexivity.
Qed.

(** C4, as the code has it.  A generated code that collides with the
    code of an existing product is not replaced by another: the request
    reads the random source at most once, the creation fails and the
    tables stay as they were.  When nothing else is wrong with the
    request, what is reported is the integrity error of the table
    ([UNIQUE (code)]) under 'Error creating product'. *)
Theorem colliding_code_is_not_retried (urandom : nat -> Z) (st : Site) (m : method)
        (f : products_views.form) :
  let st' := fst (products_views.product_create urandom st m f) in
  let resp := snd (products_views.product_create urandom st m f) in
  (draws st' = draws st \/ draws st' = S (draws st)) /\
  (code_taken (database st) (new_code (urandom (draws st))) ->
     database st' = database st /\
     exists msg, resp = render products_create_html msg) /\
  (forall category price_value instock_value,
     m = POST ->
     all (required f) = true ->
     Category_objects_get (database st) (text (products_views.category f)) = inr category ->
     py.float_of_str (text (products_views.price f)) = Some price_value ->
     py.int_of_str (text (products_views.instock f)) = Some instock_value ->
     py.float_is_finite price_value = true ->
     0 <= instock_value < 2 ^ 63 ->
     code_taken (database st) (new_code (urandom (draws st))) ->
     st' = {| database := database st; draws := S (draws st) |} /\
     resp = render products_create_html
              (Some (ErrorCreatingProduct (DbError (db.IntegrityError db.UniqueCode))))).
Proof.
  cbv zeta. split; [apply product_create_draws|]. split.
  - intros T. destruct m; [split; [reflexivity | eexists; reflexivity]|].
    rewrite product_create_POST.
    destruct (negb (all (required f))); [split; [reflexivity | eexists; reflexivity]|].
    destruct (Category_objects_get _ _) as [[| [|] |e]|category];
      try (split; [reflexivity | eexists; reflexivity]).
    destruct (py.float_of_str _) as [price_value|];
      [|split; [reflexivity | eexists; reflexivity]].
    destruct (py.int_of_str _) as [instock_value|];
      [|split; [reflexivity | eexists; reflexivity]].
    destruct (insert_product_code_taken (database st)
                (instance_of urandom st f category price_value instock_value) T)
      as [e [E _]].
    rewrite E. split; [reflexivity | eexists; reflexivity].
  - intros category price_value instock_value -> Hall Hc Hp Hi Hfin Hn T.
    rewrite product_create_POST, Hall, Hc, Hp, Hi. cbn [negb].
    destruct (insert_product_code_taken (database st)
                (instance_of urandom st f category price_value instock_value) T)
      as [e [E He]].
    rewrite E, (He Hfin Hn). split; reflexivity.
Qed.

(** The first draw gives the code of product 2: the creation fails and
    the second draw, which is free, is not read. *)
Lemma colliding_code_is_not_retried_witness :
  code_taken sample.db7 (new_code (sample.urandom 0)) /\
  products_views.product_create sample.urandom sample.site7 POST
    (sample.product_form "Cap" "9.50" "3" "2")
  = ({| database := sample.db7; draws := 1 |},
     render products_create_html
       (Some (ErrorCreatingProduct (DbError (db.IntegrityError db.UniqueCode))))).
Proof.
  assert (code_taken sample.db7 (new_code (sample.urandom 0))) as T.
  { exists (sample.product 2 "Red Shoe" "11111111" 2).
    split; [right; left; reflexivity | reflexivity]. }
  split; [exact T|].
  destruct (colliding_code_is_not_retried sample.urandom sample.site7 POST
              (sample.product_form "Cap" "9.50" "3" "2")) as [_ [_ H]].
  destruct (H sample.shoes (py.Finite false 950 (-2)) 3
              eq_refl eq_refl eq_refl eq_refl eq_refl eq_refl
              ltac:(split; [discriminate | reflexivity]) T) as [H1 H2].
  rewrite (surjective_pairing (products_views.product_create _ _ _ _)).
  rewrite H1, H2. reflexivity.
Defined.

(** C4 as it was stated fails: the first code collides, a second draw
    would give a code that is free, and still the creation fails, with
    the integrity error of the table, after one draw. *)
Lemma no_second_code_is_generated :
  code_taken sample.db7 (new_code (sample.urandom 0)) /\
  ~ code_taken sample.db7 (new_code (sample.urandom 1)) /\
  products_views.product_create sample.urandom sample.site7 POST
    (sample.product_form "Cap" "9.50" "3" "2")
  = ({| database := sample.db7; draws := 1 |},
     render products_create_html
       (Some (ErrorCreatingProduct (DbError (db.IntegrityError db.UniqueCode))))).
Proof.
  split; [|split].
  - exists (sample.product 2 "Red Shoe" "11111111" 2).
    split; [right; left; reflexivity | reflexivity].
  - intros T. apply existsb_code_taken in T. vm_compute in T. discriminate T.
  - vm_compute. reflexivity.
Qed.




(** What [Product.save] leaves when it succeeds: one more row, whose
    code no other row has; the code is a generated one when the
    instance had none. *)
Lemma Product_save_inr (urandom : nat -> Z) (st st' : Site) (p row : Product.t) :
  Product_save urandom st p = (st', inr row) ->
  product_table (database st') = product_table (database st) ++ [row] /\
  (forall r, In r (product_table (database st)) -> Product.code r <> Product.code row) /\
  (Product.code p = [] -> Product.code row = new_code (urandom (draws st))) /\
  (Product.code p <> [] -> Product.code row = Product.code p).
Proof.
  unfold Product_save.
  destruct (negb (py.truthy (Some (Product.code p)))) eqn:C.
  - destruct (insert_product _ _) as [e|[d r]] eqn:I; [discriminate|].
    intros [= <- <-]. apply insert_product_inr in I.
    destruct I as [_ [_ [T [_ [R [Tb _]]]]]]. cbn [database].
    split; [exact Tb|]. rewrite R. cbn. split; [|split].
    + intros x Hx E. apply T. exists x. split; [exact Hx | exact E].
    + reflexivity.
    + intros Hne. destruct (Product.code p); [congruence | discriminate C].
  - destruct (insert_product _ _) as [e|[d r]] eqn:I; [discriminate|].
    intros [= <- <-]. apply insert_product_inr in I.
    destruct I as [_ [_ [T [_ [R [Tb _]]]]]]. cbn [database].
    split; [exact Tb|]. rewrite R. cbn. split; [|split].
    + intros x Hx E. apply T. exists x. split; [exact Hx | exact E].
    + intros E. rewrite E in C. discriminate C.
    + reflexivity.
Qed.

(** C8. A generated code has exactly eight characters, each an
    upper-case letter or a digit.  When a product is created, by
    [product_create] or by [Product.save] for an instance without a
    code, its code is a generated one and differs from the code of every
    product that was there. *)
Theorem generated_code_is_fresh (urandom : nat -> Z) (st : Site) :
  (forall rnd,
     length (new_code rnd) = 8%nat /\
     Forall (fun c => is_upper_alnum c = true) (new_code rnd)) /\
  (forall m f st' to msg,
     products_views.product_create urandom st m f = (st', redirect to msg) ->
     exists row,
       product_table (database st') = product_table (database st) ++ [row] /\
       Product.code row = new_code (urandom (draws st)) /\
       forall r, In r (product_table (database st)) -> Product.code r <> Product.code row) /\
  (forall p st' row,
     Product.code p = [] ->
     Product_save urandom st p = (st', inr row) ->
     product_table (database st') = product_table (database st) ++ [row] /\
     Product.code row = new_code (urandom (draws st)) /\
     forall r, In r (product_table (database st)) -> Product.code r <> Product.code row).
Proof.
  split; [|split].
  - intros rnd. split; [apply new_code_length|].
    eapply Forall_impl; [|apply new_code_upper_hex].
    intros c. apply upper_hex_is_upper_alnum.
  - intros m f st' to msg. destruct m; [discriminate|].
    rewrite product_create_POST.
    destruct (negb (all (required f))); [discriminate|].
    destruct (Category_objects_get _ _) as [[| [|] |e]|category]; try discriminate.
    destruct (py.float_of_str _) as [price_value|]; [|discriminate].
    destruct (py.int_of_str _) as [instock_value|]; [|discriminate].
    destruct (insert_product _ _) as [e|[d row]] eqn:I; [discriminate|].
    intros [= <- _ _]. apply insert_product_inr in I.
    destruct I as [_ [_ [T [_ [R [Tb _]]]]]].
    exists row. cbn [database]. split; [exact Tb|]. rewrite R. cbn. split; [reflexivity|].
    intros x Hx E. apply T. exists x. split; [exact Hx | exact E].
  - intros p st' row Hc H. apply Product_save_inr in H.
    destruct H as [Tb [F [G _]]]. split; [exact Tb|]. split; [exact (G Hc) | exact F].
Qed.

(** A product is created over the seven of the sample: its code is the
    one of the second draw, which no product had. *)
Lemma generated_code_is_fresh_witness :
  exists st' row,
    products_views.product_create sample.urandom
      {| database := sample.db7; draws := 1 |} POST
      (sample.product_form "Cap" "9.50" "3" "2")
    = (st', redirect (products_detail_url (Some 8)) (Some (ProductCreated (py.s "Cap")))) /\
    product_table (database st') = product_table sample.db7 ++ [row] /\
    Product.code row = py.s "22222223" /\
    forall r, In r (product_table sample.db7) -> Product.code r <> Product.code row.
Proof.
  eexists. 
  destruct (generated_code_is_fresh sample.urandom {| database := sample.db7; draws := 1 |})
    as [_ [H _]].
  destruct (H POST (sample.product_form "Cap" "9.50" "3" "2") _ _ _ eq_refl)
    as [row [Tb [C F]]].
  exists row. split; [reflexivity|]. split; [exact Tb|]. split; [exact C | exact F].
Defined.

(** ** Deleting a category *)

Lemma find_filter_none {A} (f g : A -> bool) (l : list A) :
  (forall x, In x l -> f x = true -> g x = false) ->
  find f (List.filter g l) = None.
Proof.
  intros H. destruct (find f (List.filter g l)) as [x|] eqn:E; [|reflexivity].
  apply find_some in E. destruct E as [Hin Hf]. apply filter_In in Hin.
  destruct Hin as [Hin Hg]. rewrite (H x Hin Hf) in Hg. discriminate Hg.
Qed.

Lemma NoDup_map_injective {A B} (f : A -> B) (l : list A) (x y : A) :
  NoDup (map f l) -> In x l -> In y l -> f x = f y -> x = y.
Proof.
  induction l as [|a l IH]; simpl; intros N Hx Hy E; [contradiction|].
  inversion N as [|? ? Hn N']; subst.
  destruct Hx as [<-|Hx], Hy as [<-|Hy].
  - reflexivity.
  - exfalso. apply Hn. rewrite E. apply in_map. exact Hy.
  - exfalso. apply Hn. rewrite <- E. apply in_map. exact Hx.
  - apply IH; assumption.
Qed.

Lemma filter_split_length {A} (f : A -> bool) (l : list A) :
  (length (List.filter (fun x => negb (f x)) l) + length (List.filter f l)
   = length l)%nat.
Proof.
  induction l as [|a l IH]; simpl; [reflexivity|].
  destruct (f a); simpl; lia.
Qed.

Lemma has_pk_Some_product (k : Z) (p : Product.t) :
  Product.has_pk k p = true <-> Product.pk p = Some k.
Proof.
  unfold Product.has_pk. destruct (Product.pk p) as [j|].
  - rewrite Z.eqb_eq. split; congruence.
  - split; discriminate.
Qed.

Lemma has_pk_Some_category (k : Z) (c : Category.t) :
  Category.has_pk k c = true <-> Category.pk c = Some k.
Proof.
  unfold Category.has_pk. destruct (Category.pk c) as [j|].
  - rewrite Z.eqb_eq. split; congruence.
  - split; discriminate.
Qed.

Lemma get_category_Some (d : Database) (k : Z) (c : Category.t) :
  get_category d k = Some c -> In c (category_table d) /\ Category.pk c = Some k.
Proof.
  intros H. apply find_some in H. destruct H as [H1 H2].
  split; [exact H1 | apply has_pk_Some_category; exact H2].
Qed.

(** What [category.delete()] leaves. *)
Lemma Category_delete_spec (d : Database) (k : Z) (c : Category.t) :
  Category.pk c = Some k ->
  category_table (Category_delete d c)
    = List.filter (fun r => negb (Category.has_pk k r)) (category_table d) /\
  product_table (Category_delete d c)
    = List.filter (fun r => negb (Product.category_id r =? k)) (product_table d) /\
  category_seq (Category_delete d c) = category_seq d /\
  product_seq (Category_delete d c) = product_seq d.
Proof.
  intros H. unfold Category_delete. rewrite H. repeat split; reflexivity.
Qed.

Lemma Category_delete_references (d : Database) (c : Category.t) :
  references_ok d -> references_ok (Category_delete d c).
Proof.
  intros R. destruct (Category.pk c) as [k|] eqn:K;
    [|unfold Category_delete; rewrite K; exact R].
  destruct (Category_delete_spec d k c K) as [Ec [Ep _]].
  intros p Hp. rewrite Ep in Hp. apply filter_In in Hp. destruct Hp as [Hp Hk].
  destruct (R p Hp) as [c' [Hc' Kc']]. exists c'. split; [|exact Kc'].
  rewrite Ec. apply filter_In. split; [exact Hc'|].
  unfold Category.has_pk. rewrite Kc'. exact Hk.
Qed.

(** C6. Deleting a category, by a POST to its delete page, deletes in
    the same step the category and every product that refers to it:
    afterwards none of these products is found by its key, the category
    is not found, no product refers to a category that does not exist,
    and the other products are all there. *)
Theorem category_delete_cascades (st : Site) (k : Z) (c : Category.t) :
  NoDup (map Product.pk (product_table (database st))) ->
  references_ok (database st) ->
  get_category (database st) k = Some c ->
  let st' := fst (category_views.CategoryDeleteView st POST k) in
  get_category (database st') k = None /\
  (forall p j,
     In p (dependents (database st) k) -> Product.pk p = Some j ->
     products_views.product_detail (database st') j = None) /\
  dependents (database st') k = [] /\
  references_ok (database st') /\
  (forall p, In p (product_table (database st')) <->
             In p (product_table (database st)) /\ Product.category_id p <> k) /\
  (length (product_table (database st')) + length (dependents (database st) k)
   = length (product_table (database st)))%nat.
Proof.
  intros N R G. cbv zeta. unfold category_views.CategoryDeleteView. rewrite G.
  cbn [fst database]. destruct (get_category_Some _ _ _ G) as [Hc K].
  destruct (Category_delete_spec (database st) k c K) as [Ec [Ep _]].
  split; [|split; [|split; [|split; [|split]]]].
  - unfold get_category. rewrite Ec. apply find_filter_none.
    intros x _ H. rewrite H. reflexivity.
  - intros p j Hp Hj. unfold products_views.product_detail, get_product. rewrite Ep.
    apply filter_In in Hp. destruct Hp as [Hp Hk].
    apply find_filter_none. intros q Hq Hqj.
    apply has_pk_Some_product in Hqj.
    assert (q = p) as -> by (apply (NoDup_map_injective Product.pk _ q p N Hq Hp); congruence).
    rewrite Hk. reflexivity.
  - unfold dependents. rewrite Ep.
    destruct (List.filter _ (List.filter _ _)) as [|x l] eqn:E; [reflexivity|].
    assert (In x (x :: l)) as Hx by (left; reflexivity). rewrite <- E in Hx.
    apply filter_In in Hx. destruct Hx as [Hx H1]. apply filter_In in Hx.
    destruct Hx as [_ H2]. rewrite H1 in H2. discriminate H2.
  - apply Category_delete_references. exact R.
  - intros p. rewrite Ep, filter_In, negb_true_iff, Z.eqb_neq. reflexivity.
  - rewrite Ep. unfold dependents. apply filter_split_length.
Qed.

Lemma db7_keys_distinct : NoDup (map Product.pk (product_table sample.db7)).
Proof.
  repeat constructor; simpl; intuition discriminate.
Defined.

Lemma db7_references_ok : references_ok sample.db7.
Proof.
  intros p Hp. simpl in Hp.
  repeat (destruct Hp as [<- | Hp];
          [first [exists sample.tools; split; [left; reflexivity | reflexivity]
                 |exists sample.shoes; split; [right; left; reflexivity | reflexivity]]|]).
  contradiction.
Defined.

(** Deleting the category of shoes deletes its three products. *)
Lemma category_delete_cascades_witness :
  let st' := fst (category_views.CategoryDeleteView sample.site7 POST 2) in
  products_views.product_detail (database st') 2 = None /\
  products_views.product_detail (database st') 3 = None /\
  products_views.product_detail (database st') 4 = None /\
  length (product_table (database st')) = 4%nat /\
  references_ok (database st').
Proof.
  destruct (category_delete_cascades sample.site7 2 sample.shoes
              db7_keys_distinct db7_references_ok eq_refl)
    as [_ [H [_ [R [_ L]]]]].
  cbv zeta. split; [|split; [|split; [|split]]].
  - apply (H (sample.product 2 "Red Shoe" "11111111" 2)); [|reflexivity].
    apply filter_In. split; [right; left; reflexivity | reflexivity].
  - apply (H (sample.product 3 "Blue Shoe" "22222222" 2)); [|reflexivity].
    apply filter_In. split; [right; right; left; reflexivity | reflexivity].
  - apply (H (sample.product 4 "Red Hat" "33333333" 2)); [|reflexivity].
    apply filter_In. split; [right; right; right; left; reflexivity | reflexivity].
  - reflexivity.
  - exact R.
Defined.

(** ** Creating a category *)

(** The name field gives the stripped value, which is not empty, or
    some error. *)
Lemma clean_char_cases (max_length : option Z) (v : option py.str) :
  (exists e errs, CategoryForm.clean_char max_length v = inl (e :: errs)) \/
  (CategoryForm.clean_char max_length v = inr (py.strip (text v)) /\
   py.strip (text v) <> []).
Proof.
  unfold CategoryForm.clean_char.
  destruct (py.strip (text v)) as [|a x]; [left; do 2 eexists; reflexivity|].
  destruct (_ ++ _) as [|e errs]; [right | left; do 2 eexists; reflexivity].
  split; [reflexivity | discriminate].
Qed.

Lemma exists_iexact (d : Database) (name : py.str) (c : Category.t) :
  In c (category_table d) ->
  same_ignoring_case name (Category.name c) ->
  db.exists_ (db.filter (db.all (category_table d)) (db.iexact Category.name name)) = true.
Proof.
  intros Hc E. unfold db.exists_.
  destruct (db.fetch _) as [|x l] eqn:F; [|reflexivity].
  assert (In c (db.fetch (db.filter (db.all (category_table d))
                                    (db.iexact Category.name name)))) as H.
  { apply fetch_In. split; [exact Hc|]. cbn [db.where_ db.filter db.all].
    apply (iexact_spec Category.name) in E. rewrite E. reflexivity. }
  rewrite F in H. contradiction.
Qed.

(** [clean_name] refuses, for a new category, a name that a category
    has already, the case of letters ignored. *)
Lemma clean_name_duplicate (d : Database) (name : py.str) (c : Category.t) :
  name <> [] ->
  In c (category_table d) ->
  same_ignoring_case name (Category.name c) ->
  CategoryForm.clean_name d None name = inl CategoryForm.DuplicateName.
Proof.
  intros Hn Hc E. unfold CategoryForm.clean_name.
  destruct name as [|a x]; [congruence|]. cbn [py.truthy].
  rewrite (exists_iexact d (a :: x) c Hc E). reflexivity.
Qed.

(** An invalid form leaves the site as it was. *)
Lemma CategoryCreateView_invalid (st : Site) (f : CategoryForm.data) :
  CategoryForm.is_valid (database st) None f = false ->
  category_views.CategoryCreateView st f
    = (st, render category_create_html (Some CorrectTheErrorsBelow)).
Proof.
  intros H. unfold category_views.CategoryCreateView. rewrite H. reflexivity.
Qed.



(** ** What the tables keep true *)

Lemma NoDup_map_snoc {A B} (f : A -> B) (l : list A) (x : A) :
  NoDup (map f l) -> ~ In (f x) (map f l) -> NoDup (map f (l ++ [x])).
Proof.
  induction l as [|a l IH]; simpl; intros N H.
  - constructor; [intros [] | constructor].
  - inversion N as [|? ? Hn N']; subst. constructor.
    + rewrite map_app, in_app_iff. simpl. intros [K|[K|[]]]; [contradiction|].
      apply H. left. symmetry. exact K.
    + apply IH; [exact N' | intros K; apply H; right; exact K].
Qed.

Lemma NoDup_map_filter {A B} (f : A -> B) (g : A -> bool) (l : list A) :
  NoDup (map f l) -> NoDup (map f (List.filter g l)).
Proof.
  induction l as [|a l IH]; simpl; intros N; [constructor|].
  inversion N as [|? ? Hn N']; subst.
  destruct (g a); [|exact (IH N')]. simpl. constructor; [|exact (IH N')].
  intros K. apply Hn. apply in_map_iff in K. destruct K as [x [E Hx]].
  apply filter_In in Hx. destruct Hx as [Hx _].
  rewrite <- E. apply in_map. exact Hx.
Qed.

Lemma well_formed_initial : well_formed empty_database.
Proof.
  constructor; simpl; try constructor; try (intros ? []); lia.
Qed.

Lemma insert_product_well_formed (d d' : Database) (p row : Product.t) :
  well_formed d -> insert_product d p = inr (d', row) -> well_formed d'.
Proof.
  intros [[S1 S2] PK PD CK CD R CO NA] I. apply insert_product_inr in I.
  destruct I as [_ [_ [T [F [Er [Tb [Sq [Ct Cs]]]]]]]].
  constructor; rewrite ?Tb, ?Sq, ?Ct, ?Cs; try assumption.
  - lia.
  - intros q Hq. apply in_app_iff in Hq. destruct Hq as [Hq|[<-|[]]].
    + destruct (PK q Hq) as [k [Hk Bk]]. exists k. split; [exact Hk | lia].
    + exists (product_seq d + 1). rewrite Er. split; [reflexivity | lia].
  - apply NoDup_map_snoc; [exact PD|]. rewrite Er. simpl.
    intros K. apply in_map_iff in K. destruct K as [q [Eq Hq]].
    destruct (PK q Hq) as [k [Hk Bk]]. rewrite Hk in Eq. injection Eq as Eq. lia.
  - intros q Hq. rewrite Tb in Hq. apply in_app_iff in Hq.
    rewrite Ct. destruct Hq as [Hq|[<-|[]]]; [exact (R q Hq)|].
    rewrite Er. exact F.
  - apply NoDup_map_snoc; [exact CO|]. rewrite Er. simpl.
    intros K. apply T. apply in_map_iff in K. destruct K as [q [Eq Hq]].
    exists q. split; assumption.
Qed.

Lemma product_create_well_formed (urandom : nat -> Z) (st : Site) (m : method)
      (f : products_views.form) :
  well_formed (database st) ->
  well_formed (database (fst (products_views.product_create urandom st m f))).
Proof.
  intros W. destruct m; [exact W|]. rewrite product_create_POST.
  destruct (negb (all (required f))); [exact W|].
  destruct (Category_objects_get _ _) as [[| [|] |e]|category]; try exact W.
  destruct (py.float_of_str _) as [price_value|]; [|exact W].
  destruct (py.int_of_str _) as [instock_value|]; [|exact W].
  destruct (insert_product _ _) as [e|[d row]] eqn:I; [exact W|].
  exact (insert_product_well_formed _ _ _ _ W I).
Qed.

Lemma product_delete_well_formed (st : Site) (m : method) (k : Z) :
  well_formed (database st) ->
  well_formed (database (fst (products_views.product_delete st m k))).
Proof.
  intros W. unfold products_views.product_delete.
  destruct (get_product (database st) k) as [p|]; [|exact W].
  destruct m; [exact W|]. cbn [fst database]. unfold Product_delete.
  destruct (Product.pk p) as [j|]; [|exact W].
  destruct W as [S PK PD CK CD R CO NA].
  constructor; cbn [product_table product_seq category_table category_seq];
    try assumption.
  - intros q Hq. apply filter_In in Hq. exact (PK q (proj1 Hq)).
  - apply NoDup_map_filter. exact PD.
  - intros q Hq. cbn [product_table] in Hq. apply filter_In in Hq.
    exact (R q (proj1 Hq)).
  - apply NoDup_map_filter. exact CO.
Qed.

Lemma Category_delete_well_formed (d : Database) (c : Category.t) :
  well_formed d -> well_formed (Category_delete d c).
Proof.
  intros W. pose proof (Category_delete_references d c (product_references d W)) as R'.
  destruct (Category.pk c) as [k|] eqn:K;
    [|unfold Category_delete; rewrite K; exact W].
  destruct (Category_delete_spec d k c K) as [Ec [Ep [Sc Sp]]].
  destruct W as [S PK PD CK CD R CO NA].
  constructor; rewrite ?Ec, ?Ep, ?Sc, ?Sp; try assumption.
  - intros q Hq. apply filter_In in Hq. exact (PK q (proj1 Hq)).
  - apply NoDup_map_filter. exact PD.
  - intros q Hq. apply filter_In in Hq. exact (CK q (proj1 Hq)).
  - apply NoDup_map_filter. exact CD.
  - apply NoDup_map_filter. exact CO.
  - apply (NoDup_map_filter (fun c => py.lower (Category.name c))). exact NA.
Qed.

Lemma CategoryDeleteView_well_formed (st : Site) (m : method) (k : Z) :
  well_formed (database st) ->
  well_formed (database (fst (category_views.CategoryDeleteView st m k))).
Proof.
  intros W. unfold category_views.CategoryDeleteView.
  destruct (get_category (database st) k) as [c|]; [|exact W].
  destruct m; [exact W|]. apply Category_delete_well_formed. exact W.
Qed.

(** A valid form has a name that no category has, whatever the case. *)
Lemma is_valid_name_new (d : Database) (f : CategoryForm.data) (c : Category.t) :
  CategoryForm.is_valid d None f = true ->
  In c (category_table d) ->
  ~ same_ignoring_case (py.strip (text (CategoryForm.name f))) (Category.name c).
Proof.
  intros V Hc E. unfold CategoryForm.is_valid, CategoryForm.errors in V.
  destruct (clean_char_cases (Some 100) (CategoryForm.name f))
    as [[e [errs H]] | [H Hn]].
  - unfold CategoryForm.name_errors in V. rewrite H in V. discriminate V.
  - unfold CategoryForm.name_errors in V.
    rewrite H, (clean_name_duplicate _ _ c Hn Hc E) in V. discriminate V.
Qed.

Lemma CategoryCreateView_well_formed (st : Site) (f : CategoryForm.data) :
  well_formed (database st) ->
  well_formed (database (fst (category_views.CategoryCreateView st f))).
Proof.
  intros W. unfold category_views.CategoryCreateView.
  destruct (CategoryForm.is_valid (database st) None f) eqn:V; [|exact W].
  unfold insert_category.
  destruct (existsb _ (category_table (database st))); [exact W|].
  cbn [fst database]. destruct W as [[S1 S2] PK PD CK CD R CO NA].
  constructor; cbn [product_table product_seq category_table category_seq];
    try assumption.
  - lia.
  - intros q Hq. apply in_app_iff in Hq. destruct Hq as [Hq|[<-|[]]].
    + destruct (CK q Hq) as [k [Hk Bk]]. exists k. split; [exact Hk | lia].
    + exists (category_seq (database st) + 1). split; [reflexivity | lia].
  - apply NoDup_map_snoc; [exact CD|]. simpl.
    intros K. apply in_map_iff in K. destruct K as [q [Eq Hq]].
    destruct (CK q Hq) as [k [Hk Bk]]. rewrite Hk in Eq. injection Eq as Eq. lia.
  - intros q Hq. destruct (R q Hq) as [c [Hc Kc]]. exists c.
    split; [apply in_app_iff; left; exact Hc | exact Kc].
  - apply (NoDup_map_snoc (fun c => py.lower (Category.name c))); [exact NA|].
    intros K. apply in_map_iff in K. destruct K as [q [Eq Hq]].
    apply (is_valid_name_new _ _ q V Hq). unfold same_ignoring_case.
    symmetry. exact Eq.
Qed.

(** The tables of the site are well formed in every state it reaches:
    in particular no two categories ever have the same name up to the
    case of letters, and no product is left without its category. *)
Lemma reachable_well_formed (urandom : nat -> Z) (st : Site) :
  reachable urandom st -> well_formed (database st).
Proof.
  induction 1 as [|st r _ IH].
  - exact well_formed_initial.
  - destruct r; cbn [handle].
    + apply product_create_well_formed; exact IH.
    + apply product_delete_well_formed; exact IH.
    + apply CategoryCreateView_well_formed; exact IH.
    + apply CategoryDeleteView_well_formed; exact IH.
Qed.

(** ** lab2 *)

Section Lab2.
Variables Tables Product : Type.
Variable product_name : Product -> py.str.
Variable product_pk : Product -> option Z.
Variable create :
  Tables -> lab2_products_views.kwargs -> Tables * (exception + Product).
Variable urandom : nat -> Z.

(** X20. lab2's [product_create] checks its parameters as lab3's does, the
    category apart: nothing reaches the model when one is missing or
    when [float] or [int] refuses its argument; otherwise the model is
    asked once to create the product, with the price [float] read,
    whatever its sign, and a generated code. *)
Lemma lab2_product_create_validation (st : Tables * nat)
      (f : lab2_products_views.form) :
  let required :=
    [lab2_products_views.name f; lab2_products_views.price f;
     lab2_products_views.description f; lab2_products_views.instock f] in
  (all required = false ->
     lab2_products_views.product_create Tables Product product_name product_pk
     create urandom st POST f
       = (st, render products_create_html (Some AllFieldsRequired))) /\
  (all required = true ->
   py.float_of_str (text (lab2_products_views.price f)) = None \/
   py.int_of_str (text (lab2_products_views.instock f)) = None ->
     lab2_products_views.product_create Tables Product product_name product_pk
     create urandom st POST f
       = (st, render products_create_html (Some InvalidPriceOrStock))) /\
  (forall price_value instock_value,
     all required = true ->
     py.float_of_str (text (lab2_products_views.price f)) = Some price_value ->
     py.int_of_str (text (lab2_products_views.instock f)) = Some instock_value ->
     fst (lab2_products_views.product_create Tables Product product_name product_pk
     create urandom st POST f) =
     (fst (create (fst st)
             {| lab2_products_views.kw_name := text (lab2_products_views.name f);
                lab2_products_views.kw_price := price_value;
                lab2_products_views.kw_description :=
                  text (lab2_products_views.description f);
                lab2_products_views.kw_instock := instock_value;
                lab2_products_views.kw_image := lab2_products_views.image f;
                lab2_products_views.kw_code := new_code (urandom (snd st)) |}),
      S (snd st))).
Proof.
  cbv zeta. unfold lab2_products_views.product_create,
    lab2_products_views.product_create_try.
  destruct st as [d n]. split; [|split].
  - intros ->. reflexivity.
  - intros -> H. cbn [negb].
    destruct (py.float_of_str _) as [price_value|]; [|reflexivity].
    destruct (py.int_of_str _) as [instock_value|]; [|reflexivity].
    destruct H as [H|H]; discriminate H.
  - intros price_value instock_value -> -> ->. cbn [negb fst snd].
    destruct (create d _) as [d' [[| [|] |e]|product]]; reflexivity.
Qed.

End Lab2.

(** ** [int] and [float] on examples *)

Example int_of_str_spaces_and_underscores :
  py.int_of_str (py.s " -1_000 ") = Some (-1000).
Proof. reflexivity. Qed.

Example int_of_str_double_underscore : py.int_of_str (py.s "1__0") = None.
Proof. reflexivity. Qed.

Example int_of_str_decimal_point : py.int_of_str (py.s "2.0") = None.
Proof. reflexivity. Qed.

Example int_of_str_empty : py.int_of_str (py.s "") = None.
Proof. reflexivity. Qed.

Example int_of_str_separator : py.int_of_str ("028"%char :: py.s "5") = None.
Proof. reflexivity. Qed.

Example int_of_str_digit_limit :
  py.int_of_str (repeat "1"%char 4300) <> None /\
  py.int_of_str (repeat "1"%char 4301) = None.
Proof. split; [vm_compute; discriminate | vm_compute; reflexivity]. Qed.

Example strip_separator : py.strip ("028"%char :: py.s " Tools ") = py.s "Tools".
Proof. reflexivity. Qed.

Example float_of_str_negative : py.float_of_str (py.s "-5") = Some (py.Finite true 5 0).
Proof. reflexivity. Qed.

Example float_of_str_price : py.float_of_str (py.s "19.99") = Some (py.Finite false 1999 (-2)).
Proof. reflexivity. Qed.

Example float_of_str_exponent : py.float_of_str (py.s ".5e1") = Some (py.Finite false 5 0).
Proof. reflexivity. Qed.

Example float_of_str_word : py.float_of_str (py.s "nine") = None.
Proof. reflexivity. Qed.

Example float_of_str_overflow : py.float_of_str (py.s "1e400") = Some (py.Inf false).
Proof. vm_compute. reflexivity. Qed.

Example float_of_str_nan : py.float_of_str (py.s "NaN") = Some py.NaN.
Proof. reflexivity. Qed.

Example float_of_str_misplaced_underscore : py.float_of_str (py.s "1._5") = None.
Proof. reflexivity. Qed.

(** The example of the specification: three products, the query "Red"
    and the query "shoe". *)
Example search_red_and_shoe :
  let names q :=
    map Product.name
        (db.fetch (products_views.product_list_queryset sample.db7 (Some q))) in
  names (py.s "Red") = [py.s "Red Hat"; py.s "Red Shoe"] /\
  names (py.s "shoe") = [py.s "Blue Shoe"; py.s "Red Shoe"].
Proof. split; reflexivity. Qed.

(** * More properties of the views *)

(** ** Products: create, find, delete *)

Lemma find_filter_same {A} (f g : A -> bool) (l : list A) :
  (forall x, f x = true -> g x = true) ->
  find f (List.filter g l) = find f l.
Proof.
  intros H. induction l as [|a l IH]; simpl; [reflexivity|].
  destruct (g a) eqn:G; simpl.
  - destruct (f a); [reflexivity | exact IH].
  - destruct (f a) eqn:F; [|exact IH]. rewrite (H a F) in G. discriminate G.
Qed.



(** The condition of the search does not look at the tables. *)
Lemma product_search_where_any (d d' : Database) (q : option py.str) (r : Product.t) :
  db.where_ (products_views.product_list_queryset d q) r
  = db.where_ (products_views.product_list_queryset d' q) r.
Proof.
  unfold products_views.product_list_queryset.
  destruct (py.truthy q); reflexivity.
Qed.

Lemma product_search_In (d : Database) (q : option py.str) (r : Product.t) :
  In r (db.fetch (products_views.product_list_queryset d q)) <->
  In r (product_table d) /\
  db.where_ (products_views.product_list_queryset d q) r = true.
Proof.
  rewrite fetch_In, product_search_rows. cbn [Product_objects_all db.rows db.all].
  rewrite <- in_rev. reflexivity.
Qed.

(** A POST that creates a product went through every step of
    [product_create]. *)
Lemma product_create_redirect (urandom : nat -> Z) (st st' : Site)
      (f : products_views.form) (to : url) (msg : option message) :
  products_views.product_create urandom st POST f = (st', redirect to msg) ->
  exists category price_value instock_value row,
    all (required f) = true /\
    Category_objects_get (database st) (text (products_views.category f)) = inr category /\
    py.float_of_str (text (products_views.price f)) = Some price_value /\
    py.int_of_str (text (products_views.instock f)) = Some instock_value /\
    insert_product (database st)
      (instance_of urandom st f category price_value instock_value)
      = inr (database st', row) /\
    draws st' = S (draws st) /\
    to = products_detail_url (Product.pk row) /\
    msg = Some (ProductCreated (Product.name row)).
Proof.
  rewrite product_create_POST.
  destruct (all (required f)); [|discriminate]. cbn [negb].
  destruct (Category_objects_get _ _) as [[| [|] |e]|category]; try discriminate.
  destruct (py.float_of_str _) as [price_value|]; [|discriminate].
  destruct (py.int_of_str _) as [instock_value|]; [|discriminate].
  destruct (insert_product _ _) as [e|[d row]] eqn:I; [discriminate|].
  intros [= <- <- <-]. exists category, price_value, instock_value, row.
  repeat split; reflexivity || exact I.
Qed.

Lemma Category_objects_get_inr (d : Database) (id : py.str) (c : Category.t) :
  Category_objects_get d id = inr c ->
  exists k, py.int_of_str id = Some k /\ get_category d k = Some c /\
            Category.pk c = Some k.
Proof.
  unfold Category_objects_get, get_category.
  destruct (py.int_of_str id) as [k|]; [|discriminate].
  destruct (find _ _) as [c'|] eqn:F; [|discriminate]. intros [= <-].
  exists k. split; [reflexivity|]. split; [exact F|].
  apply find_some in F. apply has_pk_Some_category. exact (proj2 F).
Qed.


Lemma db7_well_formed : well_formed sample.db7.
Proof.
  constructor.
  - split; discriminate.
  - intros p Hp. simpl in Hp.
    repeat (destruct Hp as [<- | Hp];
            [eexists; split; [reflexivity | split; [reflexivity | discriminate]]|]).
    contradiction.
  - exact db7_keys_distinct.
  - intros c Hc. simpl in Hc.
    repeat (destruct Hc as [<- | Hc];
            [eexists; split; [reflexivity | split; [reflexivity | discriminate]]|]).
    contradiction.
  - repeat constructor; simpl; intuition discriminate.
  - exact db7_references_ok.
  - repeat constructor; simpl; intuition discriminate.
  - repeat constructor; simpl; intuition discriminate.
Defined.


(** X2. Whatever the request, [product_create] leaves the categories
    and the products that are there as they are: it changes nothing
    unless it answers with the redirection, and then it has added one
    row at the end of the table, with the next key. *)
Theorem product_create_only_appends (urandom : nat -> Z) (st : Site) (m : method)
        (f : products_views.form) :
  let st' := fst (products_views.product_create urandom st m f) in
  let resp := snd (products_views.product_create urandom st m f) in
  category_table (database st') = category_table (database st) /\
  category_seq (database st') = category_seq (database st) /\
  ((exists msg, resp = render products_create_html msg /\
                database st' = database st) \/
   (exists row,
      resp = redirect (products_detail_url (Product.pk row))
                      (Some (ProductCreated (Product.name row))) /\
      Product.pk row = Some (product_seq (database st) + 1) /\
      product_table (database st') = product_table (database st) ++ [row] /\
      product_seq (database st') = product_seq (database st) + 1)) /\
  (m = GET -> st' = st /\ resp = render products_create_html None).
Proof.
  cbv zeta. destruct m.
  { cbn. repeat split; try reflexivity. left. eexists. split; reflexivity. }
  rewrite product_create_POST.
  assert (forall msg,
            category_table (database st) = category_table (database st) /\
            category_seq (database st) = category_seq (database st) /\
            ((exists msg0, render products_create_html msg = render products_create_html msg0 /\
                           database st = database st) \/
             (exists row,
                render products_create_html msg
                = redirect (products_detail_url (Product.pk row))
                           (Some (ProductCreated (Product.name row))) /\
                Product.pk row = Some (product_seq (database st) + 1) /\
                product_table (database st) = product_table (database st) ++ [row] /\
                product_seq (database st) = product_seq (database st) + 1)) /\
            (POST = GET -> st = st /\ render products_create_html msg
                                      = render products_create_html None)) as Same.
  { intros msg. repeat split; try reflexivity; try discriminate.
    left. exists msg. split; reflexivity. }
  destruct (negb (all (required f))); [apply Same|].
  destruct (Category_objects_get _ _) as [[| [|] |e]|category]; try apply Same.
  destruct (py.float_of_str _) as [price_value|]; [|apply Same].
  destruct (py.int_of_str _) as [instock_value|]; [|apply Same].
  destruct (insert_product _ _) as [e|[d row]] eqn:I; cbn [fst snd database].
  - repeat split; try reflexivity; try discriminate.
    left. eexists. split; reflexivity.
  - apply insert_product_inr in I.
    destruct I as [_ [_ [_ [_ [Er [Tb [Sq [Ct Cs]]]]]]]].
    split; [exact Ct|]. split; [exact Cs|]. split; [|discriminate].
    right. exists row. split; [reflexivity|]. split; [rewrite Er; reflexivity|].
    split; [exact Tb | exact Sq].
Qed.

(** X3. A POST to the delete page of a product removes that product and
    nothing else: it is not found any more and no search lists it, the
    other products are found and listed as before, the categories are
    untouched.  A key that no product has is answered with a 404, and
    a GET only asks for confirmation: both leave the site as it is. *)
Theorem product_delete_removes_one (st : Site) (k : Z) :
  let st' := fst (products_views.product_delete st POST k) in
  products_views.product_detail (database st') k = None /\
  (forall j, j <> k ->
     products_views.product_detail (database st') j
     = products_views.product_detail (database st) j) /\
  (forall q p,
     In p (db.fetch (products_views.product_list_queryset (database st') q)) <->
     In p (db.fetch (products_views.product_list_queryset (database st) q)) /\
     Product.pk p <> Some k) /\
  category_table (database st') = category_table (database st) /\
  (products_views.product_detail (database st) k = None ->
   forall m, products_views.product_delete st m k = (st, Http404)) /\
  (forall p, products_views.product_detail (database st) k = Some p ->
     products_views.product_delete st GET k = (st, render products_delete_html None) /\
     snd (products_views.product_delete st POST k)
     = redirect products_list_url (Some (ProductDeleted (Product.name p)))).
Proof.
  cbv zeta. unfold products_views.product_detail, products_views.product_delete.
  destruct (get_product (database st) k) as [p|] eqn:G.
  - pose proof G as G'. apply find_some in G'. destruct G' as [_ Hp].
    apply has_pk_Some_product in Hp.
    cbn [fst snd database]. unfold Product_delete. rewrite Hp.
    cbn [product_table category_table]. unfold get_product.
    cbn [product_table]. split; [|split; [|split; [|split; [|split]]]].
    + apply find_filter_none. intros x _ H. rewrite H. reflexivity.
    + intros j Hj. apply find_filter_same. intros x Hx.
      apply has_pk_Some_product in Hx. unfold Product.has_pk. rewrite Hx.
      apply negb_true_iff, Z.eqb_neq. exact Hj.
    + intros q r. rewrite !product_search_In. cbn [product_table].
      rewrite filter_In, negb_true_iff.
      rewrite (product_search_where_any _ (database st) q r).
      assert (Product.has_pk k r = false <-> Product.pk r <> Some k) as ->.
      { rewrite <- has_pk_Some_product. destruct (Product.has_pk k r); split; congruence. }
      tauto.
    + reflexivity.
    + discriminate.
    + intros p' [= <-]. split; reflexivity.
  - cbn [fst]. rewrite G. split; [reflexivity|]. split; [reflexivity|]. split.
    + intros q r. split; [|tauto]. intros H. split; [exact H|].
      intros K. apply product_search_In in H. destruct H as [H _].
      unfold get_product in G. apply (find_none _ _ G) in H.
      apply has_pk_Some_product in K. congruence.
    + split; [reflexivity|]. split; [reflexivity | discriminate].
Qed.

(** ** The order of the category list *)

Lemma ord_injective (x y : ascii) : py.ord x = py.ord y -> x = y.
Proof.
  unfold py.ord. intros H. apply N2Z.inj in H.
  rewrite <- (ascii_N_embedding x), <- (ascii_N_embedding y), H. reflexivity.
Qed.

Lemma str_ltb_cons (x y : ascii) (a b : py.str) :
  str_ltb (x :: a) (y :: b) = true <->
  py.ord x < py.ord y \/ (x = y /\ str_ltb a b = true).
Proof.
  cbn [str_ltb]. rewrite orb_true_iff, andb_true_iff, Z.ltb_lt, Z.eqb_eq. split.
  - intros [H|[H1 H2]]; [left; exact H | right; split; [apply ord_injective; exact H1 | exact H2]].
  - intros [H|[-> H]]; [left; exact H | right; split; [reflexivity | exact H]].
Qed.

Lemma str_ltb_irreflexive (a : py.str) : str_ltb a a = false.
Proof.
  induction a as [|x a IH]; [reflexivity|].
  destruct (str_ltb (x :: a) (x :: a)) eqn:E; [|reflexivity].
  apply str_ltb_cons in E. destruct E as [E|[_ E]]; [lia | congruence].
Qed.

Lemma str_ltb_transitive (a b c : py.str) :
  str_ltb a b = true -> str_ltb b c = true -> str_ltb a c = true.
Proof.
  revert b c. induction a as [|x a IH]; intros [|y b] [|z c]; try discriminate;
    try (intros; reflexivity).
  rewrite !str_ltb_cons. intros [H1|[-> H1]] [H2|[-> H2]].
  - left; lia.
  - left; exact H1.
  - left; exact H2.
  - right. split; [reflexivity | exact (IH b c H1 H2)].
Qed.

Lemma str_ltb_trichotomy (a b : py.str) :
  str_ltb a b = true \/ a = b \/ str_ltb b a = true.
Proof.
  revert b. induction a as [|x a IH]; intros [|y b].
  - right; left; reflexivity.
  - left; reflexivity.
  - right; right; reflexivity.
  - rewrite !str_ltb_cons.
    destruct (Z.lt_trichotomy (py.ord x) (py.ord y)) as [H|[H|H]].
    + left; left; exact H.
    + apply ord_injective in H. subst y. destruct (IH b) as [K|[K|K]].
      * left; right; split; [reflexivity | exact K].
      * right; left; rewrite K; reflexivity.
      * right; right; right; split; [reflexivity | exact K].
    + right; right; left; exact H.
Qed.

Lemma name_le_transitive (a b c : Category.t) :
  name_le a b -> name_le b c -> name_le a c.
Proof.
  unfold name_le. intros H1 H2.
  destruct (str_ltb (Category.name c) (Category.name a)) eqn:E; [|reflexivity].
  destruct (str_ltb_trichotomy (Category.name a) (Category.name b)) as [K|[K|K]].
  - rewrite (str_ltb_transitive _ _ _ E K) in H2. discriminate H2.
  - rewrite <- K, E in H2. discriminate H2.
  - rewrite K in H1. discriminate H1.
Qed.

Lemma name_le_of_ltb (a b : Category.t) :
  str_ltb (Category.name a) (Category.name b) = true -> name_le a b.
Proof.
  unfold name_le. intros H.
  destruct (str_ltb (Category.name b) (Category.name a)) eqn:E; [|reflexivity].
  pose proof (str_ltb_transitive _ _ _ H E) as K.
  rewrite str_ltb_irreflexive in K. discriminate K.
Qed.

Lemma insert_by_name_permutation (c : Category.t) (l : list Category.t) :
  Permutation (insert_by_name c l) (c :: l).
Proof.
  induction l as [|d l IH]; simpl; [apply Permutation_refl|].
  destruct (str_ltb (Category.name c) (Category.name d)); [apply Permutation_refl|].
  apply Permutation_trans with (d :: c :: l); [|apply perm_swap].
  apply perm_skip. exact IH.
Qed.

Lemma insert_by_name_sorted (c : Category.t) (l : list Category.t) :
  StronglySorted name_le l -> StronglySorted name_le (insert_by_name c l).
Proof.
  induction l as [|d l IH]; simpl; intros S.
  - constructor; constructor.
  - destruct (str_ltb (Category.name c) (Category.name d)) eqn:E.
    + apply StronglySorted_inv in S. destruct S as [S F].
      constructor; [constructor; assumption|].
      pose proof (name_le_of_ltb c d E) as Hcd.
      constructor; [exact Hcd|].
      eapply Forall_impl; [|exact F]. intros x Hx.
      exact (name_le_transitive c d x Hcd Hx).
    + apply StronglySorted_inv in S. destruct S as [S F].
      constructor; [exact (IH S)|].
      apply (Permutation_Forall (Permutation_sym (insert_by_name_permutation c l))).
      constructor; [exact E | exact F].
Qed.

Lemma Category_objects_all_permutation (d : Database) :
  Permutation (db.rows (Category_objects_all d)) (category_table d).
Proof.
  cbn [Category_objects_all db.rows db.all].
  induction (category_table d) as [|c l IH]; simpl; [constructor|].
  apply Permutation_trans with (c :: fold_right insert_by_name [] l).
  - apply insert_by_name_permutation.
  - apply perm_skip. exact IH.
Qed.

Lemma Category_objects_all_sorted (d : Database) :
  StronglySorted name_le (db.rows (Category_objects_all d)).
Proof.
  cbn [Category_objects_all db.rows db.all].
  induction (category_table d) as [|c l IH]; simpl; [constructor|].
  apply insert_by_name_sorted. exact IH.
Qed.

Lemma StronglySorted_filter {A} (R : A -> A -> Prop) (f : A -> bool) (l : list A) :
  StronglySorted R l -> StronglySorted R (List.filter f l).
Proof.
  induction 1 as [|a l S IH F]; simpl; [constructor|].
  destruct (f a); [|exact IH]. constructor; [exact IH|].
  apply Forall_forall. intros x Hx. apply filter_In in Hx.
  rewrite Forall_forall in F. exact (F x (proj1 Hx)).
Qed.

Lemma StronglySorted_skipn {A} (R : A -> A -> Prop) (n : nat) (l : list A) :
  StronglySorted R l -> StronglySorted R (skipn n l).
Proof.
  revert l. induction n as [|n IH]; intros l S; [exact S|].
  destruct l as [|a l]; [constructor|]. simpl.
  apply IH. apply StronglySorted_inv in S. exact (proj1 S).
Qed.

Lemma In_firstn {A} (n : nat) (l : list A) (x : A) : In x (firstn n l) -> In x l.
Proof.
  intros H. rewrite <- (firstn_skipn n l). apply in_or_app. left. exact H.
Qed.

Lemma In_skipn {A} (n : nat) (l : list A) (x : A) : In x (skipn n l) -> In x l.
Proof.
  intros H. rewrite <- (firstn_skipn n l). apply in_or_app. right. exact H.
Qed.

Lemma StronglySorted_firstn {A} (R : A -> A -> Prop) (n : nat) (l : list A) :
  StronglySorted R l -> StronglySorted R (firstn n l).
Proof.
  revert l. induction n as [|n IH]; intros l S; [constructor|].
  destruct l as [|a l]; [constructor|]. simpl.
  apply StronglySorted_inv in S. destruct S as [S F].
  constructor; [exact (IH l S)|].
  apply Forall_forall. intros x Hx. rewrite Forall_forall in F.
  apply F. exact (In_firstn n l x Hx).
Qed.

(** X4. The list of categories is in the order of the names, whatever
    the order in which the categories were created: without a search it
    holds every category of the table once, a search leaves rows out,
    and the rows of a page shown are in ascending order of name. *)
Theorem category_list_is_sorted_by_name (d : Database) (get : query) :
  Permutation (db.rows (Category_objects_all d)) (category_table d) /\
  (py.truthy (search get) = false ->
   Permutation (db.fetch (category_views.get_queryset d get)) (category_table d)) /\
  StronglySorted name_le (db.fetch (category_views.get_queryset d get)) /\
  (forall ctx,
     category_views.CategoryListView d get = Some ctx ->
     StronglySorted name_le (category_views.categories ctx) /\
     forall c, In c (category_views.categories ctx) -> In c (category_table d)).
Proof.
  assert (StronglySorted name_le (db.fetch (category_views.get_queryset d get))) as S.
  { unfold db.fetch. rewrite category_search_rows.
    apply StronglySorted_filter, Category_objects_all_sorted. }
  split; [apply Category_objects_all_permutation|]. split; [|split; [exact S|]].
  - intros H. unfold category_views.get_queryset. rewrite H.
    unfold Category_objects_all. rewrite fetch_all.
    exact (Category_objects_all_permutation d).
  - intros ctx E. destruct (CategoryListView_page d get ctx E) as [_ [_ [G [C _]]]].
    destruct (page_rows _ 8 _ _ eq_refl G) as [_ [_ [_ Hr]]]. rewrite C, Hr. split.
    + apply StronglySorted_firstn, StronglySorted_skipn. exact S.
    + intros c Hc. apply In_firstn, In_skipn in Hc. apply fetch_In in Hc.
      rewrite category_search_rows in Hc.
      apply (Permutation_in _ (Category_objects_all_permutation d)). exact (proj1 Hc).
Qed.

(** "Tools" comes after "Shoes" on the list, though it was created first. *)
Lemma category_list_is_sorted_by_name_witness :
  map Category.name (db.fetch (category_views.get_queryset sample.db7
                                 {| search := None; page := None |}))
    = [py.s "Shoes"; py.s "Tools"] /\
  Permutation (db.fetch (category_views.get_queryset sample.db7
                           {| search := None; page := None |}))
              (category_table sample.db7).
Proof.
  split; [reflexivity|].
  exact (proj1 (proj2 (category_list_is_sorted_by_name sample.db7
                         {| search := None; page := None |})) eq_refl).
Defined.

(** ** The category form, field by field *)

Lemma existsb_false_forall {A} (f : A -> bool) (l : list A) :
  existsb f l = false <-> forall x, In x l -> f x = false.
Proof.
  induction l as [|a l IH]; simpl.
  - split; [intros _ x [] | reflexivity].
  - rewrite orb_false_iff, IH. split.
    + intros [Ha H] x [<-|Hx]; [exact Ha | exact (H x Hx)].
    + intros H. split; [apply H; left; reflexivity | intros x Hx; apply H; right; exact Hx].
Qed.

Lemma exists_false_forall {A} (l : list A) (f : A -> bool) :
  db.exists_ (db.filter (db.all l) f) = false <-> forall x, In x l -> f x = false.
Proof.
  unfold db.exists_, db.fetch. cbn [db.rows db.where_ db.filter db.all]. split.
  - intros H x Hx. destruct (f x) eqn:F; [|reflexivity].
    assert (In x (List.filter (fun r => true && f r) l)) as K
        by (apply filter_In; split; [exact Hx | rewrite F; reflexivity]).
    destruct (List.filter _ l); [contradiction | discriminate H].
  - intros H. destruct (List.filter _ l) as [|x r] eqn:E; [reflexivity|].
    assert (In x (x :: r)) as K by (left; reflexivity). rewrite <- E in K.
    apply filter_In in K. destruct K as [K1 K2]. rewrite (H x K1) in K2. discriminate K2.
Qed.

Lemma exists_exclude_false_forall {A} (l : list A) (f g : A -> bool) :
  db.exists_ (db.exclude (db.filter (db.all l) f) g) = false <->
  forall x, In x l -> f x = true -> g x = true.
Proof.
  unfold db.exists_, db.fetch. cbn [db.rows db.where_ db.filter db.all db.exclude]. split.
  - intros H x Hx F. destruct (g x) eqn:G; [reflexivity|].
    assert (In x (List.filter (fun r => true && f r && negb (g r)) l)) as K
        by (apply filter_In; split; [exact Hx | rewrite F, G; reflexivity]).
    destruct (List.filter _ l); [contradiction | discriminate H].
  - intros H. destruct (List.filter _ l) as [|x r] eqn:E; [reflexivity|].
    assert (In x (x :: r)) as K by (left; reflexivity). rewrite <- E in K.
    apply filter_In in K. destruct K as [K1 K2].
    destruct (f x) eqn:F; [|discriminate K2]. rewrite (H x K1 F) in K2. discriminate K2.
Qed.

(** The name field accepts exactly the acceptable names, and gives them
    stripped. *)
Lemma clean_char_name (v : option py.str) :
  (acceptable_name v ->
   CategoryForm.clean_char (Some 100) v = inr (py.strip (text v))) /\
  (forall value, CategoryForm.clean_char (Some 100) v = inr value -> acceptable_name v).
Proof.
  unfold CategoryForm.clean_char, acceptable_name, CategoryForm.over.
  destruct (py.strip (text v)) as [|a x] eqn:S.
  - split; [intros [H _]; congruence | discriminate].
  - destruct (100 <? Z.of_nat (length (a :: x))) eqn:L;
      destruct (existsb (fun c => py.ord c =? 0) (a :: x)) eqn:N; cbn [app].
    + split; [intros [_ [H _]]; apply Z.ltb_lt in L; lia | discriminate].
    + split; [intros [_ [H _]]; apply Z.ltb_lt in L; lia | discriminate].
    + split; [|discriminate]. intros [_ [_ H]]. apply existsb_exists in N.
      destruct N as [c [Hc Z0]]. apply Z.eqb_eq in Z0. exfalso. exact (H c Hc Z0).
    + split; [reflexivity|]. intros _ _. split; [discriminate|].
      split; [apply Z.ltb_ge in L; exact L|].
      intros c Hc Z0. rewrite existsb_false_forall in N. specialize (N c Hc).
      apply Z.eqb_neq in N. contradiction.
Qed.

Lemma clean_char_description (v : option py.str) :
  CategoryForm.description_errors
    {| CategoryForm.name := None; CategoryForm.description := v;
       CategoryForm.image := None |} = [] <-> acceptable_description v.
Proof.
  unfold CategoryForm.description_errors, CategoryForm.clean_char, acceptable_description,
    CategoryForm.over. cbn [CategoryForm.description].
  destruct (py.strip (text v)) as [|a x] eqn:S.
  - split; [discriminate | intros [H _]; congruence].
  - destruct (existsb (fun c => py.ord c =? 0) (a :: x)) eqn:N; cbn [app].
    + split; [discriminate|]. intros [_ H]. apply existsb_exists in N.
      destruct N as [c [Hc Z0]]. apply Z.eqb_eq in Z0. exfalso. exact (H c Hc Z0).
    + split; [|reflexivity]. intros _. split; [discriminate|].
      intros c Hc Z0. rewrite existsb_false_forall in N. specialize (N c Hc).
      apply Z.eqb_neq in N. contradiction.
Qed.

Lemma description_errors_only_description (f : CategoryForm.data) :
  CategoryForm.description_errors f = [] <->
  acceptable_description (CategoryForm.description f).
Proof. rewrite <- clean_char_description. reflexivity. Qed.

Lemma image_errors_nil (f : CategoryForm.data) :
  CategoryForm.image_errors f = [] <-> acceptable_image (CategoryForm.image f).
Proof.
  unfold CategoryForm.image_errors, acceptable_image.
  destruct (CategoryForm.image f) as [file|].
  - destruct (upload_is_image file) eqn:U.
    + split; [intros _ x [= <-]; exact U | reflexivity].
    + split; [discriminate|]. intros H. specialize (H file eq_refl). congruence.
  - split; [intros _ x; discriminate | reflexivity].
Qed.

Lemma errors_nil (d : Database) (k : option Z) (f : CategoryForm.data) :
  CategoryForm.errors d k f = [] <->
  CategoryForm.name_errors d k f = [] /\
  CategoryForm.description_errors f = [] /\
  CategoryForm.image_errors f = [].
Proof.
  unfold CategoryForm.errors.
  destruct (CategoryForm.name_errors d k f), (CategoryForm.description_errors f),
    (CategoryForm.image_errors f); simpl; split;
    try discriminate; try (intros [? [? ?]]; discriminate); auto.
Qed.

(** The name passes for the category with the key [k] (or for a new
    one) exactly when it is acceptable and no other category has it,
    the case of letters ignored. *)
Lemma name_errors_nil (d : Database) (k : option Z) (f : CategoryForm.data) :
  (forall j, k = Some j -> j <> 0) ->
  CategoryForm.name_errors d k f = [] <->
  acceptable_name (CategoryForm.name f) /\
  forall c, In c (category_table d) ->
    same_ignoring_case (py.strip (text (CategoryForm.name f))) (Category.name c) ->
    exists j, k = Some j /\ Category.pk c = Some j.
Proof.
  intros K0. unfold CategoryForm.name_errors.
  destruct (clean_char_name (CategoryForm.name f)) as [A1 A2].
  destruct (CategoryForm.clean_char (Some 100) (CategoryForm.name f)) as [errs|value] eqn:C.
  - split.
    + intros ->. destruct (clean_char_cases (Some 100) (CategoryForm.name f))
        as [[e [r H]]|[H _]]; rewrite C in H; discriminate H.
    + intros [A _]. discriminate (A1 A).
  - pose proof (A2 value eq_refl) as A. pose proof (A1 A) as E. injection E as E.
    subst value. clear C A1 A2.
    set (value := py.strip (text (CategoryForm.name f))) in *.
    assert (value <> []) as Hv by exact (proj1 A).
    unfold CategoryForm.clean_name, CategoryForm.validate_unique.
    destruct value as [|a x] eqn:V; [congruence|]. cbn [py.truthy].
    rewrite <- V in *.
    assert (forall c, db.iexact Category.name value c = true <->
                      same_ignoring_case value (Category.name c)) as IE
        by (intros c; apply iexact_spec).
    assert (forall c, db.exact Category.name value c = true ->
                      db.iexact Category.name value c = true) as EI.
    { intros c H. apply str_eqb_eq in H. apply IE. unfold same_ignoring_case.
      rewrite H. reflexivity. }
    destruct k as [j|].
    + assert ((j =? 0) = false) as -> by (apply Z.eqb_neq, K0; reflexivity).
      destruct (db.exists_ (db.exclude _ (Category.has_pk j))) eqn:X.
      * split; [discriminate|]. intros [_ H].
        rewrite <- not_false_iff_true in X. exfalso. apply X.
        apply exists_exclude_false_forall. intros c Hc Hi.
        destruct (H c Hc (proj1 (IE c) Hi)) as [j' [[= <-] Hj]].
        apply has_pk_Some_category. exact Hj.
      * rewrite exists_exclude_false_forall in X.
        assert (db.exists_ (db.exclude (db.filter (db.all (category_table d))
                                          (db.exact Category.name value))
                                       (Category.has_pk j)) = false) as ->.
        { apply exists_exclude_false_forall. intros c Hc He. exact (X c Hc (EI c He)). }
        split; [|reflexivity]. intros _. split; [exact A|].
        intros c Hc Hs. exists j. split; [reflexivity|].
        apply has_pk_Some_category. exact (X c Hc (proj2 (IE c) Hs)).
    + destruct (db.exists_ (db.filter _ (db.iexact Category.name value))) eqn:X.
      * split; [discriminate|]. intros [_ H].
        rewrite <- not_false_iff_true in X. exfalso. apply X.
        apply exists_false_forall. intros c Hc.
        destruct (db.iexact Category.name value c) eqn:Hi; [|reflexivity].
        destruct (H c Hc (proj1 (IE c) Hi)) as [j' [E _]]. discriminate E.
      * rewrite exists_false_forall in X.
        assert (db.exists_ (db.filter (db.all (category_table d))
                                      (db.exact Category.name value)) = false) as ->.
        { apply exists_false_forall. intros c Hc.
          destruct (db.exact Category.name value c) eqn:He; [|reflexivity].
          specialize (X c Hc). rewrite (EI c He) in X. discriminate X. }
        split; [|reflexivity]. intros _. split; [exact A|].
        intros c Hc Hs. apply IE in Hs. rewrite (X c Hc) in Hs. discriminate Hs.
Qed.

(** ** Creating a category, in full *)

(** A form that is valid passes [UNIQUE (name)]. *)
Lemma valid_name_is_unique (d : Database) (k : option Z) (f : CategoryForm.data) :
  (k = None \/ exists j, k = Some j /\ j <> 0) ->
  CategoryForm.name_errors d k f = [] ->
  forall c, In c (category_table d) ->
    Category.name c = py.strip (text (CategoryForm.name f)) ->
    exists j, k = Some j /\ Category.pk c = Some j.
Proof.
  intros K H c Hc E. apply name_errors_nil in H.
  - apply (proj2 H c Hc). unfold same_ignoring_case. rewrite E. reflexivity.
  - intros j ->. destruct K as [K|[j' [[= <-] K]]]; [discriminate | exact K].
Qed.

(** What [CategoryCreateView] does with a valid form. *)
Lemma CategoryCreateView_valid (st : Site) (f : CategoryForm.data) :
  CategoryForm.errors (database st) None f = [] ->
  category_views.CategoryCreateView st f =
  ({| database :=
        {| category_table :=
             category_table (database st)
             ++ [Category.with_pk (category_seq (database st) + 1) (CategoryForm.instance f)];
           category_seq := category_seq (database st) + 1;
           product_table := product_table (database st);
           product_seq := product_seq (database st) |};
      draws := draws st |},
   redirect category_list_url
            (Some (CategoryCreated (py.strip (text (CategoryForm.name f)))))).
Proof.
  intros V. unfold category_views.CategoryCreateView, CategoryForm.is_valid. rewrite V.
  unfold insert_category.
  assert (existsb (fun r => py.str_eqb (Category.name (CategoryForm.instance f))
                                       (Category.name r))
                  (category_table (database st)) = false) as ->; [|reflexivity].
  apply existsb_false_forall. intros c Hc.
  destruct (py.str_eqb _ _) eqn:E; [|reflexivity].
  apply str_eqb_eq in E. cbn [CategoryForm.instance Category.name] in E.
  apply errors_nil in V.
  destruct (valid_name_is_unique _ None f (or_introl eq_refl) (proj1 V) c Hc (eq_sym E))
    as [j [K _]].
  discriminate K.
Qed.

Lemma CategoryCreateView_cases (st : Site) (f : CategoryForm.data) :
  (CategoryForm.errors (database st) None f = [] /\
   exists st' name,
     category_views.CategoryCreateView st f
     = (st', redirect category_list_url (Some (CategoryCreated name)))) \/
  (CategoryForm.errors (database st) None f <> [] /\
   category_views.CategoryCreateView st f
   = (st, render category_create_html (Some CorrectTheErrorsBelow))).
Proof.
  destruct (CategoryForm.errors (database st) None f) as [|e errs] eqn:V.
  - left. split; [reflexivity|]. rewrite (CategoryCreateView_valid st f V).
    do 2 eexists. reflexivity.
  - right. split; [discriminate|]. apply CategoryCreateView_invalid.
    unfold CategoryForm.is_valid. rewrite V. reflexivity.
Qed.

(** X5. [CategoryCreateView] creates the category exactly when the name
    and the description are not blank, have no NUL in them, the name
    has at most 100 characters once stripped, the file uploaded, if
    any, is an image, and no category has the name, the case of letters
    ignored.  Otherwise the form is shown again and nothing changes.
    The table never has to refuse the row: the check of the form
    subsumes [UNIQUE (name)]. *)
Theorem category_create_succeeds_exactly_when (st : Site) (f : CategoryForm.data) :
  let created :=
    exists st' msg,
      category_views.CategoryCreateView st f = (st', redirect category_list_url msg) in
  (created <->
   acceptable_name (CategoryForm.name f) /\
   acceptable_description (CategoryForm.description f) /\
   acceptable_image (CategoryForm.image f) /\
   forall c, In c (category_table (database st)) ->
     ~ same_ignoring_case (py.strip (text (CategoryForm.name f))) (Category.name c)) /\
  (~ created ->
   category_views.CategoryCreateView st f
   = (st, render category_create_html (Some CorrectTheErrorsBelow))) /\
  (forall e, snd (category_views.CategoryCreateView st f) <> ServerError e) /\
  (forall st' to msg,
     category_views.CategoryCreateView st f = (st', redirect to msg) ->
     exists row,
       category_table (database st') = category_table (database st) ++ [row] /\
       Category.pk row = Some (category_seq (database st) + 1) /\
       Category.name row = py.strip (text (CategoryForm.name f)) /\
       Category.description row = py.strip (text (CategoryForm.description f)) /\
       Category.image row = option_map upload_name (CategoryForm.image f) /\
       product_table (database st') = product_table (database st) /\
       draws st' = draws st /\
       msg = Some (CategoryCreated (Category.name row))).
Proof.
  cbv zeta.
  assert (CategoryForm.errors (database st) None f = [] <->
          acceptable_name (CategoryForm.name f) /\
          acceptable_description (CategoryForm.description f) /\
          acceptable_image (CategoryForm.image f) /\
          forall c, In c (category_table (database st)) ->
            ~ same_ignoring_case (py.strip (text (CategoryForm.name f))) (Category.name c))
    as V.
  { rewrite errors_nil, description_errors_only_description, image_errors_nil.
    rewrite name_errors_nil by discriminate. split.
    - intros [[A N] [D I]]. split; [exact A|]. split; [exact D|]. split; [exact I|].
      intros c Hc S. destruct (N c Hc S) as [j [K _]]. discriminate K.
    - intros [A [D [I N]]]. split; [split; [exact A|] | split; [exact D | exact I]].
      intros c Hc S. exfalso. exact (N c Hc S). }
  destruct (CategoryCreateView_cases st f) as [[E [st1 [n1 H]]]|[E H]].
  - split; [|split; [|split]].
    + split; [intros _; apply V; exact E | intros _; do 2 eexists; exact H].
    + intros N. exfalso. apply N. do 2 eexists. exact H.
    + intros e. rewrite H. discriminate.
    + intros st' to msg. rewrite (CategoryCreateView_valid st f E). intros [= <- <- <-].
      eexists. cbn [database category_table product_table draws].
      repeat split; reflexivity.
  - split; [|split; [|split]].
    + split.
      * intros [st' [msg K]]. rewrite H in K. discriminate K.
      * intros K. apply V in K. contradiction.
    + intros _. exact H.
    + intros e. rewrite H. discriminate.
    + intros st' to msg. rewrite H. discriminate.
Qed.



(** ** Editing a category *)

Lemma get_category_existsb (d : Database) (k : Z) (c : Category.t) :
  get_category d k = Some c -> existsb (Category.has_pk k) (category_table d) = true.
Proof.
  intros H. apply find_some in H. apply existsb_exists. exists c. exact H.
Qed.

(** The row that [UPDATE] writes in the place of [r]. *)
Lemma has_pk_updated (k j : Z) (c r : Category.t) :
  Category.has_pk j (if Category.has_pk k r then Category.with_pk k c else r)
  = Category.has_pk j r.
Proof.
  destruct (Category.has_pk k r) eqn:E; [|reflexivity].
  apply has_pk_Some_category in E. unfold Category.has_pk. rewrite E. reflexivity.
Qed.

Lemma find_updated (k j : Z) (c : Category.t) (l : list Category.t) :
  find (Category.has_pk j)
       (map (fun r => if Category.has_pk k r then Category.with_pk k c else r) l)
  = option_map (fun r => if Category.has_pk k r then Category.with_pk k c else r)
               (find (Category.has_pk j) l).
Proof.
  induction l as [|a l IH]; simpl; [reflexivity|].
  rewrite has_pk_updated. destruct (Category.has_pk j a); [reflexivity | exact IH].
Qed.

Lemma pk_updated (k : Z) (c : Category.t) (l : list Category.t) :
  map Category.pk
      (map (fun r => if Category.has_pk k r then Category.with_pk k c else r) l)
  = map Category.pk l.
Proof.
  rewrite map_map. apply map_ext. intros r.
  destruct (Category.has_pk k r) eqn:E; [|reflexivity].
  apply has_pk_Some_category in E. rewrite E. reflexivity.
Qed.

(** What [CategoryUpdateView] does with a valid form. *)
Lemma CategoryUpdateView_valid (st : Site) (k : Z) (f : CategoryForm.data)
      (object : Category.t) :
  k <> 0 ->
  get_category (database st) k = Some object ->
  CategoryForm.errors (database st) (Some k) f = [] ->
  category_update.CategoryUpdateView st POST k f =
  ({| database :=
        {| category_table :=
             map (fun r => if Category.has_pk k r
                           then Category.with_pk k (category_update.instance object f)
                           else r)
                 (category_table (database st));
           category_seq := category_seq (database st);
           product_table := product_table (database st);
           product_seq := product_seq (database st) |};
      draws := draws st |},
   category_update.updated (py.strip (text (CategoryForm.name f)))).
Proof.
  intros K0 G V. unfold category_update.CategoryUpdateView. rewrite G.
  destruct (get_category_Some _ _ _ G) as [_ Pk]. rewrite Pk, V.
  unfold update_category. rewrite (get_category_existsb _ _ _ G).
  assert (existsb
            (fun r => negb (Category.has_pk k r) &&
                      py.str_eqb (Category.name (category_update.instance object f))
                                 (Category.name r))
            (category_table (database st)) = false) as ->; [|reflexivity].
  apply existsb_false_forall. intros c Hc.
  destruct (py.str_eqb _ _) eqn:E; [|apply andb_false_r].
  apply str_eqb_eq in E. cbn [category_update.instance Category.name] in E.
  apply errors_nil in V.
  destruct (valid_name_is_unique _ (Some k) f
              (or_intror (ex_intro _ k (conj eq_refl K0))) (proj1 V) c Hc (eq_sym E))
    as [j [[= <-] Hj]].
  apply has_pk_Some_category in Hj. rewrite Hj. reflexivity.
Qed.

(** X7. A POST to the edit page of the category [k] saves the form
    exactly when the name, the description and the image are
    acceptable and no category but [k] itself has the name, the case of
    letters ignored; otherwise the form is shown again with its errors
    and nothing changes.  In a well-formed table a category can so
    always keep its own name.  Saving keeps the key: the category is
    found under it with the new values (and its former image when none
    is uploaded), the other categories and all the products are as
    before, so that its products stay with it. *)
Theorem category_update_succeeds_exactly_when (st : Site) (k : Z)
        (f : CategoryForm.data) (object : Category.t) :
  k <> 0 ->
  get_category (database st) k = Some object ->
  let saved :=
    exists st' name,
      category_update.CategoryUpdateView st POST k f
      = (st', category_update.updated name) in
  let acceptable :=
    acceptable_name (CategoryForm.name f) /\
    acceptable_description (CategoryForm.description f) /\
    acceptable_image (CategoryForm.image f) in
  (saved <->
   acceptable /\
   forall c, In c (category_table (database st)) ->
     same_ignoring_case (py.strip (text (CategoryForm.name f))) (Category.name c) ->
     Category.pk c = Some k) /\
  (~ saved ->
   exists e errs,
     category_update.CategoryUpdateView st POST k f
     = (st, category_update.form_invalid (e :: errs))) /\
  (well_formed (database st) -> acceptable ->
   same_ignoring_case (py.strip (text (CategoryForm.name f))) (Category.name object) ->
   saved) /\
  (forall st' name,
     category_update.CategoryUpdateView st POST k f
     = (st', category_update.updated name) ->
     name = py.strip (text (CategoryForm.name f)) /\
     get_category (database st') k = Some (category_update.instance object f) /\
     (forall j, j <> k ->
        get_category (database st') j = get_category (database st) j) /\
     map Category.pk (category_table (database st'))
       = map Category.pk (category_table (database st)) /\
     product_table (database st') = product_table (database st) /\
     dependents (database st') k = dependents (database st) k /\
     draws st' = draws st).
Proof.
  intros K0 G. cbv zeta.
  destruct (get_category_Some _ _ _ G) as [Hobj Pk].
  assert (CategoryForm.errors (database st) (Some k) f = [] <->
          (acceptable_name (CategoryForm.name f) /\
           acceptable_description (CategoryForm.description f) /\
           acceptable_image (CategoryForm.image f)) /\
          forall c, In c (category_table (database st)) ->
            same_ignoring_case (py.strip (text (CategoryForm.name f))) (Category.name c) ->
            Category.pk c = Some k) as V.
  { rewrite errors_nil, description_errors_only_description, image_errors_nil.
    rewrite name_errors_nil by (intros j [= <-]; exact K0). split.
    - intros [[A N] [D I]]. split; [split; [exact A | split; [exact D | exact I]]|].
      intros c Hc S. destruct (N c Hc S) as [j [[= <-] Hj]]. exact Hj.
    - intros [[A [D I]] N]. split; [split; [exact A|] | split; [exact D | exact I]].
      intros c Hc S. exists k. split; [reflexivity | exact (N c Hc S)]. }
  assert (forall st' name,
            category_update.CategoryUpdateView st POST k f
            = (st', category_update.updated name) ->
            CategoryForm.errors (database st) (Some k) f = []) as Inv.
  { intros st' name. unfold category_update.CategoryUpdateView. rewrite G, Pk.
    destruct (CategoryForm.errors _ _ _); [reflexivity | discriminate]. }
  split; [|split; [|split]].
  - split.
    + intros [st' [name H]]. apply V. exact (Inv _ _ H).
    + intros H. apply V in H. rewrite (CategoryUpdateView_valid st k f object K0 G H).
      do 2 eexists. reflexivity.
  - intros N. destruct (CategoryForm.errors (database st) (Some k) f) as [|e errs] eqn:E.
    + exfalso. apply N. rewrite (CategoryUpdateView_valid st k f object K0 G E).
      do 2 eexists. reflexivity.
    + exists e, errs. unfold category_update.CategoryUpdateView. rewrite G, Pk, E.
      reflexivity.
  - intros W A S.
    assert (CategoryForm.errors (database st) (Some k) f = []) as E.
    { apply V. split; [exact A|]. intros c Hc Sc.
      assert (c = object) as ->; [|exact Pk].
      apply (NoDup_map_injective (fun c => py.lower (Category.name c))
                                 (category_table (database st)) c object
                                 (names_distinct _ W) Hc Hobj).
      unfold same_ignoring_case in *. congruence. }
    rewrite (CategoryUpdateView_valid st k f object K0 G E). do 2 eexists. reflexivity.
  - intros st' name H. pose proof (Inv _ _ H) as E.
    rewrite (CategoryUpdateView_valid st k f object K0 G E) in H.
    injection H as <- <-. cbn [database category_table product_table draws].
    split; [reflexivity|]. split.
    { unfold get_category in *. cbn [database category_table].
      rewrite find_updated, G. cbn [option_map].
      apply find_some in G. rewrite (proj2 G).
      unfold category_update.instance, Category.with_pk. cbn. rewrite Pk. reflexivity. }
    split.
    { intros j Hj. unfold get_category. cbn [database category_table].
      rewrite find_updated.
      destruct (find (Category.has_pk j) (category_table (database st))) as [r|] eqn:F;
        [|reflexivity].
      cbn [option_map]. apply find_some in F. destruct F as [_ F].
      apply has_pk_Some_category in F.
      assert (Category.has_pk k r = false) as ->; [|reflexivity].
      unfold Category.has_pk. rewrite F. apply Z.eqb_neq. exact Hj. }
    split; [apply pk_updated|]. repeat split; reflexivity.
Qed.

(** "Tools" is edited and keeps its name, in lower case. *)
Lemma category_update_succeeds_exactly_when_witness :
  exists st',
    category_update.CategoryUpdateView sample.site7 POST 1 (sample.category_form "tools")
    = (st', category_update.updated (py.s "tools")) /\
    option_map Category.name (get_category (database st') 1) = Some (py.s "tools") /\
    dependents (database st') 1 = dependents sample.db7 1.
Proof.
  destruct (category_update_succeeds_exactly_when sample.site7 1
              (sample.category_form "tools") sample.tools
              ltac:(discriminate) eq_refl) as [_ [_ [S P]]].
  assert (exists st' name,
            category_update.CategoryUpdateView sample.site7 POST 1
              (sample.category_form "tools")
            = (st', category_update.updated name)) as [st' [name H]].
  { apply S; [exact db7_well_formed | | reflexivity].
    split; [|split].
    - split; [discriminate|]. split; [vm_compute; discriminate|].
      intros c Hc. vm_compute in Hc.
      repeat (destruct Hc as [<-|Hc]; [discriminate|]). contradiction.
    - split; [discriminate|].
      intros c Hc. vm_compute in Hc.
      repeat (destruct Hc as [<-|Hc]; [discriminate|]). contradiction.
    - intros file E. discriminate E. }
  destruct (P st' name H) as [-> [Hg [_ [_ [_ [Hd _]]]]]].
  exists st'. split; [exact H|]. split; [rewrite Hg; reflexivity | exact Hd].
Defined.

(** ** Every page keeps the tables well formed *)

Lemma NoDup_map_updated {B} (g : Category.t -> B) (k : Z) (c : Category.t)
      (l : list Category.t) :
  NoDup (map Category.pk l) ->
  NoDup (map g l) ->
  (forall r, In r l -> Category.has_pk k r = false -> g r <> g (Category.with_pk k c)) ->
  NoDup (map g (map (fun r => if Category.has_pk k r then Category.with_pk k c else r) l)).
Proof.
  induction l as [|a l IH]; simpl; intros NP NG H; [constructor|].
  inversion NP as [|? ? HP NP']; inversion NG as [|? ? HG NG']; subst.
  assert (IHl := IH NP' NG' (fun r Hr => H r (or_intror Hr))).
  constructor; [|exact IHl].
  intros K. apply in_map_iff in K. destruct K as [x [Ex Hx]].
  apply in_map_iff in Hx. destruct Hx as [r [Er Hr]]. subst x.
  destruct (Category.has_pk k a) eqn:Ka; destruct (Category.has_pk k r) eqn:Kr.
  - apply has_pk_Some_category in Ka, Kr. apply HP. rewrite Ka, <- Kr.
    apply in_map. exact Hr.
  - exact (H r (or_intror Hr) Kr Ex).
  - apply (H a (or_introl eq_refl) Ka). symmetry. exact Ex.
  - apply HG. rewrite <- Ex. apply in_map. exact Hr.
Qed.

Lemma CategoryUpdateView_well_formed (st : Site) (m : method) (k : Z)
      (f : CategoryForm.data) :
  well_formed (database st) ->
  well_formed (database (fst (category_update.CategoryUpdateView st m k f))).
Proof.
  intros W. unfold category_update.CategoryUpdateView.
  destruct (get_category (database st) k) as [object|] eqn:G; [|exact W].
  destruct m; [exact W|].
  destruct (get_category_Some _ _ _ G) as [Hobj Pk].
  destruct (category_keys _ W object Hobj) as [k' [Pk' Bk]].
  assert (k' = k) by congruence. subst k'.
  destruct (CategoryForm.errors (database st) (Category.pk object) f) eqn:V; [|exact W].
  rewrite Pk in V. unfold update_category.
  destruct (existsb _ (category_table (database st))) eqn:U; [exact W|].
  rewrite (get_category_existsb _ _ _ G). cbn [fst database].
  destruct W as [S PK PD CK CD R CO NA].
  constructor; cbn [product_table product_seq category_table category_seq];
    try assumption.
  - intros c Hc. apply in_map_iff in Hc. destruct Hc as [r [Er Hr]].
    destruct (Category.has_pk k r); [|subst c; exact (CK r Hr)].
    subst c. exists k. split; [reflexivity | exact Bk].
  - rewrite pk_updated. exact CD.
  - intros p Hp. destruct (R p Hp) as [c [Hc Kc]].
    exists (if Category.has_pk k c
            then Category.with_pk k (category_update.instance object f) else c).
    split;
      [exact (in_map (fun r => if Category.has_pk k r
                               then Category.with_pk k (category_update.instance object f)
                               else r) _ _ Hc)|].
    destruct (Category.has_pk k c) eqn:E; [|exact Kc].
    apply has_pk_Some_category in E. cbn. congruence.
  - apply (NoDup_map_updated (fun c => py.lower (Category.name c))); [exact CD | exact NA|].
    intros r Hr Kr E. cbn [Category.with_pk Category.name category_update.instance] in E.
    apply errors_nil in V. destruct V as [V _].
    apply name_errors_nil in V; [|intros j [= <-]; lia].
    destruct (proj2 V r Hr (eq_sym E)) as [j [[= <-] Hj]].
    apply has_pk_Some_category in Hj. congruence.
Qed.

Lemma serve_well_formed (urandom : nat -> Z) (st : Site) (v : visit) :
  well_formed (database st) -> well_formed (database (serve urandom st v)).
Proof.
  intros W. destruct v as [| | | | | |[|]| |]; cbn [serve]; try exact W.
  - apply product_create_well_formed; exact W.
  - apply product_delete_well_formed; exact W.
  - apply CategoryCreateView_well_formed; exact W.
  - apply CategoryUpdateView_well_formed; exact W.
  - apply CategoryDeleteView_well_formed; exact W.
Qed.

(** X8. Whatever requests the site serves, for any page and with any
    data, its tables stay well formed: keys are not given twice, every
    product refers to a category that exists, no two products have the
    same code, and no two categories have the same name, the case of
    letters ignored. *)
Theorem every_request_keeps_the_tables_well_formed (urandom : nat -> Z)
        (vs : list visit) :
  well_formed (database (serve_all urandom initial_site vs)) /\
  forall st, well_formed (database st) ->
             well_formed (database (serve_all urandom st vs)).
Proof.
  assert (forall st, well_formed (database st) ->
                     well_formed (database (serve_all urandom st vs))) as H.
  { unfold serve_all. induction vs as [|v vs IH]; intros st W; [exact W|].
    simpl. apply IH. apply serve_well_formed. exact W. }
  split; [apply H; exact well_formed_initial | exact H].
Qed.

(** ** Walking the pages *)

Lemma firstn_add {A} (a b : nat) (l : list A) :
  firstn (a + b) l = firstn a l ++ firstn b (skipn a l).
Proof.
  revert l. induction a as [|a IH]; intros l; [reflexivity|].
  destruct l as [|x l]; simpl; [rewrite firstn_nil; reflexivity|].
  rewrite IH. reflexivity.
Qed.

(** [k] pages of [s] rows from page [a] on, one after the other. *)
Lemma chunks_from {A} (s : nat) (l : list A) (k a : nat) :
  flat_map (fun i => firstn s (skipn (i * s) l)) (seq a k)
  = firstn (k * s) (skipn (a * s) l).
Proof.
  revert a. induction k as [|k IH]; intros a; [reflexivity|].
  cbn [seq flat_map]. rewrite IH. cbn [Nat.mul].
  rewrite firstn_add, skipn_skipn. reflexivity.
Qed.

Lemma chunks_all {A} (s : nat) (l : list A) (k : nat) :
  (length l <= k * s)%nat ->
  flat_map (fun i => firstn s (skipn (i * s) l)) (seq 0 k) = l.
Proof.
  intros H. rewrite chunks_from. simpl skipn. apply firstn_all2. exact H.
Qed.

(** The page [product_list] shows for a page number in range. *)
Lemma product_list_page (d : Database) (q : option py.str) (x : py.str) (n : Z) :
  let records := db.fetch (products_views.product_list_queryset d q) in
  py.int_of_str x = Some n ->
  1 <= n <= paginator.num_pages (paginator.make records 6) ->
  exists ctx,
    products_views.product_list d {| search := q; page := Some x |} = inr ctx /\
    paginator.number (products_views.page_obj ctx) = n /\
    paginator.page_object_list (products_views.page_obj ctx)
      = firstn 6 (skipn (Z.to_nat ((n - 1) * 6)) records).
Proof.
  cbv zeta. intros Hx Hn.
  destruct (product_list_total d {| search := q; page := Some x |}) as [ctx [E [G _]]].
  cbn [search page] in G.
  rewrite (get_page_in_range _ _ _ (of_param_int_some _ _ Hx) Hn) in G.
  destruct (page_rows _ 6 _ _ eq_refl G) as [_ [Hk [_ Hr]]].
  exists ctx. split; [exact E|]. split; [exact Hk | exact Hr].
Qed.

Lemma num_pages_covers {A} (l : list A) (size : Z) :
  0 < size ->
  (length l <= Z.to_nat (paginator.num_pages (paginator.make l size)) * Z.to_nat size)%nat.
Proof.
  intros Hs. pose proof (num_pages_positive l size Hs) as P.
  destruct l as [|a l].
  - simpl. lia.
  - pose proof (num_pages_bounds (a :: l) size Hs ltac:(discriminate)) as B.
    cbv zeta in B.
    set (n := paginator.num_pages (paginator.make (a :: l) size)) in *.
    apply Nat2Z.inj_le. rewrite Nat2Z.inj_mul, !Z2Nat.id by lia. lia.
Qed.

(** X9. The pages of the product list, from page 1 to the last, show
    every product the search found exactly as the listing has them:
    put one after the other they are the listing, none left out and
    none repeated.  The page parameters may be written in any way [int]
    reads as 1, 2, ..., last. *)
Theorem product_pages_make_up_the_listing (d : Database) (q : option py.str)
        (xs : list py.str) :
  let records := db.fetch (products_views.product_list_queryset d q) in
  let last := paginator.num_pages (paginator.make records 6) in
  map py.int_of_str xs = map Some (page_numbers last) ->
  product_pages d q xs = records.
Proof.
  cbv zeta. set (records := db.fetch (products_views.product_list_queryset d q)).
  set (last := paginator.num_pages (paginator.make records 6)).
  intros H.
  assert (forall (idx : list nat) (ys : list py.str),
            (forall i, In i idx -> (i < Z.to_nat last)%nat) ->
            map py.int_of_str ys = map Some (map (fun i => Z.of_nat (S i)) idx) ->
            product_pages d q ys
            = flat_map (fun i => firstn 6 (skipn (i * 6) records)) idx) as K.
  { induction idx as [|i idx IH]; intros [|y ys] B E; try discriminate E; [reflexivity|].
    simpl in E. injection E as Ey Eys.
    unfold product_pages in *. cbn [flat_map].
    destruct (product_list_page d q y (Z.of_nat (S i)) Ey) as [ctx [Ec [_ Hr]]].
    { assert (i < Z.to_nat last)%nat by (apply B; left; reflexivity). fold records last. lia. }
    rewrite Ec, Hr. fold records.
    replace (Z.to_nat ((Z.of_nat (S i) - 1) * 6)) with (i * 6)%nat by lia.
    f_equal. apply IH; [intros j Hj; apply B; right; exact Hj | exact Eys]. }
  unfold page_numbers in H.
  rewrite (K (seq 0 (Z.to_nat last)) xs); [| |exact H].
  - apply chunks_all. exact (num_pages_covers records 6 eq_refl).
  - intros i Hi. apply in_seq in Hi. lia.
Qed.

(** The seven products of the sample are pages 1 and 2. *)
Lemma product_pages_make_up_the_listing_witness :
  product_pages sample.db7 None [py.s "1"; py.s " 2 "] = rev (product_table sample.db7).
Proof.
  exact (product_pages_make_up_the_listing sample.db7 None [py.s "1"; py.s " 2 "] eq_refl).
Defined.

(** X10. The page [product_list] shows is cut out of the listing at the
    place its number says, and holds as many rows as are left there, up
    to six: [min(6, total - 6 (number - 1))].  So no page has more than
    six rows, a page that has a next page is full, and no page of a
    listing that is not empty is empty. *)
Theorem product_page_size (d : Database) (get : query) :
  let records := db.fetch (products_views.product_list_queryset d (search get)) in
  exists ctx,
    products_views.product_list d get = inr ctx /\
    let pg := products_views.page_obj ctx in
    let n := paginator.number pg in
    let rows := paginator.page_object_list pg in
    let total := products_views.total_products ctx in
    total = Z.of_nat (length records) /\
    1 <= n <= paginator.num_pages (paginator.page_paginator pg) /\
    rows = firstn 6 (skipn (Z.to_nat (6 * (n - 1))) records) /\
    Z.of_nat (length rows) = Z.min 6 (total - 6 * (n - 1)) /\
    (paginator.has_next pg = true -> length rows = 6%nat) /\
    (paginator.has_next pg = false <-> n = paginator.num_pages (paginator.page_paginator pg)) /\
    (paginator.has_previous pg = false <-> n = 1) /\
    (0 < total -> rows <> []).
Proof.
  cbv zeta. destruct (product_list_total d get) as [ctx [E [G [P [N [_ T]]]]]].
  exists ctx. split; [exact E|].
  set (records := db.fetch (products_views.product_list_queryset d (search get))) in *.
  set (pg := products_views.page_obj ctx) in *.
  unfold paginator.get_page in G.
  destruct (page_rows _ 6 _ _ eq_refl G) as [_ [_ [_ Hr]]].
  rewrite <- (proj1 (proj2 (page_rows _ 6 _ _ eq_refl G))) in Hr.
  assert (paginator.count (paginator.make records 6) = Z.of_nat (length records)) as C
      by reflexivity.
  rewrite C in T. rewrite P.
  set (n := paginator.number pg) in *.
  set (last := paginator.num_pages (paginator.make records 6)) in *.
  assert (records <> [] -> (last - 1) * 6 < Z.of_nat (length records) <= last * 6) as B
      by (intros H; exact (num_pages_bounds records 6 eq_refl H)).
  assert ((n - 1) * 6 <= Z.of_nat (length records)) as Below.
  { destruct records as [|r records'] eqn:R.
    - unfold last in N. rewrite num_pages_empty in N by reflexivity. simpl. lia.
    - specialize (B ltac:(discriminate)). lia. }
  assert (Z.of_nat (length (paginator.page_object_list pg))
          = Z.min 6 (Z.of_nat (length records) - 6 * (n - 1))) as L.
  { rewrite Hr, length_firstn, length_skipn. lia. }
  split; [exact T|]. split; [exact N|].
  split; [rewrite Hr; f_equal; f_equal; lia|].
  rewrite T. split; [exact L|].
  unfold paginator.has_next, paginator.has_previous. rewrite P. fold n last.
  split; [|split; [|split]].
  - intros H. apply Z.ltb_lt in H.
    assert (records <> []) as Hne
        by (intros K; unfold last in H; rewrite K, num_pages_empty in H by reflexivity; lia).
    specialize (B Hne). lia.
  - rewrite Z.ltb_ge. lia.
  - rewrite Z.ltb_ge. lia.
  - intros Hpos Hnil.
    assert (Z.of_nat (length (paginator.page_object_list pg)) = 0) as Z0
        by (rewrite Hnil; reflexivity).
    assert (records <> []) as Hne by (intros K; rewrite K in Hpos; simpl in Hpos; lia).
    specialize (B Hne). lia.
Qed.

(** ** The pages of the category list *)

(** X11. The list of categories does not clamp the page number as the
    list of products does.  Without a page parameter, or with an empty
    one, it shows page 1; with ['last'] the last page; with a number in
    range that page; with a number out of range, or with anything else
    [int] refuses, it answers 404. *)
Theorem category_list_page_or_404 (d : Database) (get : query) :
  let records := db.fetch (category_views.get_queryset d get) in
  let pgn := paginator.make records 8 in
  let last := paginator.num_pages pgn in
  let shows n :=
    exists ctx,
      category_views.CategoryListView d get = Some ctx /\
      paginator.number (category_views.page_obj ctx) = n /\
      category_views.categories ctx
        = firstn 8 (skipn (Z.to_nat ((n - 1) * 8)) records) in
  (py.truthy (page get) = false -> shows 1) /\
  (page get = Some (py.s "last") -> shows last) /\
  (forall x n, page get = Some x -> py.int_of_str x = Some n ->
     1 <= n <= last -> shows n) /\
  (forall x n, page get = Some x -> py.int_of_str x = Some n ->
     n < 1 \/ last < n -> category_views.CategoryListView d get = None) /\
  (forall x, page get = Some x -> x <> [] -> py.int_of_str x = None ->
     x <> py.s "last" -> category_views.CategoryListView d get = None).
Proof.
  cbv zeta.
  set (records := db.fetch (category_views.get_queryset d get)).
  set (last := paginator.num_pages (paginator.make records 8)).
  assert (1 <= last) as L1 by (apply num_pages_positive; reflexivity).
  assert (forall n, 1 <= n <= last ->
            paginator.page (paginator.make records 8) (py.VInt n)
            = inr {| paginator.page_object_list :=
                       firstn 8 (skipn (Z.to_nat ((n - 1) * 8)) records);
                     paginator.number := n;
                     paginator.page_paginator := paginator.make records 8 |}) as Pg.
  { intros n Hn. pose proof (page_in_range (paginator.make records 8) n Hn) as H.
    destruct (page_rows _ 8 _ _ eq_refl H) as [_ [_ [_ Hr]]].
    rewrite H. cbn [paginator.page_object_list] in Hr. rewrite Hr. reflexivity. }
  assert (forall n, n < 1 \/ last < n ->
            exists e, paginator.page (paginator.make records 8) (py.VInt n) = inl e) as Out.
  { intros n Hn. unfold paginator.page, paginator.validate_number. cbn [py.int].
    destruct (n <? 1) eqn:E1; [eexists; reflexivity|].
    destruct (paginator.num_pages (paginator.make records 8) <? n) eqn:E2;
      [eexists; reflexivity|].
    apply Z.ltb_ge in E1, E2. fold last in E2. lia. }
  unfold category_views.CategoryListView, category_views.paginate_queryset,
    category_views.paginate_by. fold records.
  split; [|split; [|split; [|split]]].
  - intros H. rewrite H. cbn [py.int]. rewrite Pg by lia.
    eexists. split; [reflexivity|]. split; reflexivity.
  - intros H. rewrite H. cbn [py.truthy py.s list_ascii_of_string text py.int].
    replace (py.int_of_str _) with (@None Z) by reflexivity.
    rewrite str_eqb_refl. fold last. rewrite Pg by lia.
    eexists. split; [reflexivity|]. split; reflexivity.
  - intros x n Hp Hx Hn. rewrite Hp.
    assert (py.truthy (Some x) = true) as ->.
    { destruct x; [discriminate Hx | reflexivity]. }
    cbn [text py.int]. rewrite Hx, Pg by exact Hn.
    eexists. split; [reflexivity|]. split; reflexivity.
  - intros x n Hp Hx Hn. rewrite Hp.
    assert (py.truthy (Some x) = true) as ->.
    { destruct x; [discriminate Hx | reflexivity]. }
    cbn [text py.int]. rewrite Hx. destruct (Out n Hn) as [e He]. rewrite He. reflexivity.
  - intros x Hp Hne Hx Hl. rewrite Hp.
    assert (py.truthy (Some x) = true) as ->.
    { destruct x; [congruence | reflexivity]. }
    cbn [text py.int]. rewrite Hx.
    assert (py.str_eqb x (py.s "last") = false) as -> by (apply str_eqb_neq; exact Hl).
    reflexivity.
Qed.

(** Two categories: [?page=2] is a 404, [?page=last] is page 1. *)
Lemma category_list_page_or_404_witness :
  category_views.CategoryListView sample.db7 {| search := None; page := Some (py.s "2") |}
    = None /\
  exists ctx,
    category_views.CategoryListView sample.db7
      {| search := None; page := Some (py.s "last") |} = Some ctx /\
    paginator.number (category_views.page_obj ctx) = 1.
Proof.
  split.
  - destruct (category_list_page_or_404 sample.db7
                {| search := None; page := Some (py.s "2") |}) as [_ [_ [_ [H _]]]].
    apply (H (py.s "2") 2 eq_refl eq_refl). right. reflexivity.
  - destruct (category_list_page_or_404 sample.db7
                {| search := None; page := Some (py.s "last") |}) as [_ [H _]].
    destruct (H eq_refl) as [ctx [E [N _]]]. exists ctx. split; [exact E | exact N].
Defined.

(** ** The page of a category *)

Lemma get_products_count_dependents (d : Database) (c : Category.t) (k : Z) :
  Category.pk c = Some k ->
  get_products_count d c = Z.of_nat (length (dependents d k)).
Proof.
  intros H. unfold get_products_count, db.count, db.fetch, dependents. rewrite H.
  cbn [db.rows db.where_ db.filter db.all Product_objects_all].
  rewrite (filter_ext _ (fun r => Product.category_id r =? k))
    by (intros r; apply andb_true_l).
  rewrite filter_rev, length_rev. reflexivity.
Qed.

(** X12. The page of a category is a 404 when no category has the key.
    Otherwise it is shown, whatever the page parameter: with the
    category, the number of its products (the one
    [get_products_count] gives), and a page of at most six products,
    all of them products of that category. *)
Theorem category_detail_shows_its_products (d : Database) (k : Z) (get : query) :
  (get_category d k = None -> category_views.CategoryDetailView d k get = None) /\
  (forall c, get_category d k = Some c ->
     exists ctx,
       category_views.CategoryDetailView d k get = Some ctx /\
       category_views.category ctx = c /\
       category_views.products_count ctx = Z.of_nat (length (dependents d k)) /\
       category_views.products_count ctx = get_products_count d c /\
       (length (paginator.page_object_list (category_views.products_page ctx)) <= 6)%nat /\
       (forall p, In p (paginator.page_object_list (category_views.products_page ctx)) ->
                  In p (product_table d) /\ Product.category_id p = k) /\
       (py.truthy (page get) = false ->
        paginator.page_object_list (category_views.products_page ctx)
        = firstn 6 (rev (dependents d k)))).
Proof.
  unfold category_views.CategoryDetailView. split.
  - intros ->. reflexivity.
  - intros c G. rewrite G. destruct (get_category_Some _ _ _ G) as [_ Pk].
    set (products := db.filter (Product_objects_all d)
                               (fun r => Product.category_id r =? k)).
    assert (db.fetch products = rev (dependents d k)) as F.
    { unfold products, db.fetch, dependents.
      cbn [db.rows db.where_ db.filter db.all Product_objects_all].
      rewrite (filter_ext _ (fun r => Product.category_id r =? k))
        by (intros r; apply andb_true_l).
      apply filter_rev. }
    destruct (get_page_total (db.fetch products) 6 (py.of_param (page get)) eq_refl)
      as [pg [E _]].
    rewrite E. eexists. split; [reflexivity|].
    cbn [category_views.category category_views.products_count
         category_views.products_page].
    assert (db.count products = Z.of_nat (length (dependents d k))) as C
        by (unfold db.count; rewrite F, length_rev; reflexivity).
    split; [reflexivity|]. split; [exact C|].
    split; [rewrite C; symmetry; apply get_products_count_dependents; exact Pk|].
    pose proof E as E'. unfold paginator.get_page in E'.
    destruct (page_rows _ 6 _ _ eq_refl E') as [_ [_ [_ Hr]]]. rewrite Hr.
    split; [rewrite length_firstn; exact (Nat.le_min_l 6 _)|]. split.
    + intros p Hp. apply In_firstn, In_skipn in Hp. rewrite F in Hp.
      apply in_rev in Hp. apply filter_In in Hp. destruct Hp as [Hp Hk].
      split; [exact Hp | apply Z.eqb_eq; exact Hk].
    + intros T.
      assert (exists e, py.int (py.of_param (page get)) = inl e) as [e He].
      { destruct (page get) as [[|a x]|]; try discriminate T;
          eexists; reflexivity. }
      unfold paginator.validate_number. rewrite He, F. reflexivity.
Qed.

(** ** Deleting a category: what stays *)




(** ** The number of products of a category *)

Lemma dependents_snoc (d d' : Database) (row : Product.t) (j : Z) :
  product_table d' = product_table d ++ [row] ->
  dependents d' j
  = dependents d j ++ (if Product.category_id row =? j then [row] else []).
Proof.
  intros H. unfold dependents. rewrite H, filter_app. reflexivity.
Qed.

Lemma length_filter_without {A} (pk : A -> option Z) (f : A -> bool) (k : Z)
      (l : list A) (p : A) :
  NoDup (map pk l) -> In p l -> pk p = Some k ->
  (length (List.filter f (List.filter
             (fun r => negb match pk r with Some j => Z.eqb j k | None => false end) l))
   + (if f p then 1 else 0) = length (List.filter f l))%nat.
Proof.
  induction l as [|a l IH]; simpl; intros N Hp Hk; [contradiction|].
  inversion N as [|? ? Hn N']; subst. destruct Hp as [->|Hp].
  - rewrite Hk, Z.eqb_refl. cbn [negb].
    assert (List.filter
              (fun r => negb match pk r with Some j => Z.eqb j k | None => false end) l = l)
      as ->.
    { apply forallb_filter_id. apply forallb_forall. intros x Hx.
      destruct (pk x) as [j|] eqn:E; [|reflexivity].
      apply negb_true_iff, Z.eqb_neq. intros ->. apply Hn. rewrite Hk, <- E.
      apply in_map. exact Hx. }
    destruct (f p); simpl; lia.
  - specialize (IH N' Hp Hk).
    assert (pk a <> Some k) as Ha.
    { intros E. apply Hn. rewrite E, <- Hk. apply in_map. exact Hp. }
    assert (negb match pk a with Some j => Z.eqb j k | None => false end = true) as ->.
    { destruct (pk a) as [j|]; [|reflexivity]. apply negb_true_iff, Z.eqb_neq. congruence. }
    simpl. destruct (f a); simpl; lia.
Qed.

(** X14. The number of products a category shows follows what is created
    and deleted: it is the number of rows that refer to the category;
    creating a product adds one to the count of the category chosen
    and to no other; deleting a product takes one from the count of its
    category and from no other. *)
Theorem products_count_follows (urandom : nat -> Z) (st : Site)
        (c : Category.t) (j : Z) :
  Category.pk c = Some j ->
  get_products_count (database st) c = Z.of_nat (length (dependents (database st) j)) /\
  (forall f st' to msg chosen,
     products_views.product_create urandom st POST f = (st', redirect to msg) ->
     py.int_of_str (text (products_views.category f)) = Some chosen ->
     get_products_count (database st') c
     = get_products_count (database st) c + (if chosen =? j then 1 else 0)) /\
  (forall k p,
     NoDup (map Product.pk (product_table (database st))) ->
     products_views.product_detail (database st) k = Some p ->
     get_products_count (database (fst (products_views.product_delete st POST k))) c
     = get_products_count (database st) c
       - (if Product.category_id p =? j then 1 else 0)).
Proof.
  intros Pk. split; [apply get_products_count_dependents; exact Pk|]. split.
  - intros f st' to msg chosen H Hc.
    rewrite !(get_products_count_dependents _ c j Pk).
    apply product_create_redirect in H.
    destruct H as [category [pv [iv [row [_ [Hg [_ [_ [I _]]]]]]]]].
    destruct (Category_objects_get_inr _ _ _ Hg) as [kc [Hkc [_ Pc]]].
    assert (kc = chosen) by congruence. subst kc.
    apply insert_product_inr in I. destruct I as [_ [_ [_ [_ [Er [Tb _]]]]]].
    rewrite (dependents_snoc _ _ row j Tb), length_app.
    assert (Product.category_id row = chosen) as -> by (rewrite Er; cbn; rewrite Pc; reflexivity).
    destruct (chosen =? j); simpl; lia.
  - intros k p N Hp.
    rewrite !(get_products_count_dependents _ c j Pk).
    unfold products_views.product_detail in Hp.
    unfold products_views.product_delete. rewrite Hp. cbn [fst database].
    pose proof Hp as Hp'. apply find_some in Hp'. destruct Hp' as [Hin Hk].
    apply has_pk_Some_product in Hk. unfold Product_delete. rewrite Hk.
    unfold dependents. cbn [product_table].
    pose proof (length_filter_without Product.pk (fun r => Product.category_id r =? j)
                  k _ p N Hin Hk) as L.
    unfold Product.has_pk. destruct (Product.category_id p =? j); lia.
Qed.

(** In the sample, deleting the hammer leaves three tools. *)
Lemma products_count_follows_witness :
  get_products_count sample.db7 sample.tools = 4 /\
  get_products_count
    (database (fst (products_views.product_delete sample.site7 POST 1))) sample.tools = 3.
Proof.
  destruct (products_count_follows sample.urandom sample.site7 sample.tools 1 eq_refl)
    as [H [_ D]].
  change (database sample.site7) with sample.db7 in H, D.
  split; [rewrite H; reflexivity|].
  rewrite (D 1 (sample.product 1 "Hammer" "0A1B2C3D" 1) db7_keys_distinct eq_refl), H.
  reflexivity.
Defined.

(** ** The code and the UUID *)

Lemma testbit_small (c m : Z) : 0 <= c < 2 ^ 96 -> 96 <= m -> Z.testbit c m = false.
Proof.
  intros [H0 H1] Hm. destruct (Z.eq_dec c 0) as [->|Hc]; [apply Z.testbit_0_l|].
  apply Z.bits_above_log2; [exact H0|].
  assert (Z.log2 c < 96) by (apply Z.log2_lt_pow2; lia). lia.
Qed.

(** Setting the version and the variant leaves the bits from 96 on. *)
Lemma with_version_high (n : Z) :
  Z.shiftr (uuid.with_version n 4) 96 = Z.shiftr n 96.
Proof.
  apply Z.bits_inj'. intros i Hi. rewrite !Z.shiftr_spec by exact Hi.
  unfold uuid.with_version.
  rewrite Z.lor_spec, Z.land_spec, Z.lor_spec, Z.land_spec, !Z.lnot_spec by lia.
  assert (forall c, (0 <=? c) && (c <? 2 ^ 96) = true -> Z.testbit c (i + 96) = false) as T.
  { intros c Hc. apply andb_true_iff in Hc. destruct Hc as [H0 H1].
    apply Z.leb_le in H0. apply Z.ltb_lt in H1. apply testbit_small; lia. }
  rewrite (T (Z.shiftl 0xc000 48)), (T (Z.shiftl 0x8000 48)),
    (T (Z.shiftl 0xf000 64)), (T (Z.shiftl 4 76)) by reflexivity.
  cbn [negb]. rewrite !andb_true_r, !orb_false_r. reflexivity.
Qed.

Lemma high_digit (rnd : Z) (i : nat) :
  (i < 8)%nat ->
  Z.shiftr (uuid.with_version rnd 4) (4 * (31 - Z.of_nat i))
  = Z.shiftr rnd 96 / 16 ^ (7 - Z.of_nat i).
Proof.
  intros Hi.
  replace (4 * (31 - Z.of_nat i)) with (96 + 4 * (7 - Z.of_nat i)) by lia.
  rewrite <- Z.shiftr_shiftr by lia. rewrite with_version_high.
  rewrite (Z.shiftr_div_pow2 _ (4 * (7 - Z.of_nat i))) by lia.
  f_equal. rewrite Z.pow_mul_r by lia. reflexivity.
Qed.

Lemma new_code_of_high_bits (rnd : Z) :
  new_code rnd =
  map (fun i => py.to_upper
                  (uuid.hexdigit ((Z.shiftr rnd 96 / 16 ^ (7 - Z.of_nat i)) mod 16)))
      (seq 0 8).
Proof.
  rewrite new_code_digits. apply map_ext_in. intros i Hi. apply in_seq in Hi.
  rewrite high_digit by lia. reflexivity.
Qed.

Lemma hex_digit_value_upper (d : Z) :
  0 <= d < 16 -> hex_digit_value (py.to_upper (uuid.hexdigit d)) = Some d.
Proof.
  intros H.
  assert (d = 0 \/ d = 1 \/ d = 2 \/ d = 3 \/ d = 4 \/ d = 5 \/ d = 6 \/ d = 7 \/
          d = 8 \/ d = 9 \/ d = 10 \/ d = 11 \/ d = 12 \/ d = 13 \/ d = 14 \/ d = 15)
    as E by lia.
  repeat (destruct E as [-> | E]; [reflexivity|]). subst d. reflexivity.
Qed.

Lemma int16_of_digits (y : Z) :
  0 <= y < 2 ^ 32 ->
  int16_from 0
    (map (fun i => py.to_upper (uuid.hexdigit ((y / 16 ^ (7 - Z.of_nat i)) mod 16)))
         (seq 0 8))
  = Some y.
Proof.
  intros Hy. cbn [map seq].
  repeat (cbn [int16_from];
          rewrite hex_digit_value_upper by (apply Z.mod_pos_bound; reflexivity)).
  cbn [int16_from]. f_equal.
  repeat match goal with
         | |- context [16 ^ ?e] =>
             let v := eval vm_compute in (16 ^ e) in change (16 ^ e) with v
         end.
  change (2 ^ 32) with 4294967296 in Hy.
  Z.div_mod_to_equations. lia.
Qed.

(** X15. A generated code is the 32 leading bits of the 128 drawn,
    written in hexadecimal: read back in base 16 it is the draw shifted
    right by 96 bits.  Two draws give the same code exactly when they
    agree on these 32 bits, whatever the other 96. *)
Theorem code_is_the_leading_32_bits (rnd rnd' : Z) :
  0 <= rnd < 2 ^ 128 ->
  0 <= rnd' < 2 ^ 128 ->
  int16_from 0 (new_code rnd) = Some (Z.shiftr rnd 96) /\
  0 <= Z.shiftr rnd 96 < 2 ^ 32 /\
  (new_code rnd = new_code rnd' <-> Z.shiftr rnd 96 = Z.shiftr rnd' 96).
Proof.
  assert (forall n, 0 <= n < 2 ^ 128 -> 0 <= Z.shiftr n 96 < 2 ^ 32) as B.
  { intros n [H0 H1]. rewrite Z.shiftr_div_pow2 by lia. split.
    - apply Z.div_pos; lia.
    - apply Z.div_lt_upper_bound; [lia|].
      change (2 ^ 96 * 2 ^ 32) with (2 ^ 128). exact H1. }
  intros H H'.
  assert (forall n, 0 <= n < 2 ^ 128 -> int16_from 0 (new_code n) = Some (Z.shiftr n 96)) as D.
  { intros n Hn. rewrite new_code_of_high_bits. apply int16_of_digits. exact (B n Hn). }
  split; [exact (D rnd H)|]. split; [exact (B rnd H)|]. split.
  - intros E. pose proof (D rnd H) as D1. rewrite E, (D rnd' H') in D1.
    injection D1 as D1. symmetry. exact D1.
  - intros E. rewrite !new_code_of_high_bits, E. reflexivity.
Qed.

(** Two draws that differ in the low bits only give the same code. *)
Lemma code_is_the_leading_32_bits_witness :
  new_code (sample.urandom 0) = new_code (sample.urandom 0 + 12345) /\
  int16_from 0 (new_code (sample.urandom 0)) = Some 0x11111111.
Proof.
  destruct (code_is_the_leading_32_bits (sample.urandom 0) (sample.urandom 0 + 12345))
    as [D [_ E]].
  - split; [discriminate | reflexivity].
  - split; [discriminate | reflexivity].
  - split; [apply E; reflexivity | rewrite D; reflexivity].
Defined.

(** ** Narrowing a search *)



Lemma lower_nonempty (q q' : py.str) : py.lower q = py.lower q' -> q <> [] -> q' <> [].
Proof. destruct q, q'; simpl; congruence. Qed.



(** ** What [product_create] reports *)

(** X17. When all the parameters are there, [product_create] reports the
    first thing that goes wrong, in the order of the code.  A category
    parameter that [int] refuses is reported as 'Invalid price or stock
    value!', the [ValueError] of the query being caught with the ones of
    [float] and [int]; a key no category has, as 'Invalid category
    selected!', whatever the price and the stock are.  A price that is
    not finite and a stock that is negative or does not fit the column
    pass [float] and [int] and are refused when the row is written,
    under 'Error creating product'; a code has been drawn by then.  In
    all these cases nothing is created. *)
Theorem product_create_reports (urandom : nat -> Z) (st : Site)
        (f : products_views.form) :
  all (required f) = true ->
  let answer := products_views.product_create urandom st POST f in
  let refused e :=
    answer = ({| database := database st; draws := S (draws st) |},
              render products_create_html (Some (ErrorCreatingProduct (DbError e)))) in
  (py.int_of_str (text (products_views.category f)) = None ->
   answer = (st, render products_create_html (Some InvalidPriceOrStock))) /\
  (forall k, py.int_of_str (text (products_views.category f)) = Some k ->
     get_category (database st) k = None ->
     answer = (st, render products_create_html (Some InvalidCategorySelected))) /\
  (forall k c price_value instock_value,
     py.int_of_str (text (products_views.category f)) = Some k ->
     get_category (database st) k = Some c ->
     py.float_of_str (text (products_views.price f)) = Some price_value ->
     py.int_of_str (text (products_views.instock f)) = Some instock_value ->
     (py.float_is_finite price_value = false -> refused db.ValidationError) /\
     (py.float_is_finite price_value = true ->
      instock_value < - 2 ^ 63 \/ 2 ^ 63 <= instock_value ->
      refused db.OverflowError) /\
     (py.float_is_finite price_value = true ->
      - 2 ^ 63 <= instock_value < 0 ->
      refused (db.IntegrityError db.CheckInstock))).
Proof.
  intros A. cbv zeta. rewrite product_create_POST, A. cbn [negb].
  unfold Category_objects_get, get_category. split; [|split].
  - intros ->. reflexivity.
  - intros k -> ->. reflexivity.
  - intros k c pv iv -> -> -> ->. unfold insert_product.
    cbn [instance_of Product.price Product.instock]. split; [|split].
    + intros ->. reflexivity.
    + intros -> H. cbn [negb].
      assert (int64_ok iv = false) as ->; [|reflexivity].
      unfold int64_ok. apply andb_false_iff.
      destruct H as [H|H]; [left; apply Z.leb_gt | right; apply Z.ltb_ge]; lia.
    + intros -> H. cbn [negb].
      assert (int64_ok iv = true) as ->.
      { unfold int64_ok. apply andb_true_iff.
        split; [apply Z.leb_le | apply Z.ltb_lt]; lia. }
      cbn [negb]. rewrite (proj2 (Z.ltb_lt iv 0)) by lia. reflexivity.
Qed.

(** A category that is not a number, a price that is not a number, a
    stock below zero. *)
Lemma product_create_reports_witness :
  products_views.product_create sample.urandom sample.site7 POST
    (sample.product_form "Cap" "9.50" "3" "two")
  = (sample.site7, render products_create_html (Some InvalidPriceOrStock)) /\
  products_views.product_create sample.urandom sample.site7 POST
    (sample.product_form "Cap" "nan" "3" "2")
  = ({| database := sample.db7; draws := 1 |},
     render products_create_html
       (Some (ErrorCreatingProduct (DbError db.ValidationError)))) /\
  products_views.product_create sample.urandom sample.site7 POST
    (sample.product_form "Cap" "9.50" "-3" "2")
  = ({| database := sample.db7; draws := 1 |},
     render products_create_html
       (Some (ErrorCreatingProduct (DbError (db.IntegrityError db.CheckInstock))))).
Proof.
  split; [|split].
  - exact (proj1 (product_create_reports sample.urandom sample.site7
                    (sample.product_form "Cap" "9.50" "3" "two") eq_refl) eq_refl).
  - destruct (product_create_reports sample.urandom sample.site7
                (sample.product_form "Cap" "nan" "3" "2") eq_refl) as [_ [_ H]].
    exact (proj1 (H 2 sample.shoes py.NaN 3 eq_refl eq_refl eq_refl eq_refl) eq_refl).
  - destruct (product_create_reports sample.urandom sample.site7
                (sample.product_form "Cap" "9.50" "-3" "2") eq_refl) as [_ [_ H]].
    refine (proj2 (proj2 (H 2 sample.shoes (py.Finite false 950 (-2)) (-3)
                            eq_refl eq_refl eq_refl eq_refl)) eq_refl _).
    split; [discriminate | reflexivity].
Defined.

(** ** The errors of the category form *)

(** X18. The errors the category form puts on the name.  A blank name
    has the one error that the field is required.  The error of
    [clean_name] is there only for a name that passes the field's own
    checks and that another category has, the case of letters ignored.
    The error of the model's own uniqueness check is never shown:
    whatever it would refuse, [clean_name] has refused before. *)
Theorem category_form_name_errors (d : Database) (k : option Z)
        (f : CategoryForm.data) :
  let errs := CategoryForm.name_errors d k f in
  ~ In CategoryForm.NotUnique errs /\
  (py.strip (text (CategoryForm.name f)) = [] <-> errs = [CategoryForm.Required]) /\
  (In CategoryForm.DuplicateName errs ->
   errs = [CategoryForm.DuplicateName] /\
   acceptable_name (CategoryForm.name f) /\
   exists c, In c (category_table d) /\
             same_ignoring_case (py.strip (text (CategoryForm.name f))) (Category.name c) /\
             forall j, j <> 0 -> k = Some j -> Category.pk c <> Some j) /\
  (In CategoryForm.MaxLength errs <->
   100 < Z.of_nat (length (py.strip (text (CategoryForm.name f))))).
Proof.
  cbv zeta. unfold CategoryForm.name_errors.
  destruct (clean_char_name (CategoryForm.name f)) as [A1 A2].
  unfold CategoryForm.clean_char, CategoryForm.over in *.
  destruct (py.strip (text (CategoryForm.name f))) as [|a x] eqn:S.
  { split; [intros [H|[]]; discriminate H|]. split; [tauto|].
    split; [intros [H|[]]; discriminate H|].
    split; [intros [H|[]]; discriminate H | simpl; lia]. }
  set (value := a :: x) in *.
  assert (value <> []) as Hv by discriminate.
  destruct (100 <? Z.of_nat (length value)) eqn:L;
    destruct (existsb (fun c => py.ord c =? 0) value) eqn:N; cbn [app].
  1-3: (split; [intros H; simpl in H; intuition discriminate|];
        split; [split; [intros H; discriminate H | intros H; discriminate H]|];
        split; [intros H; simpl in H; intuition discriminate|]).
  1-2: (apply Z.ltb_lt in L; split; [intros _; exact L | intros _; left; reflexivity]).
  1: (apply Z.ltb_ge in L; split; [intros H; simpl in H; intuition discriminate | lia]).
  pose proof (A2 value eq_refl) as A. clear A1 A2.
  set (qs := match k with
             | Some j =>
                 if j =? 0
                 then db.filter (db.all (category_table d)) (db.iexact Category.name value)
                 else db.exclude (db.filter (db.all (category_table d))
                                            (db.iexact Category.name value))
                                 (Category.has_pk j)
             | None => db.filter (db.all (category_table d)) (db.iexact Category.name value)
             end).
  change (CategoryForm.clean_name d k value)
    with (if db.exists_ qs then inl CategoryForm.DuplicateName else inr value).
  destruct (db.exists_ qs) eqn:X.
  - split; [intros [H|[]]; discriminate H|].
    split; [split; [intros H; discriminate H | intros H; discriminate H]|].
    split; [|split; [intros [H|[]]; discriminate H | apply Z.ltb_ge in L; lia]].
    intros _. split; [reflexivity|]. split; [exact A|].
    unfold db.exists_ in X. destruct (db.fetch qs) as [|c r] eqn:F; [discriminate X|].
    assert (In c (db.fetch qs)) as Hc by (rewrite F; left; reflexivity).
    exists c. unfold qs in Hc. destruct k as [j|]; [destruct (j =? 0) eqn:J|].
    + apply fetch_In in Hc. cbn [db.rows db.where_ db.filter db.all] in Hc.
      destruct Hc as [Hc W]. split; [exact Hc|]. split; [apply iexact_spec; exact W|].
      intros j' Hj' [= <-]. apply Z.eqb_eq in J. contradiction.
    + apply fetch_In in Hc. cbn [db.rows db.where_ db.filter db.all db.exclude] in Hc.
      destruct Hc as [Hc W]. apply andb_true_iff in W. destruct W as [W1 W2].
      split; [exact Hc|]. split; [apply iexact_spec; exact W1|].
      intros j' _ [= <-] K. apply has_pk_Some_category in K. rewrite K in W2.
      discriminate W2.
    + apply fetch_In in Hc. cbn [db.rows db.where_ db.filter db.all] in Hc.
      destruct Hc as [Hc W]. split; [exact Hc|]. split; [apply iexact_spec; exact W|].
      intros j' _ E. discriminate E.
  - assert (CategoryForm.validate_unique d k value = []) as ->.
    { unfold CategoryForm.validate_unique.
      assert (forall c, db.exact Category.name value c = true ->
                        db.iexact Category.name value c = true) as EI.
      { intros c H. apply str_eqb_eq in H. apply iexact_spec.
        unfold same_ignoring_case. rewrite H. reflexivity. }
      unfold qs in X. destruct k as [j|]; [destruct (j =? 0)|].
      - rewrite exists_false_forall in X.
        assert (db.exists_ (db.exclude (db.filter (db.all (category_table d))
                                          (db.exact Category.name value))
                                       (Category.has_pk j)) = false) as ->; [|reflexivity].
        apply exists_exclude_false_forall. intros c Hc He.
        specialize (X c Hc). rewrite (EI c He) in X. discriminate X.
      - rewrite exists_exclude_false_forall in X.
        assert (db.exists_ (db.exclude (db.filter (db.all (category_table d))
                                          (db.exact Category.name value))
                                       (Category.has_pk j)) = false) as ->; [|reflexivity].
        apply exists_exclude_false_forall. intros c Hc He. exact (X c Hc (EI c He)).
      - rewrite exists_false_forall in X.
        assert (db.exists_ (db.filter (db.all (category_table d))
                                      (db.exact Category.name value)) = false) as ->;
          [|reflexivity].
        apply exists_false_forall. intros c Hc.
        destruct (db.exact Category.name value c) eqn:He; [|reflexivity].
        specialize (X c Hc). rewrite (EI c He) in X. discriminate X. }
    split; [intros []|].
    split; [split; [intros H; discriminate H | intros H; discriminate H]|].
    split; [intros []|]. split; [intros [] | apply Z.ltb_ge in L; lia].
Qed.

(** ** Requests that only read *)

(** X19. A [GET] request changes nothing: the forms to create, to edit
    and to delete act on [POST] alone, also when the key they are given
    belongs to no row. *)
Theorem get_requests_change_nothing (urandom : nat -> Z) (st : Site) (v : visit) :
  visit_method v = GET -> serve urandom st v = st.
Proof.
  destruct v as [get|pk|m f|m pk|get|pk get|m f|m pk f|m pk]; cbn [visit_method serve];
    try reflexivity; intros ->.
  - reflexivity.
  - unfold products_views.product_delete.
    destruct (get_product (database st) pk); reflexivity.
  - reflexivity.
  - unfold category_update.CategoryUpdateView.
    destruct (get_category (database st) pk); reflexivity.
  - unfold category_views.CategoryDeleteView.
    destruct (get_category (database st) pk); reflexivity.
Qed.

Lemma get_requests_change_nothing_witness :
  serve sample.urandom sample.site7 (visit_product_delete GET 1) = sample.site7.
Proof. exact (get_requests_change_nothing _ _ (visit_product_delete GET 1) eq_refl). Defined.
